(** * Query safety and parameterization: the Python agents, embedded

    A shallow embedding of [agents/core/query_execution_agent.py]
    ([QueryExecutionAgent]) and of the structural check of
    [agents/core/sql_agent.py] ([SQLGenerationAgent._validate_sql_structure]),
    with the properties of the parameter binder, the literal escaper, the
    keyword check and the execution coordinator.

    Python [str] values are lists of characters; the characters are the
    single-byte ones of [Ascii], on which [upper] and [strip] act as Python
    does on ASCII text.  Python [int] is [Z]. *)

From Equations Require Import Equations.
From Equations.Prop Require Import Logic.
From Stdlib Require Import List Bool Arith ZArith Lia Ascii.
From Stdlib Require String.
Import ListNotations String.StringSyntax.

Abbreviation string := String.string.
Open Scope string_scope.
Open Scope list_scope.

Arguments Ascii.eqb : simpl never.

(** ** Strings *)

Module Str.

Definition str := list ascii.

(** A Python string literal. *)
Definition py (s : string) : str := String.list_ascii_of_string s.

Definition quote : ascii := "'"%char.
Definition percent : ascii := "%"%char.

Definition is_quote (c : ascii) : bool := Ascii.eqb c quote.

(** [s.startswith(p)] *)
Fixpoint startswith (p s : str) : bool :=
  match p, s with
  | [], _ => true
  | _ :: _, [] => false
  | a :: p', b :: s' => Ascii.eqb a b && startswith p' s'
  end.

(** [sub in s] *)
Fixpoint contains (sub s : str) : bool :=
  startswith sub s ||
  match s with
  | [] => false
  | _ :: s' => contains sub s'
  end.

(** [s.count(sub)] for a non-empty [sub]: occurrences are counted from the
    left and do not overlap, so the scan resumes after a whole match. *)
Equations? count_scan (sub s : str) : nat by wf (length s) lt :=
  count_scan sub [] := 0;
  count_scan sub (c :: r) with startswith sub (c :: r) := {
    | true := S (count_scan sub (skipn (Nat.pred (length sub)) r));
    | false := count_scan sub r }.
Proof. rewrite length_skipn. lia. Qed.

(** With an empty [sub] Python counts the gaps between characters. *)
Definition count (sub s : str) : nat :=
  match sub with
  | [] => S (length s)
  | _ :: _ => count_scan sub s
  end.

(** [s.replace(old, new)] for a non-empty [old]: leftmost matches, not
    overlapping. *)
Equations? replace_scan (old new s : str) : str by wf (length s) lt :=
  replace_scan old new [] := [];
  replace_scan old new (c :: r) with startswith old (c :: r) := {
    | true := new ++ replace_scan old new (skipn (Nat.pred (length old)) r);
    | false := c :: replace_scan old new r }.
Proof. rewrite length_skipn. lia. Qed.

(** With an empty [old] Python puts [new] before every character and at the
    end. *)
Definition replace (old new s : str) : str :=
  match old with
  | [] => new ++ flat_map (fun c => c :: new) s
  | _ :: _ => replace_scan old new s
  end.

(** [s.split("'")]: the pieces between single quotes; never empty. *)
Fixpoint split_quote (s : str) : list str :=
  match s with
  | [] => [[]]
  | c :: s' =>
      if is_quote c then [] :: split_quote s'
      else match split_quote s' with
           | p :: ps => (c :: p) :: ps
           | [] => [[c]]
           end
  end.

(** ["'".join(parts)] *)
Fixpoint join_quote (parts : list str) : str :=
  match parts with
  | [] => []
  | [p] => p
  | p :: ps => p ++ quote :: join_quote ps
  end.

(** The pattern of [_prepare_query_parameters] (a quote, a group of any
    number of non-quote characters, a quote) tried right after an opening
    quote: the longest run of non-quote characters, which a quote must follow.
    Gives the captured group and the text after the match. *)
Fixpoint match_literal (r : str) : option (str * str) :=
  match r with
  | [] => None
  | c :: r' =>
      if is_quote c then Some ([], r')
      else match match_literal r' with
           | Some (content, rest) => Some (c :: content, rest)
           | None => None
           end
  end.

(** ASCII case mapping of [s.upper()]. *)
Definition upper_char (c : ascii) : ascii :=
  let n := nat_of_ascii c in
  if (97 <=? n) && (n <=? 122) then ascii_of_nat (n - 32) else c.

Definition upper (s : str) : str := map upper_char s.

(** The characters [str.strip()] removes, among the single-byte ones. *)
Definition is_space (c : ascii) : bool :=
  let n := nat_of_ascii c in
  ((9 <=? n) && (n <=? 13)) || ((28 <=? n) && (n <=? 32))
  || (n =? 133) || (n =? 160).

Fixpoint lstrip (s : str) : str :=
  match s with
  | c :: s' => if is_space c then lstrip s' else s
  | [] => []
  end.

Definition rstrip (s : str) : str := rev (lstrip (rev s)).

Definition strip (s : str) : str := rstrip (lstrip s).

End Str.
Import Str.

(** ** The parameter binder *)

Module Binder.

(** The nested function [escape_string_literal(match)]. *)
Definition escape_string_literal (content : str) : str :=
  let escaped_content := replace (py "%") (py "%%") content in
  quote :: escaped_content ++ [quote].

(** [re.sub(pattern, escape_string_literal, s)] for that pattern: matches are
    looked for from the left; after a match the scan resumes behind its
    closing quote, and a character where no match starts is copied. *)
Equations? re_sub_literals (s : str) : str by wf (length s) lt :=
  re_sub_literals [] := [];
  re_sub_literals (c :: r) with is_quote c := {
    | false := c :: re_sub_literals r;
    | true with inspect (match_literal r) := {
        | exist _ (Some (content, rest)) E :=
            escape_string_literal content ++ re_sub_literals rest;
        | exist _ None _ := c :: re_sub_literals r } }.
Proof.
  clear re_sub_literals. cbn [length]. apply Nat.lt_lt_succ_r.
  revert content rest E. induction r as [|d r IH]; cbn [match_literal length];
    intros content rest E; [discriminate|].
  destruct (is_quote d).
  - inversion E; subst. lia.
  - destruct (match_literal r) as [[k t]|]; [|discriminate].
    inversion E; subst. specialize (IH _ _ eq_refl). lia.
Qed.

(** The counting loop over [enumerate(parts)]. *)
Fixpoint count_placeholders (i : nat) (parts : list str) (placeholder_count : nat) : nat :=
  match parts with
  | [] => placeholder_count
  | part :: parts' =>
      count_placeholders (S i) parts'
        (if Nat.eqb (i mod 2) 0
         then placeholder_count + count (py "%s") part
         else placeholder_count)
  end.

Definition _prepare_query_parameters (sql_query : str) (user_id : Z) : str * list Z :=
  let safe_query := replace (py "{user_id}") (py "%s") sql_query in
  let safe_query := re_sub_literals safe_query in
  let parts := split_quote safe_query in
  let placeholder_count := count_placeholders 0 parts 0 in
  let params := repeat user_id placeholder_count in
  (safe_query, params).

End Binder.
Import Binder.

(** ** The structural check of the generation agent *)

Module Validator.

Definition dangerous_keywords : list str :=
  map py ["DROP"; "DELETE"; "INSERT"; "UPDATE"; "ALTER"; "CREATE"; "TRUNCATE"].

(** The loop over [dangerous_keywords], left at the first keyword found. *)
Fixpoint keyword_loop (keywords : list str) (sql_upper : str) : bool :=
  match keywords with
  | [] => true
  | keyword :: keywords' =>
      if contains (py " " ++ keyword ++ py " ") sql_upper
         || startswith (keyword ++ py " ") sql_upper
      then false
      else keyword_loop keywords' sql_upper
  end.

Definition _validate_sql_structure (sql_query : str) : bool :=
  match sql_query with
  | [] => false
  | _ :: _ =>
      let sql_upper := upper sql_query in
      if negb (startswith (py "SELECT") sql_upper) then false
      else if negb (contains (py "FROM") sql_upper) then false
      else if negb (contains (py "WHERE") sql_upper)
              || negb (contains (py "USER_ID") sql_upper) then false
      else keyword_loop dangerous_keywords sql_upper
  end.

End Validator.
Import Validator.

(** ** Python values, exceptions and effects *)

Module Py.

(** The values the coordinator handles.  [VDatetime t] stands for any object
    with an [isoformat] method, at the instant [t].  A dictionary keeps its
    items in insertion order, with string keys. *)
#[local] Unset Elimination Schemes.

Inductive value : Type :=
| VNone
| VBool (b : bool)
| VInt (n : Z)
| VStr (s : str)
| VDatetime (t : nat)
| VList (l : list value)
| VDict (d : list (string * value)).

#[local] Set Elimination Schemes.

Inductive exn : Type :=
| KeyError (key : value)
| IndexError
| TypeError (v : value)
| AttributeError (v : value)
| Exception (message : str).

Definition dict := list (string * value).

Fixpoint dict_get (d : dict) (k : string) : option value :=
  match d with
  | [] => None
  | (k', v) :: d' => if String.eqb k' k then Some v else dict_get d' k
  end.

(** [d[k] = v]: an existing key keeps its place. *)
Fixpoint dict_set (d : dict) (k : string) (v : value) : dict :=
  match d with
  | [] => [(k, v)]
  | (k', v') :: d' =>
      if String.eqb k' k then (k', v) :: d' else (k', v') :: dict_set d' k v
  end.

Definition keys (d : dict) : list string := map fst d.

(** Truth value of an object in a condition. *)
Definition truthy (v : value) : bool :=
  match v with
  | VNone => false
  | VBool b => b
  | VInt n => negb (n =? 0)%Z
  | VStr s => negb (Nat.eqb (length s) 0)
  | VDatetime _ => true
  | VList l => negb (Nat.eqb (length l) 0)
  | VDict d => negb (Nat.eqb (length d) 0)
  end.

(** [v[k]] with a string key. *)
Definition getitem (v : value) (k : string) : exn + value :=
  match v with
  | VDict d =>
      match dict_get d k with
      | Some x => inr x
      | None => inl (KeyError (VStr (py k)))
      end
  | _ => inl (TypeError v)
  end.

(** [v[0]] *)
Definition getfirst (v : value) : exn + value :=
  match v with
  | VList (x :: _) => inr x
  | VList [] => inl IndexError
  | VStr (c :: _) => inr (VStr [c])
  | VStr [] => inl IndexError
  | VDict _ => inl (KeyError (VInt 0))
  | _ => inl (TypeError v)
  end.

(** [v[k] = x] *)
Definition setitem (v : value) (k : string) (x : value) : exn + value :=
  match v with
  | VDict d => inr (VDict (dict_set d k x))
  | _ => inl (TypeError v)
  end.

(** The elements a [for] loop sees. *)
Definition iterate (v : value) : exn + list value :=
  match v with
  | VList l => inr l
  | VDict d => inr (map (fun kv => VStr (py (fst kv))) d)
  | VStr s => inr (map (fun c => VStr [c]) s)
  | _ => inl (TypeError v)
  end.

(** [v.items()] *)
Definition items (v : value) : exn + dict :=
  match v with
  | VDict d => inr d
  | _ => inl (AttributeError v)
  end.

(** The number an object compares as, if it is one. *)
Definition as_number (v : value) : option Z :=
  match v with
  | VInt n => Some n
  | VBool b => Some (if b then 1 else 0)%Z
  | _ => None
  end.

(** What the process has done so far: the calls made to the database
    driver, oldest first, and the clock readings taken. *)
Record World : Type := {
  driver_calls : list (str * list Z);
  clock : nat
}.

Definition record_call (q : str) (params : list Z) (w : World) : World :=
  {| driver_calls := driver_calls w ++ [(q, params)]; clock := clock w |}.

Definition tick (w : World) : World :=
  {| driver_calls := driver_calls w; clock := S (clock w) |}.

(** Computations that read and change the world and may raise. *)
Definition M (A : Type) : Type := World -> (exn + A) * World.

Definition ret {A} (a : A) : M A := fun w => (inr a, w).

Definition raise {A} (e : exn) : M A := fun w => (inl e, w).

Definition bind {A B} (m : M A) (k : A -> M B) : M B :=
  fun w =>
    match m w with
    | (inr a, w') => k a w'
    | (inl e, w') => (inl e, w')
    end.

(** A pure step that may raise. *)
Definition lift {A} (r : exn + A) : M A := fun w => (r, w).

(** [try: body  except Exception as e: handler(e)] *)
Definition try_except {A} (body : M A) (handler : exn -> M A) : M A :=
  fun w =>
    match body w with
    | (inr a, w') => (inr a, w')
    | (inl e, w') => handler e w'
    end.

End Py.
Import Py.

Declare Scope py_scope.
Delimit Scope py_scope with py.
Notation "x <- m ;; k" := (bind m (fun x => k))
  (at level 61, m at next level, right associativity) : py_scope.
Notation "' pat <- m ;; k" := (bind m (fun x => match x with pat => k end))
  (at level 61, pat pattern, m at next level, right associativity) : py_scope.
Open Scope py_scope.

(** ** The execution coordinator *)

Module Agent.

(** [backend.database.db_manager.DatabaseManager], as far as the agent uses
    it: the answer of [execute_query_with_validation] to a template and its
    parameters, which may depend on all that happened before. *)
Record DatabaseManager : Type := {
  execute_query_with_validation : World -> str -> list Z -> exn + value
}.

(** [agents.guards.security_guards.QuerySecurityGuard]: [validate_query]
    gives the pair [(is_safe, reason)]. *)
Record QuerySecurityGuard : Type := {
  validate_query : str -> Z -> exn + (bool * str)
}.

Record QueryExecutionAgent : Type := {
  db_manager : DatabaseManager;
  query_guard : QuerySecurityGuard
}.

Section Methods.

(** [t.isoformat()] of an instant and [str(e)] of an exception. *)
Variable isoformat : nat -> str.
Variable str_of_exception : exn -> str.

Variable self : QueryExecutionAgent.

(** [datetime.now().isoformat()] *)
Definition now_isoformat : M str :=
  fun w => (inr (isoformat (clock w)), tick w).

(** [self.db_manager.execute_query_with_validation(safe_query, params)] *)
Definition call_driver (safe_query : str) (params : list Z) : M value :=
  fun w =>
    (execute_query_with_validation (db_manager self) w safe_query params,
     record_call safe_query params w).

Definition process_value (v : value) : value :=
  match v with
  | VDatetime t => VStr (isoformat t)
  | _ => v
  end.

(** The inner loop over [row.items()]. *)
Definition process_row (row_items : dict) : dict :=
  fold_left (fun processed_row kv => dict_set processed_row (fst kv) (process_value (snd kv)))
            row_items [].

(** The outer loop over the rows. *)
Fixpoint process_rows (rows : list value) : exn + list value :=
  match rows with
  | [] => inr []
  | row :: rows' =>
      match items row with
      | inl e => inl e
      | inr row_items =>
          match process_rows rows' with
          | inl e => inl e
          | inr processed_results => inr (VDict (process_row row_items) :: processed_results)
          end
      end
  end.

Definition _process_query_results (results : value) : exn + value :=
  if negb (truthy results) then inr (VList [])
  else match iterate results with
       | inl e => inl e
       | inr rows =>
           match process_rows rows with
           | inl e => inl e
           | inr processed_results => inr (VList processed_results)
           end
       end.

Definition _estimate_result_size (row_count columns : value) : exn + str :=
  match as_number row_count with
  | Some n =>
      inr (if (n =? 0)%Z then py "No data"
           else if (n <? 10)%Z then py "Small dataset"
           else if (n <? 100)%Z then py "Medium dataset"
           else if (n <? 1000)%Z then py "Large dataset"
           else py "Very large dataset")
  | None => inl (TypeError row_count)
  end.

(** The dictionary of a failed execution. *)
Definition failure_result (error : value) (sql_query : str) (user_id : Z) : M value :=
  timestamp <- now_isoformat ;;
  ret (VDict [("success", VBool false);
              ("error", error);
              ("query", VStr sql_query);
              ("user_id", VInt user_id);
              ("timestamp", VStr timestamp)]).

(** The [try] block of [execute_query]. *)
Definition execute_query_try (sql_query : str) (user_id : Z) : M value :=
  '(is_safe, reason) <- lift (validate_query (query_guard self) sql_query user_id) ;;
  if negb is_safe then
    failure_result (VStr (py "Query blocked for security: " ++ reason)) sql_query user_id
  else
    let '(safe_query, params) := _prepare_query_parameters sql_query user_id in
    execution_result <- call_driver safe_query params ;;
    success <- lift (getitem execution_result "success") ;;
    if truthy success then
      results <- lift (getitem execution_result "results") ;;
      processed_results <- lift (_process_query_results results) ;;
      logged <- lift (getitem execution_result "row_count") ;;
      raw_results <- lift (getitem execution_result "results") ;;
      row_count <- lift (getitem execution_result "row_count") ;;
      columns <- lift (getitem execution_result "columns") ;;
      timestamp <- now_isoformat ;;
      execution_time <- now_isoformat ;;
      ret (VDict [("success", VBool true);
                  ("results", processed_results);
                  ("raw_results", raw_results);
                  ("row_count", row_count);
                  ("columns", columns);
                  ("query", VStr sql_query);
                  ("user_id", VInt user_id);
                  ("timestamp", VStr timestamp);
                  ("execution_time", VStr execution_time)])
    else
      logged <- lift (getitem execution_result "error") ;;
      error <- lift (getitem execution_result "error") ;;
      failure_result error sql_query user_id.

Definition execute_query (sql_query : str) (user_id : Z) : M value :=
  try_except (execute_query_try sql_query user_id)
             (fun e => failure_result (VStr (str_of_exception e)) sql_query user_id).

(** The loop of [execute_multiple_queries] from index [i] on, [results]
    being the list built so far. *)
Fixpoint execute_loop (i : nat) (queries : list str) (user_id : Z)
         (results : list value) : M (list value) :=
  match queries with
  | [] => ret results
  | query :: queries' =>
      result <- execute_query query user_id ;;
      result <- lift (setitem result "query_index" (VInt (Z.of_nat i))) ;;
      let results := results ++ [result] in
      success <- lift (getitem result "success") ;;
      if negb (truthy success) then ret results
      else execute_loop (S i) queries' user_id results
  end.

Definition execute_multiple_queries (queries : list str) (user_id : Z) : M (list value) :=
  execute_loop 0 queries user_id [].

(** The list comprehension over [dangerous_keywords]. *)
Definition found_dangerous (sql_upper : str) : list str :=
  filter (fun kw => contains kw sql_upper) dangerous_keywords.

Definition test_query_syntax (sql_query : str) : M value :=
  let sql_upper := strip (upper sql_query) in
  let found_dangerous := found_dangerous sql_upper in
  let has_select := startswith (py "SELECT") sql_upper in
  let has_from := contains (py "FROM") sql_upper in
  let has_where := contains (py "WHERE") sql_upper in
  let has_user_id := contains (py "USER_ID") sql_upper in
  let syntax_valid :=
    has_select && has_from && negb (truthy (VList (map VStr found_dangerous))) in
  timestamp <- now_isoformat ;;
  ret (VDict [("syntax_valid", VBool syntax_valid);
              ("has_select", VBool has_select);
              ("has_from", VBool has_from);
              ("has_where", VBool has_where);
              ("has_user_id", VBool has_user_id);
              ("dangerous_keywords", VList (map VStr found_dangerous));
              ("query", VStr sql_query);
              ("timestamp", VStr timestamp)]).

(** The f-string of [get_query_statistics]. *)
Definition stats_query (sql_query : str) : str :=
  py "SELECT COUNT(*) as total_rows FROM (" ++ sql_query ++ py ") as subquery".

(** The [try] block of [get_query_statistics]. *)
Definition get_query_statistics_try (sql_query : str) (user_id : Z) : M value :=
  let '(safe_query, params) := _prepare_query_parameters (stats_query sql_query) user_id in
  result <- call_driver safe_query params ;;
  success <- lift (getitem result "success") ;;
  if truthy success then
    results <- lift (getitem result "results") ;;
    total_rows <-
      (if truthy results then
         results <- lift (getitem result "results") ;;
         first <- lift (getfirst results) ;;
         lift (getitem first "total_rows")
       else ret (VInt 0)) ;;
    columns <- lift (getitem result "columns") ;;
    estimated_size <- lift (_estimate_result_size total_rows columns) ;;
    columns <- lift (getitem result "columns") ;;
    timestamp <- now_isoformat ;;
    ret (VDict [("success", VBool true);
                ("total_rows", total_rows);
                ("estimated_size", VStr estimated_size);
                ("columns", columns);
                ("query", VStr sql_query);
                ("timestamp", VStr timestamp)])
  else
    error <- lift (getitem result "error") ;;
    timestamp <- now_isoformat ;;
    ret (VDict [("success", VBool false);
                ("error", error);
                ("query", VStr sql_query);
                ("timestamp", VStr timestamp)]).

Definition get_query_statistics (sql_query : str) (user_id : Z) : M value :=
  try_except (get_query_statistics_try sql_query user_id)
             (fun e =>
                timestamp <- now_isoformat ;;
                ret (VDict [("success", VBool false);
                            ("error", VStr (str_of_exception e));
                            ("query", VStr sql_query);
                            ("timestamp", VStr timestamp)])).

End Methods.

End Agent.
Import Agent.

(** ** Reading of the specification's words *)

Module Spec.

(** The text has no single quote. *)
Definition noquote (s : str) : bool := forallb (fun c => negb (is_quote c)) s.

(** The number of single quotes of a text. *)
Definition quotes (s : str) : nat := List.length (filter is_quote s).

(** Every [%] doubled. *)
Definition double_percent (s : str) : str :=
  flat_map (fun c => if Ascii.eqb c percent then [percent; percent] else [c]) s.

(** [f] on the literal spans of a text cut at its quotes: the pieces at odd
    positions that a later quote closes.  The piece after an unpaired last
    quote is no span. *)
Fixpoint on_literals (f : str -> str) (parts : list str) : list str :=
  match parts with
  | p0 :: p1 :: ((_ :: _) as rest) => p0 :: f p1 :: on_literals f rest
  | _ => parts
  end.

(** Placeholder tokens outside literals, read off character by character:
    every quote switches between outside and inside, and a token is a [%]
    directly followed by [s]. *)
Fixpoint placeholders_from (in_literal : bool) (s : str) : nat :=
  match s with
  | [] => 0
  | c :: r =>
      if is_quote c then placeholders_from (negb in_literal) r
      else (if negb in_literal && startswith (py "%s") s then 1 else 0)
           + placeholders_from in_literal r
  end.

Definition placeholders_outside_literals (s : str) : nat := placeholders_from false s.

(** Placeholder tokens outside literal spans, a span being the text between
    an opening quote and the quote that closes it: outside a span, a quote
    opens one only if a later quote closes it, so the text behind an unpaired
    last quote is outside every span. *)
Fixpoint placeholders_outside (in_span : bool) (s : str) : nat :=
  match s with
  | [] => 0
  | c :: r =>
      if is_quote c
      then placeholders_outside (if in_span then false else negb (noquote r)) r
      else (if negb in_span && startswith (py "%s") s then 1 else 0)
           + placeholders_outside in_span r
  end.

Definition placeholders_outside_spans (s : str) : nat := placeholders_outside false s.

(** A keyword as a standalone token: it stands at the start of the text or
    behind a whitespace character, and a whitespace character follows it. *)
Fixpoint standalone_from (boundary : bool) (keyword s : str) : bool :=
  match s with
  | [] => false
  | c :: r =>
      (boundary && startswith keyword s
       && match skipn (length keyword) s with
          | d :: _ => is_space d
          | [] => false
          end)
      || standalone_from (is_space c) keyword r
  end.

Definition standalone_token (keyword s : str) : bool := standalone_from true keyword s.

(** The counting query as the specification words it. *)
Definition counting_query (sql_query : str) : str :=
  py "SELECT COUNT(*) FROM (" ++ sql_query ++ py ") AS subquery".


(** An outcome carries the query text, the user id and a timestamp, next to
    a success flag. *)
Definition annotated_result (sql_query : str) (user_id : Z) (v : value) : Prop :=
  exists d b timestamp,
    v = VDict d
    /\ dict_get d "success" = Some (VBool b)
    /\ dict_get d "query" = Some (VStr sql_query)
    /\ dict_get d "user_id" = Some (VInt user_id)
    /\ dict_get d "timestamp" = Some (VStr timestamp).

(** The outcome is a success. *)
Definition succeeded (r : value) : bool :=
  match getitem r "success" with
  | inr s => truthy s
  | inl _ => false
  end.

(** The outcome with its position in the batch. *)
Definition tagged (r : value) (i : nat) : value :=
  match r with
  | VDict d => VDict (dict_set d "query_index" (VInt (Z.of_nat i)))
  | _ => r
  end.

(** The failure an exception, a driver error or a refusal is turned into. *)
Definition failure (error : value) (sql_query : str) (user_id : Z) (timestamp : str) : value :=
  VDict [("success", VBool false);
         ("error", error);
         ("query", VStr sql_query);
         ("user_id", VInt user_id);
         ("timestamp", VStr timestamp)].

End Spec.
Import Spec.

(** ** Notions used by the proofs *)

(** The counting loop, with the parity of the index as a flag. *)
Fixpoint outside_sum (outside : bool) (parts : list str) : nat :=
  match parts with
  | [] => 0
  | part :: parts' =>
      (if outside then count (py "%s") part else 0) + outside_sum (negb outside) parts'
  end.

(** No proper suffix of the pattern starts the pattern again. *)
Definition unbordered (old : str) : bool :=
  forallb (fun k => negb (startswith (skipn k old) old)) (seq 1 (length old - 1)).

(** ** Concrete collaborators, for running the coordinator *)

Module Demo.

Definition isoformat (t : nat) : str :=
  py "2025-01-01T00:00:" ++ [ascii_of_nat (48 + t / 10 mod 10); ascii_of_nat (48 + t mod 10)].

Definition str_of_exception (e : exn) : str :=
  match e with
  | KeyError (VStr k) => quote :: k ++ [quote]
  | KeyError _ => py "0"
  | IndexError => py "list index out of range"
  | TypeError _ => py "unsupported operand"
  | AttributeError _ => py "object has no attribute 'items'"
  | Exception message => message
  end.

(** A guard that lets through what the structural check of the generation
    agent accepts. *)
Definition structural_guard : QuerySecurityGuard :=
  {| validate_query := fun sql_query _ =>
       if _validate_sql_structure sql_query then inr (true, py "Query is safe")
       else inr (false, py "Query structure is not allowed") |}.

(** A guard that refuses everything. *)
Definition refusing_guard : QuerySecurityGuard :=
  {| validate_query := fun _ _ => inr (false, py "Query structure is not allowed") |}.

(** A database that answers every query with one row holding [total_rows]. *)
Definition counting_db (total_rows : Z) : DatabaseManager :=
  {| execute_query_with_validation := fun _ _ _ =>
       inr (VDict [("success", VBool true);
                   ("results", VList [VDict [("total_rows", VInt total_rows)]]);
                   ("row_count", VInt 1);
                   ("columns", VList [VStr (py "total_rows")])]) |}.

(** A database whose driver raises. *)
Definition broken_db : DatabaseManager :=
  {| execute_query_with_validation := fun _ _ _ =>
       inl (Exception (py "Lost connection to MySQL server")) |}.

Definition agent : QueryExecutionAgent :=
  {| db_manager := counting_db 500; query_guard := structural_guard |}.

Definition refusing_agent : QueryExecutionAgent :=
  {| db_manager := counting_db 500; query_guard := refusing_guard |}.

Definition broken_agent : QueryExecutionAgent :=
  {| db_manager := broken_db; query_guard := structural_guard |}.

Definition start : World := {| driver_calls := []; clock := 0 |}.

Definition newline : ascii := "010"%char.

(** A batch of three queries, the second of which the guard refuses. *)
Definition first_query : str := py "SELECT id FROM events WHERE user_id = {user_id}".
Definition second_query : str := py "DELETE FROM events WHERE user_id = {user_id}".
Definition third_query : str := py "SELECT name FROM users WHERE user_id = {user_id}".





End Demo.

(** ** Notions used by the further properties *)

(** [padded t x]: the text [x] is [t] with some of its [%] doubled. *)
Inductive padded : str -> str -> Prop :=
| padded_nil : padded [] []
| padded_same c t x : padded t x -> padded (c :: t) (c :: x)
| padded_double t x : padded t x -> padded (percent :: t) (percent :: percent :: x).

Definition is_dict (v : value) : bool :=
  match v with
  | VDict _ => true
  | _ => false
  end.

Definition is_datetime (v : value) : bool :=
  match v with
  | VDatetime _ => true
  | _ => false
  end.

(** A row as a dictionary with each key once, which is what a Python
    dictionary is. *)
Definition proper_row (row : value) : Prop :=
  exists d, row = VDict d /\ NoDup (keys d).

(** The row with its date and time values as text, column by column. *)
Definition converted_row (isoformat : nat -> str) (row : value) : value :=
  match row with
  | VDict d => VDict (map (fun kv => (fst kv, process_value isoformat (snd kv))) d)
  | _ => row
  end.

(** The calls that [execute_query] makes to the driver: the bound query when
    the guard lets the query through, none otherwise. *)
Definition dispatched (self : QueryExecutionAgent) (sql_query : str) (user_id : Z)
  : list (str * list Z) :=
  match validate_query (query_guard self) sql_query user_id with
  | inr (true, _) => [_prepare_query_parameters sql_query user_id]
  | _ => []
  end.

(** ** The other functions of the generation agent *)

From Stdlib Require DecimalString.

Module Generation.

(** [str(n)] of an integer, as an f-string puts it into a text. *)
Definition str_of_int (n : Z) : str :=
  py (DecimalString.NilZero.string_of_int (Z.to_int n)).

(** [s.endswith(p)] *)
Definition endswith (p s : str) : bool := startswith (rev p) (rev s).

(** Two characters that [re.IGNORECASE] takes for the same. *)
Definition eqb_ignorecase (a b : ascii) : bool :=
  Ascii.eqb (upper_char a) (upper_char b).

(** A literal piece of a pattern matched at the start of a text, case
    ignored; gives the text behind it. *)
Fixpoint match_ignorecase (p s : str) : option str :=
  match p with
  | [] => Some s
  | a :: p' =>
      match s with
      | b :: s' => if eqb_ignorecase a b then match_ignorecase p' s' else None
      | [] => None
      end
  end.

(** The pattern of [_fix_user_id_placeholder] matched at the start of a text:
    [user_id], any whitespace, [=], any whitespace, the digits of the user
    id.  Neither [=] nor the first character of the number is whitespace, so
    each run of whitespace is taken whole. *)
Definition match_user_id (user_id : Z) (s : str) : option str :=
  match match_ignorecase (py "user_id") s with
  | None => None
  | Some s1 =>
      match lstrip s1 with
      | c :: s2 =>
          if eqb_ignorecase "="%char c
          then match_ignorecase (str_of_int user_id) (lstrip s2)
          else None
      | [] => None
      end
  end.

(** [re.sub(pattern, 'user_id = %s', s, flags=re.IGNORECASE)] *)
Equations? re_sub_user_id (user_id : Z) (s : str) : str by wf (length s) lt :=
  re_sub_user_id user_id [] := [];
  re_sub_user_id user_id (c :: r) with inspect (match_user_id user_id (c :: r)) := {
    | exist _ (Some rest) E := py "user_id = %s" ++ re_sub_user_id user_id rest;
    | exist _ None _ := c :: re_sub_user_id user_id r }.
Proof.
  clear re_sub_user_id.
  assert (forall p s t, match_ignorecase p s = Some t ->
                        length t + length p = length s) as L1.
  { induction p as [|a p IH]; intros s t H; cbn [match_ignorecase] in H.
    - inversion H. cbn [length]. lia.
    - destruct s as [|b s]; [discriminate|].
      destruct (eqb_ignorecase a b); [|discriminate].
      apply IH in H. cbn [length]. lia. }
  assert (forall s, length (lstrip s) <= length s) as L2.
  { induction s as [|b s IH]; cbn [lstrip length]; [lia|].
    destruct (is_space b); cbn [length]; lia. }
  unfold match_user_id in E.
  destruct (match_ignorecase (py "user_id") (c :: r)) as [s1|] eqn:M1; [|discriminate].
  apply L1 in M1. pose proof (L2 s1).
  destruct (lstrip s1) as [|d s2]; [discriminate|].
  destruct (eqb_ignorecase "=" d); [|discriminate].
  apply L1 in E. pose proof (L2 s2).
  change (length (py "user_id")) with 7 in M1. cbn [length] in *. lia.
Qed.

Definition _fix_user_id_placeholder (sql_query : str) (user_id : Z) : str :=
  match sql_query with
  | [] => sql_query
  | _ :: _ => re_sub_user_id user_id sql_query
  end.

Definition _clean_sql_response (response : str) : option str :=
  match response with
  | [] => None
  | _ :: _ =>
      let sql_query := strip response in
      let sql_query :=
        if startswith (py "```sql") sql_query then skipn 6 sql_query
        else if startswith (py "```") sql_query then skipn 3 sql_query
        else sql_query in
      let sql_query :=
        if endswith (py "```") sql_query
        then firstn (length sql_query - 3) sql_query
        else sql_query in
      let sql_query := strip sql_query in
      if negb (startswith (py "SELECT") (upper sql_query)) then None
      else Some sql_query
  end.

End Generation.
Import Generation.

(** The pattern of [_fix_user_id_placeholder] matches somewhere in the text. *)
Fixpoint has_user_id_match (user_id : Z) (s : str) : bool :=
  match s with
  | [] => false
  | _ :: r =>
      match match_user_id user_id s with
      | Some _ => true
      | None => has_user_id_match user_id r
      end
  end.

(** The characters of a number written out. *)
Definition numeral (c : ascii) : bool :=
  existsb (Ascii.eqb c) (py "-0123456789").

(** [a] is a run of consecutive characters of [b]. *)
Definition part_of (a b : str) : Prop := exists pre post, b = pre ++ a ++ post.

(** ** Generation and orchestration *)

Module Orchestration.

(** What [generate_sql_query] gets out of its collaborators (the schema
    agent, the language model and the JSON parser, none of them under
    [src/]): an exception raised on the way, a [JSONDecodeError], or the
    value that [json_response.get("sql_query", "")] gives. *)
Inductive llm_answer : Type :=
| AnswerRaises (e : exn)
| AnswerNotJson
| AnswerField (sql_query : value).

(** The answer to a question for a user at a date, which may depend on all
    that happened before. *)
Record SQLGenerationAgent : Type := {
  answer : World -> str -> Z -> str -> llm_answer
}.

(** [agents.core.response_formatting_agent.ResponseFormattingAgent], as far
    as [process_question] uses it. *)
Record ResponseFormattingAgent : Type := {
  format_error_response : str -> value -> str -> exn + value;
  format_empty_results_response : str -> exn + value;
  format_response : str -> value -> str -> exn + value
}.

Record LLMDatabaseAgent : Type := {
  sql_agent : SQLGenerationAgent;
  query_execution_agent : QueryExecutionAgent;
  response_formatting_agent : ResponseFormattingAgent
}.

(** [v.get(k)] *)
Definition get (v : value) (k : string) : exn + value :=
  match v with
  | VDict d =>
      match dict_get d k with
      | Some x => inr x
      | None => inr VNone
      end
  | _ => inl (AttributeError v)
  end.

(** [v == 0] *)
Definition eq_zero (v : value) : bool :=
  match as_number v with
  | Some n => (n =? 0)%Z
  | None => false
  end.

Section Methods.

(** [t.isoformat()], [t.strftime('%Y-%m-%d')] and [str(e)]. *)
Variable isoformat : nat -> str.
Variable strftime : nat -> str.
Variable str_of_exception : exn -> str.

(** [datetime.now().strftime('%Y-%m-%d')] *)
Definition now_strftime : M str :=
  fun w => (inr (strftime (clock w)), tick w).

(** [SQLGenerationAgent.generate_sql_query], from the answer of the model
    on. *)
Definition generate_sql_query (self : SQLGenerationAgent) (question : str)
           (user_id : Z) (current_date : option str) : M (option str) :=
  try_except
    (current_date <-
       match current_date with
       | Some (c :: d) => ret (c :: d)
       | _ => now_strftime
       end ;;
     response <- (fun w => (inr (answer self w question user_id current_date), w)) ;;
     match response with
     | AnswerRaises e => raise e
     | AnswerNotJson => ret None
     | AnswerField (VStr sql_query) =>
         let sql_query := _fix_user_id_placeholder sql_query user_id in
         if negb (Nat.eqb (length sql_query) 0) && _validate_sql_structure sql_query
         then ret (Some sql_query)
         else ret None
     | AnswerField v =>
         if truthy v then raise (TypeError v) else ret None
     end)
    (fun e => ret None).

Variable self : LLMDatabaseAgent.

(** [LLMDatabaseAgent._generate_sql_query] *)
Definition _generate_sql_query (question : str) (user_id : Z) : M (option str) :=
  try_except
    (current_date <- now_strftime ;;
     sql_query <- generate_sql_query (sql_agent self) question user_id (Some current_date) ;;
     match sql_query with
     | Some (c :: q) => ret (Some (c :: q))
     | _ => ret None
     end)
    (fun e => ret None).

(** The [try] block of [process_question]. *)
Definition process_question_try (question : str) (user_id : Z) : M value :=
  sql_query <- _generate_sql_query question user_id ;;
  match sql_query with
  | Some (c :: q) =>
      let sql_query := c :: q in
      query_results <-
        execute_query isoformat str_of_exception (query_execution_agent self)
                      sql_query user_id ;;
      success <- lift (getitem query_results "success") ;;
      if negb (truthy success) then
        error <- lift (getitem query_results "error") ;;
        shown <- lift (getitem query_results "error") ;;
        response <- lift (format_error_response (response_formatting_agent self)
                            question shown (py "database")) ;;
        ret (VDict [("success", VBool false);
                    ("error", error);
                    ("response", response)])
      else
        row_count <- lift (getitem query_results "row_count") ;;
        structured_response <-
          (if eq_zero row_count then
             formatted_response <-
               lift (format_empty_results_response (response_formatting_agent self)
                       question) ;;
             ret (VDict [("response", formatted_response);
                         ("results", VList []);
                         ("summary", VDict []);
                         ("metadata", VDict [])])
           else
             lift (format_response (response_formatting_agent self)
                     question query_results sql_query)) ;;
        unusable <-
          (if negb (truthy structured_response) then ret true
           else
             response <- lift (get structured_response "response") ;;
             ret (negb (truthy response))) ;;
        if (unusable : bool) then
          ret (VDict [("success", VBool false);
                      ("error", VStr (py "Failed to format response"));
                      ("response",
                       VStr (py "I found the data but couldn't format a proper response."));
                      ("results", VList [])])
        else
          response <- lift (getitem structured_response "response") ;;
          results <- lift (getitem structured_response "results") ;;
          timestamp <- now_isoformat isoformat ;;
          ret (VDict [("success", VBool true);
                      ("response", response);
                      ("results", results);
                      ("sql_query", VStr sql_query);
                      ("user_id", VInt user_id);
                      ("timestamp", VStr timestamp);
                      ("agents_used",
                       VList [VStr (py "SQL Generation");
                              VStr (py "Query Execution");
                              VStr (py "Response Formatting")])])
  | _ =>
      response <- lift (format_error_response (response_formatting_agent self)
                          question (VStr (py "SQL generation failed")) (py "sql")) ;;
      ret (VDict [("success", VBool false);
                  ("error", VStr (py "Failed to generate SQL query"));
                  ("response", response)])
  end.

Definition process_question (question : str) (user_id : Z) : M value :=
  try_except (process_question_try question user_id)
             (fun e =>
                response <- lift (format_error_response (response_formatting_agent self)
                                    question (VStr (str_of_exception e)) (py "general")) ;;
                ret (VDict [("success", VBool false);
                            ("error", VStr (str_of_exception e));
                            ("response", response)])).

End Methods.

End Orchestration.
Import Orchestration.

(** ** The batch with its log line *)

Module Batch.

(** [sys.int_max_str_digits] as CPython sets it. *)
Definition int_max_str_digits : Z := 4300.

(** [f"{n}"] of an integer: CPython raises a [ValueError] rather than write
    out an integer of more than [int_max_str_digits] digits. *)
Definition format_int (n : Z) : exn + str :=
  if (Z.abs n <? 10 ^ int_max_str_digits)%Z then inr (str_of_int n)
  else inl (Exception
              (py "Exceeds the limit (4300 digits) for integer string conversion; "
                 ++ py "use sys.set_int_max_str_digits() to increase the limit")).

Section Methods.

Variable isoformat : nat -> str.
Variable str_of_exception : exn -> str.
Variable self : QueryExecutionAgent.

(** The loop of [execute_multiple_queries] from index [i] on, with the log
    line at the head of its body: the line writes [user_id] into its text
    before the query is run, and no [try] is around it. *)
Fixpoint execute_loop (i : nat) (queries : list str) (user_id : Z)
         (results : list value) : M (list value) :=
  match queries with
  | [] => ret results
  | query :: queries' =>
      logged <- lift (format_int user_id) ;;
      result <- execute_query isoformat str_of_exception self query user_id ;;
      result <- lift (setitem result "query_index" (VInt (Z.of_nat i))) ;;
      let results := results ++ [result] in
      success <- lift (getitem result "success") ;;
      if negb (truthy success) then ret results
      else execute_loop (S i) queries' user_id results
  end.

Definition execute_multiple_queries (queries : list str) (user_id : Z) : M (list value) :=
  execute_loop 0 queries user_id [].

End Methods.

End Batch.

(** ** Collaborators for the runs of the further properties *)

Module Sample.

Definition strftime (t : nat) : str := py "2025-01-01".

(** Two rows of a table with a date and time column. *)
Definition rows : list value :=
  [VDict [("id", VInt 1); ("created_at", VDatetime 5)];
   VDict [("id", VInt 2); ("created_at", VNone)]].

Definition processed_rows : list value :=
  [VDict [("id", VInt 1); ("created_at", VStr (Demo.isoformat 5))];
   VDict [("id", VInt 2); ("created_at", VNone)]].

(** A database that answers every query with the two rows. *)
Definition dated_db : DatabaseManager :=
  {| execute_query_with_validation := fun _ _ _ =>
       inr (VDict [("success", VBool true);
                   ("results", VList rows);
                   ("row_count", VInt 2);
                   ("columns", VList [VStr (py "id"); VStr (py "created_at")])]) |}.


(** A database whose answer has no [success]. *)
Definition silent_db : DatabaseManager :=
  {| execute_query_with_validation := fun _ _ _ =>
       inr (VDict [("status", VStr (py "ok"))]) |}.

(** A database that finds no row. *)
Definition empty_db : DatabaseManager :=
  {| execute_query_with_validation := fun _ _ _ =>
       inr (VDict [("success", VBool true);
                   ("results", VList []);
                   ("row_count", VInt 0);
                   ("columns", VList [VStr (py "total_rows")])]) |}.

Definition dated_agent : QueryExecutionAgent :=
  {| db_manager := dated_db; query_guard := Demo.structural_guard |}.


Definition silent_agent : QueryExecutionAgent :=
  {| db_manager := silent_db; query_guard := Demo.structural_guard |}.

Definition empty_agent : QueryExecutionAgent :=
  {| db_manager := empty_db; query_guard := Demo.structural_guard |}.

(** A model that writes the user id into its query. *)
Definition literal_model : SQLGenerationAgent :=
  {| answer := fun _ _ user_id _ =>
       AnswerField (VStr (py "SELECT id FROM events WHERE user_id = "
                            ++ str_of_int user_id)) |}.

Definition formatter : ResponseFormattingAgent :=
  {| format_error_response := fun _ _ kind =>
       inr (VStr (py "Sorry, there was a problem: " ++ kind));
     format_empty_results_response := fun _ =>
       inr (VStr (py "I found nothing."));
     format_response := fun _ query_results _ =>
       match getitem query_results "results" with
       | inr results =>
           inr (VDict [("response", VStr (py "Here is what I found."));
                       ("results", results)])
       | inl e => inl e
       end |}.

(** An orchestrator whose execution agent refuses every query. *)
Definition refused_assistant : LLMDatabaseAgent :=
  {| sql_agent := literal_model;
     query_execution_agent := Demo.refusing_agent;
     response_formatting_agent := formatter |}.

Definition assistant : LLMDatabaseAgent :=
  {| sql_agent := literal_model;
     query_execution_agent := dated_agent;
     response_formatting_agent := formatter |}.

Definition question : str := py "Which events do I have?".

Definition generated_query : str := py "SELECT id FROM events WHERE user_id = %s".

(** An orchestrator whose database finds no row. *)
Definition empty_assistant : LLMDatabaseAgent :=
  {| sql_agent := literal_model;
     query_execution_agent := empty_agent;
     response_formatting_agent := formatter |}.

Definition empty_outcome : value :=
  Eval vm_compute in
    match fst (execute_query Demo.isoformat Demo.str_of_exception empty_agent
                 generated_query 7 (tick Demo.start)) with
    | inr r => r
    | inl _ => VNone
    end.

Definition after_empty : World :=
  Eval vm_compute in
    snd (execute_query Demo.isoformat Demo.str_of_exception empty_agent
           generated_query 7 (tick Demo.start)).

(** A query with whitespace at its ends, and what the syntax test says of
    it. *)
Definition spaced_query : str :=
  py "  SELECT id FROM events WHERE user_id = %s ".

Definition spaced_report : value :=
  Eval vm_compute in
    match fst (test_query_syntax Demo.isoformat spaced_query Demo.start) with
    | inr r => r
    | inl _ => VNone
    end.

End Sample.

(** ** Examples *)

Example prepare_join uid :
  _prepare_query_parameters
    (py "SELECT * FROM a JOIN b ON a.user_id = {user_id} WHERE b.user_id = {user_id}") uid
  = (py "SELECT * FROM a JOIN b ON a.user_id = %s WHERE b.user_id = %s", [uid; uid]).
Proof. vm_compute. reflexivity. Qed.

Example prepare_percent uid :
  _prepare_query_parameters
    (py "SELECT * FROM events WHERE user_id = {user_id} AND label = '50% off'") uid
  = (py "SELECT * FROM events WHERE user_id = %s AND label = '50%% off'", [uid]).
Proof. vm_compute. reflexivity. Qed.


(** ** Facts about the string operations *)

Lemma is_quote_true c : is_quote c = true -> c = quote.
Proof. apply Ascii.eqb_eq. Qed.

Lemma is_quote_quote : is_quote quote = true.
Proof. reflexivity. Qed.

Lemma count_scan_unfold sub s :
  count_scan sub s =
  match s with
  | [] => 0
  | c :: r =>
      if startswith sub s then S (count_scan sub (skipn (Nat.pred (length sub)) r))
      else count_scan sub r
  end.
Proof.
  funelim (count_scan sub s); try reflexivity;
    match goal with H : startswith _ _ = _ |- _ => rewrite H end; reflexivity.
Qed.

Lemma replace_scan_unfold old new s :
  replace_scan old new s =
  match s with
  | [] => []
  | c :: r =>
      if startswith old s
      then new ++ replace_scan old new (skipn (Nat.pred (length old)) r)
      else c :: replace_scan old new r
  end.
Proof.
  funelim (replace_scan old new s); try reflexivity;
    match goal with H : startswith _ _ = _ |- _ => rewrite H end; reflexivity.
Qed.

Lemma re_sub_unfold s :
  re_sub_literals s =
  match s with
  | [] => []
  | c :: r =>
    if is_quote c then
      match match_literal r with
      | Some (content, rest) => escape_string_literal content ++ re_sub_literals rest
      | None => c :: re_sub_literals r
      end
    else c :: re_sub_literals r
  end.
Proof.
  funelim (re_sub_literals s); try reflexivity;
    match goal with H : is_quote _ = _ |- _ => rewrite H end;
    try reflexivity;
    match goal with H : match_literal _ = _ |- _ => rewrite H end;
    reflexivity.
Qed.

Lemma match_literal_some r content rest :
  match_literal r = Some (content, rest) ->
  r = content ++ quote :: rest /\ noquote content = true.
Proof.
  revert content rest. induction r as [|c r IH]; simpl; intros content rest H.
  - discriminate.
  - destruct (is_quote c) eqn:Q.
    + inversion H; subst. apply is_quote_true in Q. subst. auto.
    + destruct (match_literal r) as [[k t]|]; [|discriminate].
      inversion H; subst. destruct (IH _ _ eq_refl) as [-> N].
      split; [reflexivity|]. simpl. rewrite Q, N. reflexivity.
Qed.

Lemma match_literal_none r : match_literal r = None -> noquote r = true.
Proof.
  induction r as [|c r IH]; simpl; intros H; [reflexivity|].
  destruct (is_quote c); [discriminate|].
  destruct (match_literal r) as [[k t]|]; [discriminate|]. auto.
Qed.

Lemma match_literal_app content rest :
  noquote content = true ->
  match_literal (content ++ quote :: rest) = Some (content, rest).
Proof.
  induction content as [|c k IH]; simpl; intros N.
  - reflexivity.
  - apply andb_prop in N as [Q N]. apply negb_true_iff in Q.
    rewrite Q, (IH N). reflexivity.
Qed.

Lemma split_quote_nonempty s : split_quote s <> [].
Proof.
  destruct s as [|c s]; simpl; [discriminate|].
  destruct (is_quote c); [discriminate|].
  destruct (split_quote s); discriminate.
Qed.

Lemma split_noquote s : noquote s = true -> split_quote s = [s].
Proof.
  induction s as [|c s IH]; simpl; intros N; [reflexivity|].
  apply andb_prop in N as [Q N]. apply negb_true_iff in Q.
  rewrite Q, (IH N). reflexivity.
Qed.

Lemma split_app_quote x y :
  noquote x = true -> split_quote (x ++ quote :: y) = x :: split_quote y.
Proof.
  induction x as [|c x IH]; simpl; intros N; [reflexivity|].
  apply andb_prop in N as [Q N]. apply negb_true_iff in Q.
  rewrite Q, (IH N). reflexivity.
Qed.

Lemma join_split s : join_quote (split_quote s) = s.
Proof.
  induction s as [|c s IH]; [reflexivity|].
  simpl split_quote. destruct (is_quote c) eqn:Q.
  - apply is_quote_true in Q. subst c.
    pose proof (split_quote_nonempty s).
    simpl. destruct (split_quote s); [contradiction|]. rewrite IH. reflexivity.
  - pose proof (split_quote_nonempty s).
    destruct (split_quote s) as [|p ps]; [contradiction|].
    rewrite <- IH. destruct ps; reflexivity.
Qed.

Lemma replace_percent s : replace (py "%") (py "%%") s = double_percent s.
Proof.
  simpl. induction s as [|c s IH]; rewrite replace_scan_unfold; [reflexivity|].
  simpl. rewrite IH. unfold percent.
  rewrite (Ascii.eqb_sym c), andb_true_r. destruct (Ascii.eqb "%" c); reflexivity.
Qed.

Lemma noquote_double_percent s : noquote (double_percent s) = noquote s.
Proof.
  induction s as [|c s IH]; [reflexivity|].
  simpl. destruct (Ascii.eqb c percent) eqn:E.
  - apply Ascii.eqb_eq in E. subst c. simpl. exact IH.
  - simpl. rewrite IH. reflexivity.
Qed.

Lemma on_literals_cons_head f c p ps :
  on_literals f ((c :: p) :: ps) =
  match on_literals f (p :: ps) with
  | q :: qs => (c :: q) :: qs
  | [] => [[c]]
  end.
Proof. destruct ps as [|p1 [|p2 rest]]; reflexivity. Qed.

Lemma escape_string_literal_eq content :
  escape_string_literal content = quote :: double_percent content ++ [quote].
Proof. unfold escape_string_literal. rewrite replace_percent. reflexivity. Qed.

(** The escaper seen through the cut at the quotes: the literal spans have
    their [%] doubled, every other piece is the same. *)
Lemma escape_split s :
  split_quote (re_sub_literals s) = on_literals double_percent (split_quote s).
Proof.
  funelim (re_sub_literals s).
  - reflexivity.
  - match goal with Q : is_quote _ = false |- _ => simpl; rewrite Q end.
    match goal with IH : split_quote _ = _ |- _ => rewrite IH end.
    pose proof (split_quote_nonempty r).
    destruct (split_quote r) as [|p ps]; [contradiction|].
    rewrite on_literals_cons_head. reflexivity.
  - match goal with Q : is_quote _ = true |- _ => apply is_quote_true in Q; subst c end.
    match goal with IH : split_quote _ = _ |- _ => rename IH into IH' end.
    destruct (match_literal_some _ _ _ E) as [-> N].
    rewrite escape_string_literal_eq. simpl. rewrite <- app_assoc. simpl.
    rewrite !split_app_quote by (rewrite ?noquote_double_percent; exact N).
    rewrite IH'. pose proof (split_quote_nonempty rest).
    destruct (split_quote rest); [contradiction|]. reflexivity.
  - match goal with Q : is_quote _ = true |- _ => simpl; rewrite Q end.
    match goal with IH : split_quote _ = _ |- _ => rewrite IH end.
    match goal with E : match_literal _ = None |- _ =>
      rewrite (split_noquote _ (match_literal_none _ E)) end.
    reflexivity.
Qed.

Lemma list_pair_ind (A : Type) (P : list A -> Prop) :
  P [] -> (forall a, P [a]) -> (forall a b l, P l -> P (a :: b :: l)) ->
  forall l, P l.
Proof.
  intros H0 H1 H2.
  assert (forall l, P l /\ forall a, P (a :: l)) as H.
  { induction l as [|b l [IH1 IH2]]; split; auto. }
  intro l. apply H.
Qed.

Lemma on_literals_step f a b c l :
  on_literals f (a :: b :: c :: l) = a :: f b :: on_literals f (c :: l).
Proof. reflexivity. Qed.

Lemma on_literals_length f l : length (on_literals f l) = length l.
Proof.
  induction l using list_pair_ind; try reflexivity.
  destruct l; [reflexivity|]. rewrite on_literals_step. simpl length in *.
  rewrite IHl. reflexivity.
Qed.

Lemma on_literals_compose f g l :
  on_literals f (on_literals g l) = on_literals (fun x => f (g x)) l.
Proof.
  induction l using list_pair_ind; try reflexivity.
  destruct l as [|c l]; [reflexivity|].
  rewrite !on_literals_step.
  destruct (on_literals g (c :: l)) eqn:E.
  - apply (f_equal (@length _)) in E. rewrite on_literals_length in E. discriminate.
  - rewrite on_literals_step, IHl. reflexivity.
Qed.

Lemma on_literals_even f l k :
  nth (2 * k) (on_literals f l) [] = nth (2 * k) l [].
Proof.
  revert k. induction l using list_pair_ind; intro k; try reflexivity.
  destruct l as [|c l]; [reflexivity|].
  destruct k as [|k]; [reflexivity|].
  replace (2 * S k) with (S (S (2 * k))) by lia.
  rewrite on_literals_step. cbn [nth]. apply IHl.
Qed.

Lemma mod2_even i : (i mod 2 =? 0) = Nat.even i.
Proof.
  induction i as [i IH] using (well_founded_induction lt_wf).
  destruct i as [|[|i]]; try reflexivity.
  rewrite Nat.even_succ_succ, <- (IH i) by lia.
  replace (S (S i)) with (i + 1 * 2) by lia.
  rewrite Nat.Div0.mod_add. reflexivity.
Qed.


Lemma count_placeholders_sum parts i acc :
  count_placeholders i parts acc = acc + outside_sum (Nat.even i) parts.
Proof.
  revert i acc. induction parts as [|p ps IH]; intros i acc;
    cbn [count_placeholders outside_sum].
  - lia.
  - rewrite IH, mod2_even, Nat.even_succ, <- Nat.negb_even.
    destruct (Nat.even i); lia.
Qed.

Lemma count_placeholder_cons c p :
  count (py "%s") (c :: p) =
  (if startswith (py "%s") (c :: p) then 1 else 0) + count (py "%s") p.
Proof.
  unfold count. simpl py. rewrite count_scan_unfold.
  destruct (startswith ["%"%char; "s"%char] (c :: p)) eqn:E; [|reflexivity].
  simpl in E. apply andb_prop in E as [_ E].
  destruct p as [|d p]; [discriminate|].
  apply andb_prop in E as [E _]. apply Ascii.eqb_eq in E. subst d.
  simpl. rewrite (count_scan_unfold _ ("s"%char :: p)). reflexivity.
Qed.

Lemma startswith_placeholder_head c r p ps :
  is_quote c = false -> split_quote r = p :: ps ->
  startswith (py "%s") (c :: p) = startswith (py "%s") (c :: r).
Proof.
  intros Q E. simpl. f_equal.
  destruct r as [|d r]; simpl in E.
  - inversion E. reflexivity.
  - destruct (is_quote d) eqn:Qd.
    + inversion E. apply is_quote_true in Qd. subst d. reflexivity.
    + destruct (split_quote r); inversion E; reflexivity.
Qed.

(** The count over the pieces outside quotes, against the scan by character. *)
Lemma outside_sum_scan s outside :
  outside_sum outside (split_quote s) = placeholders_from (negb outside) s.
Proof.
  revert outside. induction s as [|c r IH]; intro outside.
  - simpl. destruct outside; reflexivity.
  - cbn [split_quote placeholders_from]. destruct (is_quote c) eqn:Q.
    + cbn [outside_sum]. rewrite IH. destruct outside; reflexivity.
    + pose proof (split_quote_nonempty r).
      destruct (split_quote r) as [|p ps] eqn:E; [contradiction|].
      specialize (IH outside). cbn [outside_sum] in *.
      rewrite negb_involutive, <- IH.
      rewrite <- (startswith_placeholder_head c r p ps Q E).
      destruct outside; simpl negb; cbn [andb]; [|reflexivity].
      rewrite count_placeholder_cons. lia.
Qed.

Lemma count_placeholders_scan s :
  count_placeholders 0 (split_quote s) 0 = placeholders_outside_literals s.
Proof. rewrite count_placeholders_sum. simpl. apply outside_sum_scan. Qed.

(** *** Prefixes *)

Lemma startswith_app_l p x z : startswith p x = true -> startswith p (x ++ z) = true.
Proof.
  revert x. induction p as [|a p IH]; intros [|b x]; simpl; intro H; try easy.
  apply andb_prop in H as [E H]. rewrite E, (IH _ H). reflexivity.
Qed.

Lemma startswith_length p x : startswith p x = true -> length p <= length x.
Proof.
  revert x. induction p as [|a p IH]; intros [|b x]; simpl; intro H;
    try lia; try discriminate.
  apply andb_prop in H as [_ H]. apply IH in H. lia.
Qed.

Lemma startswith_eq p x : startswith p x = true -> x = p ++ skipn (length p) x.
Proof.
  revert x. induction p as [|a p IH]; intros [|b x]; simpl; intro H;
    try reflexivity; try discriminate.
  apply andb_prop in H as [E H]. apply Ascii.eqb_eq in E. subst b.
  f_equal. apply IH, H.
Qed.

Lemma startswith_self p z : startswith p (p ++ z) = true.
Proof.
  induction p as [|a p IH]; simpl; [reflexivity|].
  rewrite Ascii.eqb_refl, IH. reflexivity.
Qed.

(** A character that the pattern does not have stops every match. *)
Lemma startswith_sep p x d z :
  ~ In d p -> startswith p (x ++ d :: z) = startswith p x.
Proof.
  revert x. induction p as [|a p IH]; intros x N; [destruct x; reflexivity|].
  destruct x as [|b x]; simpl.
  - destruct (Ascii.eqb a d) eqn:E; [|reflexivity].
    apply Ascii.eqb_eq in E. subst. exfalso. apply N. left. reflexivity.
  - rewrite IH; [reflexivity|]. intro I. apply N. right. exact I.
Qed.

Lemma startswith_skip p x y :
  startswith p (x ++ y) = true -> startswith (skipn (length x) p) y = true.
Proof.
  revert p. induction x as [|b x IH]; intros p H; [exact H|].
  destruct p as [|a p]; [reflexivity|].
  simpl in H. apply andb_prop in H as [_ H]. simpl. apply IH, H.
Qed.

Lemma startswith_short q o b :
  startswith q (o ++ b) = true -> length q <= length o -> startswith q o = true.
Proof.
  revert o. induction q as [|a q IH]; intros o H L; [reflexivity|].
  destruct o as [|c o]; simpl in L; [lia|].
  simpl in *. apply andb_prop in H as [E H]. rewrite E. apply IH; [exact H|lia].
Qed.


Lemma startswith_overlap old a b :
  unbordered old = true -> a <> [] ->
  startswith old (a ++ old ++ b) = true -> length old <= length a.
Proof.
  intros U N H.
  destruct (le_lt_dec (length old) (length a)) as [L|L]; [exact L|exfalso].
  apply startswith_skip in H.
  apply startswith_short in H; [|rewrite length_skipn; lia].
  unfold unbordered in U. rewrite forallb_forall in U.
  specialize (U (length a)). rewrite H in U.
  assert (In (length a) (seq 1 (length old - 1))) as I.
  { apply in_seq. destruct a; [contradiction|]. simpl in *. lia. }
  specialize (U I). discriminate.
Qed.

(** *** Replacement *)

Section Replace.

Variables old new : str.
Hypothesis old_nonempty : old <> [].

Lemma replace_scan_nil : replace_scan old new [] = [].
Proof. rewrite replace_scan_unfold. reflexivity. Qed.

Lemma replace_scan_match s :
  startswith old s = true ->
  replace_scan old new s = new ++ replace_scan old new (skipn (length old) s).
Proof.
  intro H. rewrite replace_scan_unfold.
  destruct s as [|c r].
  - destruct old; [contradiction|discriminate].
  - rewrite H. destruct old; [contradiction|]. reflexivity.
Qed.

Lemma replace_scan_other c r :
  startswith old (c :: r) = false ->
  replace_scan old new (c :: r) = c :: replace_scan old new r.
Proof. intro H. rewrite replace_scan_unfold, H. reflexivity. Qed.

(** Replacement works on each side of a character foreign to the pattern. *)
Lemma replace_scan_sep d x y :
  ~ In d old ->
  replace_scan old new (x ++ d :: y)
  = replace_scan old new x ++ d :: replace_scan old new y.
Proof.
  intro N. remember (length x) as n eqn:Hn. revert x Hn.
  induction n as [n IH] using (well_founded_induction lt_wf). intros x Hn.
  destruct x as [|c x].
  - assert (startswith old (d :: y) = false) as E.
    { change (d :: y) with ([] ++ d :: y). rewrite startswith_sep by exact N.
      destruct old; [contradiction|reflexivity]. }
    simpl. rewrite (replace_scan_other _ _ E), replace_scan_nil. reflexivity.
  - destruct (startswith old ((c :: x) ++ d :: y)) eqn:E.
    + pose proof E as E'. rewrite startswith_sep in E' by exact N.
      pose proof (startswith_length _ _ E') as L.
      rewrite (replace_scan_match _ E), (replace_scan_match _ E').
      rewrite skipn_app. replace (length old - length (c :: x)) with 0 by lia.
      simpl skipn at 2. rewrite <- app_assoc. f_equal.
      eapply IH; [|reflexivity]. subst n. rewrite length_skipn.
      destruct old; [contradiction|]. simpl. lia.
    + pose proof E as E'. rewrite startswith_sep in E' by exact N.
      simpl app in *. rewrite (replace_scan_other _ _ E), (replace_scan_other _ _ E').
      simpl. f_equal. eapply IH; [|reflexivity]. subst n. simpl. lia.
Qed.

(** An occurrence of an unbordered pattern is replaced wherever it stands. *)
Lemma replace_scan_occurrence a b :
  unbordered old = true ->
  replace_scan old new (a ++ old ++ b)
  = replace_scan old new a ++ new ++ replace_scan old new b.
Proof.
  intro U. remember (length a) as n eqn:Hn. revert a Hn.
  induction n as [n IH] using (well_founded_induction lt_wf). intros a Hn.
  destruct a as [|c a].
  - simpl. rewrite (replace_scan_match _ (startswith_self old b)).
    rewrite skipn_app, skipn_all, Nat.sub_diag, replace_scan_nil. reflexivity.
  - destruct (startswith old ((c :: a) ++ old ++ b)) eqn:E.
    + assert (length old <= length (c :: a)) as L
        by (eapply startswith_overlap; eauto; discriminate).
      pose proof (startswith_short _ _ _ E L) as E'.
      rewrite (replace_scan_match _ E), (replace_scan_match _ E').
      rewrite skipn_app. replace (length old - length (c :: a)) with 0 by lia.
      simpl skipn at 2. rewrite <- app_assoc. f_equal.
      eapply IH; [|reflexivity]. subst n. rewrite length_skipn.
      destruct old; [contradiction|]. simpl. lia.
    + assert (startswith old (c :: a) = false) as E'.
      { destruct (startswith old (c :: a)) eqn:F; [|reflexivity].
        rewrite (startswith_app_l _ _ _ F) in E. discriminate. }
      simpl app in *. rewrite (replace_scan_other _ _ E), (replace_scan_other _ _ E').
      simpl. f_equal. eapply IH; [|reflexivity]. subst n. simpl. lia.
Qed.

(** Replacement neither adds nor removes quotes when the two texts have none. *)
Lemma replace_scan_quotes s :
  quotes old = 0 -> quotes new = 0 -> quotes (replace_scan old new s) = quotes s.
Proof.
  intros Qo Qn. remember (length s) as n eqn:Hn. revert s Hn.
  induction n as [n IH] using (well_founded_induction lt_wf). intros s Hn.
  destruct s as [|c r]; [rewrite replace_scan_nil; reflexivity|].
  destruct (startswith old (c :: r)) eqn:E.
  - rewrite (replace_scan_match _ E). rewrite (startswith_eq _ _ E) at 2.
    unfold quotes in *. rewrite !filter_app, !length_app, Qo, Qn. f_equal.
    eapply IH; [|reflexivity]. subst n. rewrite length_skipn.
    destruct old; [contradiction|]. simpl. lia.
  - rewrite (replace_scan_other _ _ E). unfold quotes in *. simpl.
    destruct (is_quote c); simpl; [f_equal|]; (eapply IH; [|reflexivity]; subst n; simpl; lia).
Qed.

End Replace.

(** *** Quotes *)

Lemma quotes_app x y : quotes (x ++ y) = quotes x + quotes y.
Proof. unfold quotes. rewrite filter_app, length_app. reflexivity. Qed.

Lemma quotes_cons c s : quotes (c :: s) = (if is_quote c then 1 else 0) + quotes s.
Proof. unfold quotes. simpl. destruct (is_quote c); reflexivity. Qed.

Lemma noquote_quotes s : noquote s = true <-> quotes s = 0.
Proof.
  induction s as [|c s IH]; [easy|].
  rewrite quotes_cons. simpl. destruct (is_quote c); simpl.
  - split; [discriminate|lia].
  - exact IH.
Qed.

Lemma split_quote_length s : length (split_quote s) = S (quotes s).
Proof.
  induction s as [|c s IH]; [reflexivity|].
  rewrite quotes_cons. simpl. destruct (is_quote c); simpl.
  - rewrite IH. reflexivity.
  - destruct (split_quote s); simpl in *; lia.
Qed.

Lemma re_sub_quotes s : quotes (re_sub_literals s) = quotes s.
Proof.
  pose proof (split_quote_length (re_sub_literals s)) as H.
  rewrite escape_split, on_literals_length, split_quote_length in H. lia.
Qed.

Lemma replace_marker_quotes s :
  quotes (replace (py "{user_id}") (py "%s") s) = quotes s.
Proof. apply replace_scan_quotes; [discriminate|reflexivity|reflexivity]. Qed.

(** A text with a quote ends in a quote-free piece behind its last quote. *)
Lemma last_quote s :
  quotes s <> 0 ->
  exists pre tail, s = pre ++ quote :: tail /\ noquote tail = true.
Proof.
  induction s as [|c s IH]; [easy|].
  rewrite quotes_cons. intro H.
  destruct (Nat.eq_dec (quotes s) 0) as [Z|Z].
  - destruct (is_quote c) eqn:Q; [|lia].
    apply is_quote_true in Q. subst c.
    exists [], s. split; [reflexivity|]. apply noquote_quotes, Z.
  - destruct (IH Z) as (pre & tail & -> & N).
    exists (c :: pre), tail. split; [reflexivity|exact N].
Qed.

(** *** The escaper on composed texts *)

Lemma re_sub_noquote x : noquote x = true -> re_sub_literals x = x.
Proof.
  intro N. rewrite <- (join_split (re_sub_literals x)), escape_split.
  rewrite (split_noquote _ N). reflexivity.
Qed.

Lemma re_sub_literal content y :
  noquote content = true ->
  re_sub_literals (quote :: content ++ quote :: y)
  = quote :: double_percent content ++ quote :: re_sub_literals y.
Proof.
  intro N.
  rewrite re_sub_unfold, is_quote_quote, (match_literal_app _ _ N).
  rewrite escape_string_literal_eq. simpl. rewrite <- app_assoc. reflexivity.
Qed.

Lemma re_sub_open_tail tail :
  noquote tail = true -> re_sub_literals (quote :: tail) = quote :: tail.
Proof.
  intro N. rewrite <- (join_split (re_sub_literals _)), escape_split.
  cbn [split_quote]. rewrite is_quote_quote, (split_noquote _ N). reflexivity.
Qed.

(** The escaper works piecewise behind a text whose quotes are paired. *)
Lemma re_sub_app_even x y :
  Nat.even (quotes x) = true ->
  re_sub_literals (x ++ y) = re_sub_literals x ++ re_sub_literals y.
Proof.
  remember (length x) as n eqn:Hn. revert x Hn.
  induction n as [n IH] using (well_founded_induction lt_wf). intros x Hn Ev.
  destruct x as [|c r]; [reflexivity|].
  rewrite quotes_cons in Ev.
  simpl app. rewrite (re_sub_unfold (c :: r ++ y)), (re_sub_unfold (c :: r)).
  destruct (is_quote c) eqn:Q.
  - destruct (match_literal r) as [[content rest]|] eqn:M.
    + destruct (match_literal_some _ _ _ M) as [-> N].
      assert (match_literal ((content ++ quote :: rest) ++ y)
              = Some (content, rest ++ y)) as ->
        by (rewrite <- app_assoc; apply match_literal_app, N).
      rewrite <- (app_assoc (escape_string_literal content)). f_equal.
      eapply IH; [|reflexivity|].
      * subst n. simpl. rewrite length_app. simpl. lia.
      * rewrite quotes_app, quotes_cons, is_quote_quote in Ev.
        apply noquote_quotes in N. rewrite N in Ev.
        simpl in Ev. exact Ev.
    + apply match_literal_none, noquote_quotes in M. rewrite M in Ev. discriminate.
  - simpl. f_equal. eapply IH; [|reflexivity|exact Ev]. subst n. simpl. lia.
Qed.

(** *** The scan for placeholders on composed texts *)

Lemma placeholders_inside s : noquote s = true -> placeholders_from true s = 0.
Proof.
  induction s as [|c s IH]; [reflexivity|]. simpl. intro N.
  apply andb_prop in N as [Q N]. apply negb_true_iff in Q. rewrite Q. simpl.
  apply IH, N.
Qed.

Lemma placeholders_sep b x z :
  placeholders_from b (x ++ quote :: z)
  = placeholders_from b x
    + placeholders_from (if Nat.even (quotes x) then negb b else b) z.
Proof.
  revert b. induction x as [|c r IH]; intro b.
  - cbn [app placeholders_from]. rewrite is_quote_quote. reflexivity.
  - rewrite quotes_cons. cbn [app placeholders_from]. destruct (is_quote c) eqn:Q.
    + rewrite IH. cbn [Nat.add]. rewrite Nat.even_succ, <- Nat.negb_even.
      destruct (Nat.even (quotes r)); simpl; rewrite ?negb_involutive; reflexivity.
    + rewrite IH. cbn [Nat.add].
      change (c :: r ++ quote :: z) with ((c :: r) ++ quote :: z).
      rewrite startswith_sep; [lia|].
      simpl. intros [E|[E|[]]]; discriminate.
Qed.

(** *** The binder as a whole *)

Lemma prepare_eq sql_query user_id :
  _prepare_query_parameters sql_query user_id
  = (re_sub_literals (replace (py "{user_id}") (py "%s") sql_query),
     repeat user_id
       (placeholders_outside_literals
          (re_sub_literals (replace (py "{user_id}") (py "%s") sql_query)))).
Proof.
  unfold _prepare_query_parameters. rewrite count_placeholders_scan. reflexivity.
Qed.

Lemma replace_marker_sep x y :
  replace (py "{user_id}") (py "%s") (x ++ quote :: y)
  = replace (py "{user_id}") (py "%s") x
    ++ quote :: replace (py "{user_id}") (py "%s") y.
Proof.
  apply replace_scan_sep; [discriminate|].
  simpl. intros H. repeat (destruct H as [H|H]; [discriminate|]). exact H.
Qed.

Lemma replace_marker_occurrence a b :
  replace (py "{user_id}") (py "%s") (a ++ py "{user_id}" ++ b)
  = replace (py "{user_id}") (py "%s") a
    ++ py "%s" ++ replace (py "{user_id}") (py "%s") b.
Proof. apply replace_scan_occurrence; [discriminate|reflexivity]. Qed.

Lemma replace_marker_noquote s :
  noquote s = true -> noquote (replace (py "{user_id}") (py "%s") s) = true.
Proof.
  intro N. apply noquote_quotes. rewrite replace_marker_quotes.
  apply noquote_quotes, N.
Qed.

Lemma noquote_app x y : noquote (x ++ y) = noquote x && noquote y.
Proof. apply forallb_app. Qed.

Lemma double_percent_app x y :
  double_percent (x ++ y) = double_percent x ++ double_percent y.
Proof. apply flat_map_app. Qed.

(** *** Spans that a quote closes *)

(** Where every quote is paired, reading the spans as closed pairs and
    switching at every quote count the same tokens. *)
Lemma outside_parity s :
  (Nat.even (quotes s) = true ->
   placeholders_outside false s = placeholders_from false s)
  /\ (Nat.odd (quotes s) = true ->
      placeholders_outside true s = placeholders_from true s).
Proof.
  induction s as [|c r [IHe IHo]]; [split; [reflexivity|discriminate]|].
  rewrite quotes_cons. cbn [placeholders_outside placeholders_from].
  destruct (is_quote c) eqn:Q; cbn [Nat.add negb].
  - split; intro H.
    + rewrite Nat.even_succ in H.
      assert (noquote r = false) as N.
      { destruct (noquote r) eqn:N; [|reflexivity].
        apply noquote_quotes in N. rewrite N in H. discriminate H. }
      rewrite N. exact (IHo H).
    + rewrite Nat.odd_succ in H. exact (IHe H).
  - split; intro H; [rewrite (IHe H)|rewrite (IHo H)]; reflexivity.
Qed.

(** Behind the last quote of a text nothing is inside a span, whether that
    quote closes a span or is unpaired. *)
Lemma outside_last_quote b x tail :
  noquote tail = true ->
  placeholders_outside b (x ++ quote :: tail)
  = placeholders_from b x + placeholders_from false tail.
Proof.
  intro N.
  assert (placeholders_outside false tail = placeholders_from false tail) as T.
  { apply outside_parity. apply noquote_quotes in N. rewrite N. reflexivity. }
  revert b. induction x as [|c r IH]; intro b.
  - cbn [app placeholders_outside placeholders_from]. rewrite is_quote_quote, N.
    destruct b; exact T.
  - cbn [app placeholders_outside placeholders_from]. destruct (is_quote c) eqn:Q.
    + rewrite noquote_app. cbn [noquote forallb]. rewrite is_quote_quote.
      cbn [negb andb]. rewrite andb_false_r. cbn [negb].
      replace (if b then false else true) with (negb b) by (destruct b; reflexivity).
      apply IH.
    + rewrite IH.
      change (c :: r ++ quote :: tail) with ((c :: r) ++ quote :: tail).
      rewrite startswith_sep; [lia|].
      intros [E|[E|[]]]; discriminate E.
Qed.

(** ** The claims on the binder and the escaper *)

(** C3, amended.  The binder returns as template the query with every marker
    replaced by the placeholder token and every [%] of its literal spans
    doubled, and as parameters the caller's user id some number of times.  For
    a query with an even number of single quotes that number is the number of
    placeholder tokens of the template outside its literal spans.  For a query
    with an odd number it is the number of those before the last quote, which
    nothing closes: the placeholder tokens behind that quote are outside every
    span and get no parameter.  For the join query of the specification the
    template has the token twice and the sequence is the user id twice. *)
Theorem prepare_parameters_match_placeholders :
  forall sql_query user_id,
    fst (_prepare_query_parameters sql_query user_id)
    = join_quote (on_literals double_percent
                    (split_quote (replace (py "{user_id}") (py "%s") sql_query)))
    /\ Forall (fun parameter => parameter = user_id)
              (snd (_prepare_query_parameters sql_query user_id))
    /\ (Nat.even (quotes sql_query) = true ->
        length (snd (_prepare_query_parameters sql_query user_id))
        = placeholders_outside_spans (fst (_prepare_query_parameters sql_query user_id)))
    /\ (Nat.odd (quotes sql_query) = true ->
        exists pre tail,
          fst (_prepare_query_parameters sql_query user_id) = pre ++ quote :: tail
          /\ noquote tail = true
          /\ length (snd (_prepare_query_parameters sql_query user_id))
             = placeholders_outside_spans pre
          /\ placeholders_outside_spans (fst (_prepare_query_parameters sql_query user_id))
             = length (snd (_prepare_query_parameters sql_query user_id))
               + placeholders_outside_spans tail)
    /\ _prepare_query_parameters
         (py "SELECT * FROM a JOIN b ON a.user_id = {user_id} WHERE b.user_id = {user_id}")
         user_id
       = (py "SELECT * FROM a JOIN b ON a.user_id = %s WHERE b.user_id = %s",
          [user_id; user_id]).
Proof.
  intros sql_query user_id. rewrite prepare_eq. cbn [fst snd].
  rewrite repeat_length.
  set (text := replace (py "{user_id}") (py "%s") sql_query).
  assert (quotes (re_sub_literals text) = quotes sql_query) as Q
    by (unfold text; rewrite re_sub_quotes; apply replace_marker_quotes).
  split; [|split; [|split; [|split]]].
  - rewrite <- escape_split. symmetry. apply join_split.
  - apply Forall_forall. intros x H. apply repeat_spec in H. exact H.
  - intro E. rewrite <- Q in E. symmetry.
    exact (proj1 (outside_parity (re_sub_literals text)) E).
  - intro O. rewrite <- Q in O.
    destruct (last_quote (re_sub_literals text)) as (pre & tail & T & N).
    { intro Z. rewrite Z in O. discriminate O. }
    exists pre, tail. split; [exact T|]. split; [exact N|].
    assert (Nat.even (quotes pre) = true) as E.
    { rewrite T, quotes_app, quotes_cons, is_quote_quote in O.
      apply noquote_quotes in N. rewrite N, Nat.add_0_r, Nat.add_1_r, Nat.odd_succ in O.
      exact O. }
    unfold placeholders_outside_spans, placeholders_outside_literals.
    rewrite T, placeholders_sep, E, outside_last_quote by exact N.
    cbn [negb]. rewrite (placeholders_inside tail N), Nat.add_0_r.
    rewrite (proj1 (outside_parity pre) E).
    assert (Nat.even (quotes tail) = true) as Et
      by (apply noquote_quotes in N; rewrite N; reflexivity).
    rewrite (proj1 (outside_parity tail) Et). split; reflexivity.
  - vm_compute. reflexivity.
Qed.

(** C4.  The escaper doubles every [%] of each single-quoted literal span
    (a piece between an opening quote and the quote that closes it) and
    changes nothing else: cut at the quotes, the text keeps every piece
    outside the spans.  For the query of the specification the literal
    becomes ['50%% off'], the template has one placeholder and the parameter
    sequence is the user id once. *)
Theorem escape_doubles_percent_in_literals :
  forall s user_id,
    re_sub_literals s = join_quote (on_literals double_percent (split_quote s))
    /\ (forall k, nth (2 * k) (split_quote (re_sub_literals s)) []
                  = nth (2 * k) (split_quote s) [])
    /\ _prepare_query_parameters
         (py "SELECT * FROM events WHERE user_id = {user_id} AND label = '50% off'") user_id
       = (py "SELECT * FROM events WHERE user_id = %s AND label = '50%% off'", [user_id])
    /\ placeholders_outside_literals
         (py "SELECT * FROM events WHERE user_id = %s AND label = '50%% off'") = 1.
Proof.
  intros s user_id. split; [|split; [|split]].
  - rewrite <- escape_split. symmetry. apply join_split.
  - intro k. rewrite escape_split. apply on_literals_even.
  - vm_compute. reflexivity.
  - vm_compute. reflexivity.
Qed.

(** C8.  Escaping twice doubles the [%] of a literal span twice, so a single
    [%] there becomes [%%%%], and the pieces outside the spans are the same
    after one and after two applications. *)
Theorem escape_twice_doubles_twice :
  forall s x y k,
    split_quote (re_sub_literals (re_sub_literals s))
    = on_literals (fun literal => double_percent (double_percent literal)) (split_quote s)
    /\ double_percent (double_percent (x ++ py "%" ++ y))
       = double_percent (double_percent x) ++ py "%%%%"
         ++ double_percent (double_percent y)
    /\ nth (2 * k) (split_quote (re_sub_literals (re_sub_literals s))) []
       = nth (2 * k) (split_quote (re_sub_literals s)) []
    /\ re_sub_literals (re_sub_literals (py "label = '%'")) = py "label = '%%%%'".
Proof.
  intros s x y k. split; [|split; [|split]].
  - rewrite !escape_split. apply on_literals_compose.
  - rewrite !double_percent_app. reflexivity.
  - rewrite (escape_split (re_sub_literals s)). apply on_literals_even.
  - vm_compute. reflexivity.
Qed.

(** C7, as the code has it.  A query text with an odd number of single quotes
    is not refused: the binder returns its template and parameters.  The text
    behind the last quote, which nothing closes, gets the marker replaced and
    no escaping, and placeholders there are not counted. *)
Theorem unbalanced_literal_passes_through :
  forall sql_query user_id,
    Nat.odd (quotes sql_query) = true ->
    exists pre tail,
      sql_query = pre ++ quote :: tail
      /\ noquote tail = true
      /\ _prepare_query_parameters sql_query user_id
         = (fst (_prepare_query_parameters pre user_id)
              ++ quote :: replace (py "{user_id}") (py "%s") tail,
            snd (_prepare_query_parameters pre user_id)).
Proof.
  intros q uid Odd.
  destruct (last_quote q) as (pre & tail & -> & N).
  { intro Z. rewrite Z in Odd. discriminate. }
  exists pre, tail. split; [reflexivity|]. split; [exact N|].
  assert (Nat.even (quotes pre) = true) as Ev.
  { rewrite quotes_app, quotes_cons, is_quote_quote in Odd.
    apply noquote_quotes in N. rewrite N, Nat.add_0_r, Nat.add_1_r in Odd.
    rewrite Nat.odd_succ in Odd. exact Odd. }
  rewrite !prepare_eq. cbn [fst snd].
  rewrite replace_marker_sep.
  assert (Nat.even (quotes (replace (py "{user_id}") (py "%s") pre)) = true) as Ev'
    by (rewrite replace_marker_quotes; exact Ev).
  rewrite (re_sub_app_even _ _ Ev').
  rewrite (re_sub_open_tail _ (replace_marker_noquote _ N)).
  f_equal. f_equal. unfold placeholders_outside_literals.
  rewrite placeholders_sep, re_sub_quotes, Ev'. cbn [negb].
  rewrite (placeholders_inside _ (replace_marker_noquote _ N)). lia.
Qed.

(** C10.  A marker inside a single-quoted literal is rewritten to the
    placeholder before the literal is escaped, so the literal of the template
    holds [%%s] in its place, and the literal adds no parameter: the
    parameters are those of the text before it and of the text behind it. *)
Theorem marker_inside_literal_is_rewritten :
  forall pre a b post user_id,
    Nat.even (quotes pre) = true -> noquote a = true -> noquote b = true ->
    _prepare_query_parameters
      (pre ++ quote :: a ++ py "{user_id}" ++ b ++ quote :: post) user_id
    = (fst (_prepare_query_parameters pre user_id)
         ++ quote :: double_percent (replace (py "{user_id}") (py "%s") a)
         ++ py "%%s"
         ++ double_percent (replace (py "{user_id}") (py "%s") b)
         ++ quote :: fst (_prepare_query_parameters post user_id),
       snd (_prepare_query_parameters pre user_id)
         ++ snd (_prepare_query_parameters post user_id)).
Proof.
  intros pre a b post uid Ev Na Nb.
  rewrite !prepare_eq. cbn [fst snd].
  set (R := replace (py "{user_id}") (py "%s")).
  assert (R (pre ++ quote :: a ++ py "{user_id}" ++ b ++ quote :: post)
          = R pre ++ quote :: (R a ++ py "%s" ++ R b) ++ quote :: R post) as ->.
  { unfold R. rewrite replace_marker_sep, replace_marker_occurrence, replace_marker_sep.
    rewrite <- !app_assoc. reflexivity. }
  assert (Nat.even (quotes (R pre)) = true) as Ev'
    by (unfold R; rewrite replace_marker_quotes; exact Ev).
  assert (noquote (R a ++ py "%s" ++ R b) = true) as NL.
  { rewrite !noquote_app. unfold R. rewrite !replace_marker_noquote by assumption.
    reflexivity. }
  rewrite (re_sub_app_even _ _ Ev'), (re_sub_literal _ _ NL).
  rewrite !double_percent_app. f_equal.
  - rewrite <- !app_assoc. reflexivity.
  - rewrite <- repeat_app. f_equal. unfold placeholders_outside_literals.
    rewrite placeholders_sep, re_sub_quotes, Ev'. cbn [negb]. f_equal.
    rewrite <- !double_percent_app.
    rewrite placeholders_sep.
    rewrite placeholders_inside by (rewrite noquote_double_percent; exact NL).
    assert (quotes (double_percent (R a ++ py "%s" ++ R b)) = 0) as ->
      by (apply noquote_quotes; rewrite noquote_double_percent; exact NL).
    reflexivity.
Qed.

Lemma prepare_parameters_match_placeholders_witness :
  Nat.even (quotes (py "SELECT * FROM events WHERE user_id = {user_id} AND label = '50% off'"))
  = true
  /\ length (snd (_prepare_query_parameters
                    (py "SELECT * FROM events WHERE user_id = {user_id} AND label = '50% off'")
                    7))
     = placeholders_outside_spans
         (fst (_prepare_query_parameters
                 (py "SELECT * FROM events WHERE user_id = {user_id} AND label = '50% off'")
                 7))
  /\ Nat.odd (quotes (py "SELECT * FROM t WHERE name = 'abc AND user_id = {user_id}")) = true
  /\ exists pre tail,
      fst (_prepare_query_parameters
             (py "SELECT * FROM t WHERE name = 'abc AND user_id = {user_id}") 7)
      = pre ++ quote :: tail
      /\ noquote tail = true
      /\ length (snd (_prepare_query_parameters
                        (py "SELECT * FROM t WHERE name = 'abc AND user_id = {user_id}") 7))
         = placeholders_outside_spans pre
      /\ placeholders_outside_spans
           (fst (_prepare_query_parameters
                   (py "SELECT * FROM t WHERE name = 'abc AND user_id = {user_id}") 7))
         = length (snd (_prepare_query_parameters
                          (py "SELECT * FROM t WHERE name = 'abc AND user_id = {user_id}") 7))
           + placeholders_outside_spans tail.
Proof.
  split; [reflexivity|]. split.
  - apply (proj1 (proj2 (proj2 (prepare_parameters_match_placeholders
                                  (py "SELECT * FROM events WHERE user_id = {user_id} AND label = '50% off'")
                                  7)))).
    reflexivity.
  - split; [reflexivity|].
    apply (proj1 (proj2 (proj2 (proj2 (prepare_parameters_match_placeholders
                                         (py "SELECT * FROM t WHERE name = 'abc AND user_id = {user_id}")
                                         7))))).
    reflexivity.
Defined.

(** C3, as the specification states it, fails: this query has one single
    quote, so its template has no literal span; the placeholder token behind
    the quote is outside every span, and the parameter sequence is empty. *)
Lemma unpaired_quote_leaves_a_placeholder_unbound :
  _prepare_query_parameters
    (py "SELECT * FROM t WHERE name = 'abc AND user_id = {user_id}") 7
  = (py "SELECT * FROM t WHERE name = 'abc AND user_id = %s", [])
  /\ placeholders_outside_spans (py "SELECT * FROM t WHERE name = 'abc AND user_id = %s") = 1
  /\ length (snd (_prepare_query_parameters
                    (py "SELECT * FROM t WHERE name = 'abc AND user_id = {user_id}") 7))
     <> placeholders_outside_spans
          (fst (_prepare_query_parameters
                  (py "SELECT * FROM t WHERE name = 'abc AND user_id = {user_id}") 7)).
Proof.
  split; [vm_compute; reflexivity|]. split; [vm_compute; reflexivity|].
  vm_compute. discriminate.
Qed.

Lemma unbalanced_literal_passes_through_witness :
  Nat.odd (quotes (py "SELECT * FROM t WHERE user_id = {user_id} AND name = 'abc")) = true
  /\ exists pre tail,
      py "SELECT * FROM t WHERE user_id = {user_id} AND name = 'abc" = pre ++ quote :: tail
      /\ noquote tail = true
      /\ _prepare_query_parameters
           (py "SELECT * FROM t WHERE user_id = {user_id} AND name = 'abc") 7
         = (fst (_prepare_query_parameters pre 7)
              ++ quote :: replace (py "{user_id}") (py "%s") tail,
            snd (_prepare_query_parameters pre 7)).
Proof.
  split; [reflexivity|].
  apply (unbalanced_literal_passes_through
           (py "SELECT * FROM t WHERE user_id = {user_id} AND name = 'abc") 7).
  reflexivity.
Defined.

(** C7, as the specification states it, fails: this query has one single
    quote, and the binder escapes and binds it like any other. *)
Lemma unbalanced_literal_is_bound :
  Nat.odd (quotes (py "SELECT * FROM t WHERE user_id = {user_id} AND name = 'abc")) = true
  /\ _prepare_query_parameters
       (py "SELECT * FROM t WHERE user_id = {user_id} AND name = 'abc") 7
     = (py "SELECT * FROM t WHERE user_id = %s AND name = 'abc", [7%Z]).
Proof. split; vm_compute; reflexivity. Qed.

Lemma marker_inside_literal_is_rewritten_witness :
  Nat.even (quotes (py "SELECT * FROM t WHERE user_id = {user_id} AND tag = ")) = true
  /\ noquote (py "id-") = true
  /\ noquote (py "-x") = true
  /\ _prepare_query_parameters
       (py "SELECT * FROM t WHERE user_id = {user_id} AND tag = "
          ++ quote :: py "id-" ++ py "{user_id}" ++ py "-x" ++ quote :: py " LIMIT 5") 7
     = (fst (_prepare_query_parameters
               (py "SELECT * FROM t WHERE user_id = {user_id} AND tag = ") 7)
          ++ quote :: double_percent (replace (py "{user_id}") (py "%s") (py "id-"))
          ++ py "%%s"
          ++ double_percent (replace (py "{user_id}") (py "%s") (py "-x"))
          ++ quote :: fst (_prepare_query_parameters (py " LIMIT 5") 7),
        snd (_prepare_query_parameters
               (py "SELECT * FROM t WHERE user_id = {user_id} AND tag = ") 7)
          ++ snd (_prepare_query_parameters (py " LIMIT 5") 7)).
Proof.
  repeat (split; [reflexivity|]).
  apply (marker_inside_literal_is_rewritten
           (py "SELECT * FROM t WHERE user_id = {user_id} AND tag = ")
           (py "id-") (py "-x") (py " LIMIT 5") 7); reflexivity.
Defined.

Example marker_inside_literal uid :
  _prepare_query_parameters
    (py "SELECT * FROM t WHERE user_id = {user_id} AND tag = 'id-{user_id}-x' LIMIT 5") uid
  = (py "SELECT * FROM t WHERE user_id = %s AND tag = 'id-%%s-x' LIMIT 5", [uid]).
Proof. vm_compute. reflexivity. Qed.

(** ** The claim on the keyword check *)

Lemma keyword_loop_found keywords keyword sql_upper :
  In keyword keywords ->
  contains (py " " ++ keyword ++ py " ") sql_upper = true
  \/ startswith (keyword ++ py " ") sql_upper = true ->
  keyword_loop keywords sql_upper = false.
Proof.
  intros I H. induction keywords as [|k ks IH]; [contradiction|].
  cbn [keyword_loop]. destruct I as [->|I].
  - destruct H as [-> | ->]; rewrite ?orb_true_r; reflexivity.
  - destruct (_ || _); [reflexivity|]. apply IH, I.
Qed.

(** What the structural check does catch: a forbidden keyword between two
    space characters of the upper-cased text, or at its start before a
    space.  A forbidden keyword that is only part of a name, as in
    [created_at], does not make it refuse the query. *)
Lemma space_bounded_keyword_is_rejected :
  forall sql_query keyword,
    In keyword dangerous_keywords ->
    contains (py " " ++ keyword ++ py " ") (upper sql_query) = true
    \/ startswith (keyword ++ py " ") (upper sql_query) = true ->
    _validate_sql_structure sql_query = false
    /\ _validate_sql_structure (py "SELECT created_at FROM events WHERE user_id = %s") = true.
Proof.
  intros q kw I H. split; [|vm_compute; reflexivity].
  unfold _validate_sql_structure. destruct q as [|c q]; [reflexivity|].
  cbv zeta.
  destruct (negb (startswith (py "SELECT") (upper (c :: q)))); [reflexivity|].
  destruct (negb (contains (py "FROM") (upper (c :: q)))); [reflexivity|].
  destruct (_ || _); [reflexivity|].
  eapply keyword_loop_found; eassumption.
Qed.

Example space_bounded_keyword_is_rejected_drop :
  In (py "DROP") dangerous_keywords
  /\ (contains (py " " ++ py "DROP" ++ py " ")
        (upper (py "SELECT id FROM t WHERE user_id = %s; drop table t")) = true
      \/ startswith (py "DROP" ++ py " ")
           (upper (py "SELECT id FROM t WHERE user_id = %s; drop table t")) = true)
  /\ _validate_sql_structure (py "SELECT id FROM t WHERE user_id = %s; drop table t") = false
  /\ _validate_sql_structure (py "SELECT created_at FROM events WHERE user_id = %s") = true.
Proof.
  assert (In (py "DROP") dangerous_keywords) as I by (left; reflexivity).
  assert (contains (py " " ++ py "DROP" ++ py " ")
            (upper (py "SELECT id FROM t WHERE user_id = %s; drop table t")) = true
          \/ startswith (py "DROP" ++ py " ")
               (upper (py "SELECT id FROM t WHERE user_id = %s; drop table t")) = true) as H
    by (left; reflexivity).
  split; [exact I|]. split; [exact H|].
  exact (space_bounded_keyword_is_rejected
           (py "SELECT id FROM t WHERE user_id = %s; drop table t") (py "DROP") I H).
Qed.

(** C5.  The claim asks that a forbidden keyword standing as a token of its
    own is refused and that one inside a name is neither refused nor
    reported.  The code misses both ways: [_validate_sql_structure] accepts a
    query whose [DROP] stands behind a line break, a standalone token, because
    it looks for the keyword between two space characters only; and
    [test_query_syntax] reports [CREATE] for a query that only names the
    column [created_at], and calls its syntax invalid, because it looks for
    the keyword as a piece of text. *)
Theorem keyword_check_misses_token_and_reports_name :
  (In (py "DROP") dangerous_keywords
   /\ standalone_token (py "DROP")
        (upper (py "SELECT id FROM t WHERE user_id = %s"
                  ++ Demo.newline :: py "DROP TABLE t"))
      = true
   /\ _validate_sql_structure
        (py "SELECT id FROM t WHERE user_id = %s" ++ Demo.newline :: py "DROP TABLE t")
      = true)
  /\ (standalone_token (py "CREATE")
        (upper (py "SELECT created_at FROM events WHERE user_id = %s")) = false
      /\ _validate_sql_structure (py "SELECT created_at FROM events WHERE user_id = %s")
         = true
      /\ found_dangerous
           (strip (upper (py "SELECT created_at FROM events WHERE user_id = %s")))
         = [py "CREATE"]
      /\ fst (test_query_syntax Demo.isoformat
                (py "SELECT created_at FROM events WHERE user_id = %s") Demo.start)
         = inr (VDict [("syntax_valid", VBool false);
                       ("has_select", VBool true);
                       ("has_from", VBool true);
                       ("has_where", VBool true);
                       ("has_user_id", VBool true);
                       ("dangerous_keywords", VList [VStr (py "CREATE")]);
                       ("query",
                        VStr (py "SELECT created_at FROM events WHERE user_id = %s"));
                       ("timestamp", VStr (Demo.isoformat 0))])).
Proof.
  split.
  - split; [left; reflexivity|]. split; vm_compute; reflexivity.
  - repeat split; vm_compute; reflexivity.
Qed.

(** ** The claims on the coordinator *)

Arguments getitem : simpl never.
Arguments setitem : simpl never.
Arguments _process_query_results : simpl never.
Arguments _prepare_query_parameters : simpl never.
Arguments _estimate_result_size : simpl never.
Arguments truthy : simpl never.

(** Unfolds the monadic steps of a method. *)
Ltac run :=
  unfold execute_query, execute_query_try, get_query_statistics,
    get_query_statistics_try, failure_result, try_except, bind, lift, ret,
    now_isoformat, call_driver in *.

(** Splits on the outcome of the next step that the goal or a hypothesis
    waits for. *)
Ltac step :=
  match goal with
  | H : (inl _, _) = (inr _, _) |- _ => discriminate H
  | H : context [match ?x with _ => _ end] |- _ => destruct x eqn:?; cbn in H
  | H : context [if ?x then _ else _] |- _ => destruct x eqn:?; cbn in H
  end.

Lemma dict_get_set_other d k k' v :
  k <> k' -> dict_get (dict_set d k v) k' = dict_get d k'.
Proof.
  intro N. induction d as [|[k0 v0] d IH]; simpl.
  - destruct (String.eqb k k') eqn:E; [|reflexivity].
    apply String.eqb_eq in E. contradiction.
  - destruct (String.eqb k0 k) eqn:E; simpl.
    + apply String.eqb_eq in E. subst k0.
      destruct (String.eqb k k') eqn:E'; [|reflexivity].
      apply String.eqb_eq in E'. contradiction.
    + rewrite IH. reflexivity.
Qed.

Lemma succeeded_tagged r i : succeeded (tagged r i) = succeeded r.
Proof.
  destruct r; try reflexivity. unfold succeeded, tagged, getitem.
  rewrite dict_get_set_other by discriminate. reflexivity.
Qed.

Section Coordinator.

Variable isoformat : nat -> str.
Variable str_of_exception : exn -> str.
Variable self : QueryExecutionAgent.

Local Abbreviation execute_query := (execute_query isoformat str_of_exception self).
Local Abbreviation execute_query_try := (execute_query_try isoformat self).
Local Abbreviation execute_multiple_queries :=
  (execute_multiple_queries isoformat str_of_exception self).
Local Abbreviation execute_loop := (execute_loop isoformat str_of_exception self).
Local Abbreviation get_query_statistics :=
  (get_query_statistics isoformat str_of_exception self).

Lemma execute_query_blocked sql_query user_id reason w :
  validate_query (query_guard self) sql_query user_id = inr (false, reason) ->
  execute_query sql_query user_id w
  = (inr (failure (VStr (py "Query blocked for security: " ++ reason))
                  sql_query user_id (isoformat (clock w))),
     tick w).
Proof. intro H. run. rewrite H. reflexivity. Qed.

Lemma execute_query_handler sql_query user_id w e w1 :
  execute_query_try sql_query user_id w = (inl e, w1) ->
  execute_query sql_query user_id w
  = (inr (failure (VStr (str_of_exception e)) sql_query user_id (isoformat (clock w1))),
     tick w1).
Proof.
  intro H. unfold Agent.execute_query, try_except. rewrite H. reflexivity.
Qed.

Lemma failure_annotated error sql_query user_id timestamp :
  annotated_result sql_query user_id (failure error sql_query user_id timestamp).
Proof. eexists _, false, timestamp. repeat split. Qed.

Lemma execute_query_try_annotated sql_query user_id w v w1 :
  execute_query_try sql_query user_id w = (inr v, w1) ->
  annotated_result sql_query user_id v.
Proof.
  intro H. run. repeat step; inversion H; subst;
    try apply failure_annotated.
  eexists _, true, _. repeat split.
Qed.

Lemma execute_query_annotated sql_query user_id w :
  exists v w1,
    execute_query sql_query user_id w = (inr v, w1)
    /\ annotated_result sql_query user_id v.
Proof.
  destruct (execute_query_try sql_query user_id w) as [[e|v] w1] eqn:E.
  - rewrite (execute_query_handler _ _ _ _ _ E).
    eexists _, _. split; [reflexivity|]. apply failure_annotated.
  - exists v, w1. split.
    + unfold Agent.execute_query, try_except. rewrite E. reflexivity.
    + eapply execute_query_try_annotated, E.
Qed.

(** C1.  When the guard refuses a query, [execute_query] returns the failure
    that names the refusal and its reason, and the calls made to the driver
    are the ones made before: the driver is not contacted. *)
Theorem rejected_query_never_reaches_driver :
  forall sql_query user_id reason w,
    validate_query (query_guard self) sql_query user_id = inr (false, reason) ->
    fst (execute_query sql_query user_id w)
    = inr (failure (VStr (py "Query blocked for security: " ++ reason))
                   sql_query user_id (isoformat (clock w)))
    /\ driver_calls (snd (execute_query sql_query user_id w)) = driver_calls w.
Proof.
  intros q uid reason w H. rewrite (execute_query_blocked _ _ _ _ H).
  split; reflexivity.
Qed.

(** C9.  [execute_query] always returns a dictionary, which holds a success
    flag, the query text, the user id and a timestamp.  An exception raised
    inside its [try] block, by the driver among others, becomes the failure
    whose error is the text of the exception. *)
Theorem execute_query_returns_a_result :
  forall sql_query user_id w,
    (exists v w1,
        execute_query sql_query user_id w = (inr v, w1)
        /\ annotated_result sql_query user_id v)
    /\ (forall e w1,
          execute_query_try sql_query user_id w = (inl e, w1) ->
          execute_query sql_query user_id w
          = (inr (failure (VStr (str_of_exception e)) sql_query user_id
                          (isoformat (clock w1))),
             tick w1))
    /\ (forall reason e,
          validate_query (query_guard self) sql_query user_id = inr (true, reason) ->
          execute_query_with_validation (db_manager self) w
            (fst (_prepare_query_parameters sql_query user_id))
            (snd (_prepare_query_parameters sql_query user_id)) = inl e ->
          execute_query sql_query user_id w
          = (inr (failure (VStr (str_of_exception e)) sql_query user_id
                          (isoformat (clock w))),
             tick (record_call (fst (_prepare_query_parameters sql_query user_id))
                               (snd (_prepare_query_parameters sql_query user_id)) w))).
Proof.
  intros q uid w. split; [apply execute_query_annotated|]. split.
  - intros e w1. apply execute_query_handler.
  - intros reason e G D.
    rewrite (execute_query_handler q uid w e
               (record_call (fst (_prepare_query_parameters q uid))
                            (snd (_prepare_query_parameters q uid)) w));
      [reflexivity|].
    run. rewrite G. cbn.
    destruct (_prepare_query_parameters q uid) as [safe_query params].
    cbn in *. rewrite D. reflexivity.
Qed.

(** One turn of the loop of [execute_multiple_queries]. *)
Lemma execute_loop_cons i query queries user_id results w r w1 :
  execute_query query user_id w = (inr r, w1) ->
  execute_loop i (query :: queries) user_id results w
  = if succeeded r
    then execute_loop (S i) queries user_id (results ++ [tagged r i]) w1
    else (inr (results ++ [tagged r i]), w1).
Proof.
  intro H. destruct (execute_query_annotated query user_id w)
    as (v & w' & E & d & b & ts & -> & Sd & _).
  rewrite H in E. inversion E; subst. clear E.
  cbn [Agent.execute_loop]. unfold bind at 1. rewrite H.
  unfold succeeded, tagged, bind, lift, ret, setitem, getitem.
  rewrite dict_get_set_other by discriminate. rewrite Sd.
  destruct b; reflexivity.
Qed.




Lemma get_query_statistics_shape sql_query user_id w :
  exists d,
    get_query_statistics sql_query user_id w
    = (inr (VDict d),
       tick (record_call
               (fst (_prepare_query_parameters (stats_query sql_query) user_id))
               (snd (_prepare_query_parameters (stats_query sql_query) user_id)) w))
    /\ (keys d = ["success"; "total_rows"; "estimated_size"; "columns"; "query"; "timestamp"]
        \/ keys d = ["success"; "error"; "query"; "timestamp"]).
Proof.
  destruct (get_query_statistics sql_query user_id w) as [r w1] eqn:H.
  run. destruct (_prepare_query_parameters (stats_query sql_query) user_id)
    as [safe_query params]. cbn in H.
  repeat step;
    repeat match goal with
           | X : (_, _) = (_, _) |- _ => inversion X; subst; clear X
           end;
    eexists; (split; [reflexivity|]); cbn; auto.
Qed.

(** What [get_query_statistics] does: it wraps the query as [stats_query]
    does (a count named [total_rows] over the query as a subquery), prepares
    this text with the binder of [execute_query], and hands nothing else to
    the driver.  Its result holds a success flag, the row count, the size
    bucket, the column metadata, the query and a timestamp, or on failure an
    error in their place: never the rows.  For a driver answer with the count
    [n] the result has [n] and its bucket. *)
Lemma statistics_dispatch_the_bound_counting_query :
  forall sql_query user_id w n rows columns answer,
    execute_query_with_validation (db_manager self) w
      (fst (_prepare_query_parameters (stats_query sql_query) user_id))
      (snd (_prepare_query_parameters (stats_query sql_query) user_id)) = inr answer ->
    getitem answer "success" = inr (VBool true) ->
    getitem answer "results" = inr (VList (VDict [("total_rows", VInt n)] :: rows)) ->
    getitem answer "columns" = inr columns ->
    (exists calls,
        driver_calls (snd (get_query_statistics sql_query user_id w))
        = driver_calls w ++ calls
        /\ Forall (fun call =>
                     call = _prepare_query_parameters (stats_query sql_query) user_id)
                  calls)
    /\ (exists d,
          fst (get_query_statistics sql_query user_id w) = inr (VDict d)
          /\ (keys d = ["success"; "total_rows"; "estimated_size"; "columns"; "query";
                        "timestamp"]
              \/ keys d = ["success"; "error"; "query"; "timestamp"]))
    /\ fst (get_query_statistics sql_query user_id w)
       = inr (VDict [("success", VBool true);
                     ("total_rows", VInt n);
                     ("estimated_size",
                      VStr (if (n =? 0)%Z then py "No data"
                            else if (n <? 10)%Z then py "Small dataset"
                            else if (n <? 100)%Z then py "Medium dataset"
                            else if (n <? 1000)%Z then py "Large dataset"
                            else py "Very large dataset"));
                     ("columns", columns);
                     ("query", VStr sql_query);
                     ("timestamp", VStr (isoformat (clock w)))]).
Proof.
  intros q uid w n rows columns answer D Sa R C.
  destruct (get_query_statistics_shape q uid w) as (d & E & K).
  split; [|split].
  - rewrite E. cbn [snd tick record_call driver_calls]. eexists. split; [reflexivity|].
    constructor; [|constructor].
    destruct (_prepare_query_parameters (stats_query q) uid); reflexivity.
  - exists d. rewrite E. split; [reflexivity|exact K].
  - clear d E K. run.
    destruct (_prepare_query_parameters (stats_query q) uid) as [safe_query params].
    cbn in *. rewrite D. cbn. rewrite Sa, R, C.
    unfold truthy, _estimate_result_size, getitem. cbn. reflexivity.
Qed.

End Coordinator.

(** ** The coordinator run on concrete collaborators *)

Lemma rejected_query_never_reaches_driver_witness :
  validate_query (query_guard Demo.agent) Demo.second_query 7
  = inr (false, py "Query structure is not allowed")
  /\ fst (execute_query Demo.isoformat Demo.str_of_exception Demo.agent
            Demo.second_query 7 Demo.start)
     = inr (failure (VStr (py "Query blocked for security: "
                             ++ py "Query structure is not allowed"))
                    Demo.second_query 7 (Demo.isoformat (clock Demo.start)))
  /\ driver_calls (snd (execute_query Demo.isoformat Demo.str_of_exception Demo.agent
                          Demo.second_query 7 Demo.start))
     = driver_calls Demo.start.
Proof.
  split; [reflexivity|].
  apply (rejected_query_never_reaches_driver Demo.isoformat Demo.str_of_exception
           Demo.agent Demo.second_query 7 (py "Query structure is not allowed")
           Demo.start).
  reflexivity.
Defined.

Lemma execute_query_returns_a_result_witness :
  validate_query (query_guard Demo.broken_agent) Demo.first_query 7
  = inr (true, py "Query is safe")
  /\ execute_query_with_validation (db_manager Demo.broken_agent) Demo.start
       (fst (_prepare_query_parameters Demo.first_query 7))
       (snd (_prepare_query_parameters Demo.first_query 7))
     = inl (Exception (py "Lost connection to MySQL server"))
  /\ execute_query Demo.isoformat Demo.str_of_exception Demo.broken_agent
       Demo.first_query 7 Demo.start
     = (inr (failure (VStr (py "Lost connection to MySQL server")) Demo.first_query 7
                     (Demo.isoformat (clock Demo.start))),
        tick (record_call (fst (_prepare_query_parameters Demo.first_query 7))
                          (snd (_prepare_query_parameters Demo.first_query 7))
                          Demo.start)).
Proof.
  split; [reflexivity|]. split; [reflexivity|].
  apply (proj2 (proj2 (execute_query_returns_a_result Demo.isoformat
                         Demo.str_of_exception Demo.broken_agent
                         Demo.first_query 7 Demo.start))
           (py "Query is safe") (Exception (py "Lost connection to MySQL server")));
    reflexivity.
Defined.


Example statistics_of_five_hundred_rows :
  execute_query_with_validation (db_manager Demo.agent) Demo.start
    (fst (_prepare_query_parameters (stats_query Demo.first_query) 7))
    (snd (_prepare_query_parameters (stats_query Demo.first_query) 7))
  = inr (VDict [("success", VBool true);
                ("results", VList [VDict [("total_rows", VInt 500)]]);
                ("row_count", VInt 1);
                ("columns", VList [VStr (py "total_rows")])])
  /\ fst (get_query_statistics Demo.isoformat Demo.str_of_exception Demo.agent
            Demo.first_query 7 Demo.start)
     = inr (VDict [("success", VBool true);
                   ("total_rows", VInt 500);
                   ("estimated_size", VStr (py "Large dataset"));
                   ("columns", VList [VStr (py "total_rows")]);
                   ("query", VStr Demo.first_query);
                   ("timestamp", VStr (Demo.isoformat (clock Demo.start)))]).
Proof.
  split; [reflexivity|].
  apply (proj2 (proj2 (statistics_dispatch_the_bound_counting_query
                         Demo.isoformat Demo.str_of_exception Demo.agent
                         Demo.first_query 7 Demo.start 500 []
                         (VList [VStr (py "total_rows")])
                         (VDict [("success", VBool true);
                                 ("results", VList [VDict [("total_rows", VInt 500)]]);
                                 ("row_count", VInt 1);
                                 ("columns", VList [VStr (py "total_rows")])])
                         eq_refl eq_refl eq_refl eq_refl))).
Qed.

(** C2.  The claim asks that the count runs through the validated pipeline
    of [execute_query], the guard first.  [get_query_statistics] never asks
    the guard: for a query that the guard refuses, and that [execute_query]
    therefore keeps from the driver, it hands the counting query to the
    driver.  The counting text it builds names the count [total_rows], which
    the text of the specification leaves out. *)
Theorem statistics_skip_the_guard :
  stats_query Demo.second_query <> counting_query Demo.second_query
  /\ validate_query (query_guard Demo.refusing_agent) Demo.second_query 7
     = inr (false, py "Query structure is not allowed")
  /\ driver_calls (snd (execute_query Demo.isoformat Demo.str_of_exception
                          Demo.refusing_agent Demo.second_query 7 Demo.start))
     = []
  /\ driver_calls (snd (get_query_statistics Demo.isoformat Demo.str_of_exception
                          Demo.refusing_agent Demo.second_query 7 Demo.start))
     = [(stats_query (py "DELETE FROM events WHERE user_id = %s"), [7%Z])].
Proof.
  split; [intro H; vm_compute in H; discriminate|].
  split; [reflexivity|]. split; vm_compute; reflexivity.
Qed.

(** ** More on the binder *)

Lemma padded_app t x t' x' : padded t x -> padded t' x' -> padded (t ++ t') (x ++ x').
Proof.
  induction 1 as [|c t x H IH|t x H IH]; intro H'; cbn [app].
  - exact H'.
  - apply padded_same, IH, H'.
  - apply padded_double, IH, H'.
Qed.

Lemma double_percent_padded t : padded t (double_percent t).
Proof.
  induction t as [|c t IH]; [constructor|]. simpl.
  destruct (Ascii.eqb c percent) eqn:E.
  - apply Ascii.eqb_eq in E. subst c. apply padded_double, IH.
  - apply padded_same, IH.
Qed.

Lemma re_sub_padded s : padded s (re_sub_literals s).
Proof.
  remember (length s) as n eqn:Hn. revert s Hn.
  induction n as [n IH] using (well_founded_induction lt_wf). intros s Hn.
  rewrite re_sub_unfold. destruct s as [|c r]; [constructor|].
  destruct (is_quote c) eqn:Q.
  - destruct (match_literal r) as [[content rest]|] eqn:M.
    + destruct (match_literal_some _ _ _ M) as [-> N].
      apply is_quote_true in Q. subst c.
      rewrite escape_string_literal_eq. cbn [app]. apply padded_same.
      rewrite <- app_assoc. apply padded_app; [apply double_percent_padded|].
      cbn [app]. apply padded_same. eapply IH; [|reflexivity].
      subst n. cbn [length]. rewrite length_app. cbn [length]. lia.
    + apply padded_same. eapply IH; [|reflexivity]. subst n. simpl. lia.
  - apply padded_same. eapply IH; [|reflexivity]. subst n. simpl. lia.
Qed.

(** Doubling [%] brings in no occurrence of a text that has no [%]. *)
Lemma padded_startswith t x :
  padded t x ->
  forall p, Forall (fun c => c <> percent) p ->
            startswith p x = true -> startswith p t = true.
Proof.
  induction 1 as [|c t x H IH|t x H IH]; intros p F S.
  - exact S.
  - destruct p as [|a p]; [reflexivity|]. cbn [startswith] in *.
    apply andb_prop in S as [E S]. rewrite E. inversion F; subst.
    cbn [andb]. apply IH; assumption.
  - destruct p as [|a p]; [reflexivity|]. cbn [startswith] in S.
    apply andb_prop in S as [E _]. apply Ascii.eqb_eq in E.
    inversion F; subst. contradiction.
Qed.

Lemma padded_contains t x :
  padded t x ->
  forall p, Forall (fun c => c <> percent) p ->
            contains p x = true -> contains p t = true.
Proof.
  induction 1 as [|c t x H IH|t x H IH]; intros p F S.
  - exact S.
  - cbn [contains] in *. apply orb_prop in S as [S|S].
    + rewrite (padded_startswith _ _ (padded_same c _ _ H) p F S). reflexivity.
    + rewrite (IH p F S). apply orb_true_r.
  - cbn [contains] in *. apply orb_prop in S as [S|[S|S]%orb_prop].
    + rewrite (padded_startswith _ _ (padded_double _ _ H) p F S). reflexivity.
    + rewrite (padded_startswith _ _ (padded_same percent _ _ H) p F S). reflexivity.
    + rewrite (IH p F S). apply orb_true_r.
Qed.

Lemma replace_marker_scan s :
  replace (py "{user_id}") (py "%s") s = replace_scan (py "{user_id}") (py "%s") s.
Proof. reflexivity. Qed.

(** A prefix of the replaced text that has no [%] is a prefix of the text. *)
Lemma replace_marker_startswith p :
  Forall (fun c => c <> percent) p ->
  forall r, startswith p (replace (py "{user_id}") (py "%s") r) = true ->
            startswith p r = true.
Proof.
  induction 1 as [|a p A F IH]; intros r S; [reflexivity|].
  rewrite replace_marker_scan, replace_scan_unfold in S.
  destruct r as [|d r]; [discriminate|].
  destruct (startswith (py "{user_id}") (d :: r)).
  - cbn [py String.list_ascii_of_string app startswith] in S.
    apply andb_prop in S as [E _]. apply Ascii.eqb_eq in E.
    subst a. exfalso. apply A. reflexivity.
  - cbn [startswith] in *. apply andb_prop in S as [E S]. rewrite E.
    cbn [andb]. apply IH. rewrite replace_marker_scan. exact S.
Qed.

Lemma replace_marker_leaves_none s :
  contains (py "{user_id}") (replace (py "{user_id}") (py "%s") s) = false.
Proof.
  remember (length s) as n eqn:Hn. revert s Hn.
  induction n as [n IH] using (well_founded_induction lt_wf). intros s Hn.
  rewrite replace_marker_scan, replace_scan_unfold.
  destruct s as [|c r]; [reflexivity|].
  destruct (startswith (py "{user_id}") (c :: r)) eqn:E.
  - assert (contains (py "{user_id}")
              (replace (py "{user_id}") (py "%s") (skipn 8 r)) = false) as C.
    { eapply IH; [|reflexivity]. subst n. pose proof (length_skipn 8 r).
      cbn [length]. lia. }
    rewrite replace_marker_scan in C.
    cbn [py String.list_ascii_of_string app contains length Nat.pred].
    cbn [py String.list_ascii_of_string] in C. rewrite C. reflexivity.
  - assert (contains (py "{user_id}") (replace (py "{user_id}") (py "%s") r) = false) as C
      by (eapply IH; [|reflexivity]; subst n; simpl; lia).
    cbn [contains]. rewrite replace_marker_scan in C. rewrite C, orb_false_r.
    destruct (startswith (py "{user_id}") (c :: replace_scan (py "{user_id}") (py "%s") r))
      eqn:S; [|reflexivity].
    cbn [py String.list_ascii_of_string startswith] in S, E.
    apply andb_prop in S as [Ec S]. rewrite Ec in E. cbn [andb] in E.
    apply (replace_marker_startswith (py "user_id}")) in S.
    + cbn [py String.list_ascii_of_string startswith] in S. rewrite S in E. discriminate.
    + repeat constructor; discriminate.
Qed.

(** X1.  The template that the binder returns holds no marker: every
    occurrence of the marker is replaced, and neither the replacement nor the
    escaping of the literals brings one back. *)
Theorem prepare_leaves_no_marker :
  forall sql_query user_id,
    contains (py "{user_id}") (fst (_prepare_query_parameters sql_query user_id)) = false.
Proof.
  intros q uid. rewrite prepare_eq. cbn [fst].
  destruct (contains _ (re_sub_literals _)) eqn:C; [|reflexivity].
  apply (padded_contains _ _ (re_sub_padded _)) in C.
  - rewrite replace_marker_leaves_none in C. discriminate.
  - repeat constructor; discriminate.
Qed.

(** X2.  The binder adds and removes no single quote: the template has the
    quotes of the query, so its literals begin and end where they did. *)
Theorem prepare_keeps_the_quotes :
  forall sql_query user_id,
    quotes (fst (_prepare_query_parameters sql_query user_id)) = quotes sql_query
    /\ length (split_quote (fst (_prepare_query_parameters sql_query user_id)))
       = length (split_quote sql_query).
Proof.
  intros q uid. rewrite prepare_eq. cbn [fst].
  rewrite !split_quote_length, re_sub_quotes, replace_marker_quotes. split; reflexivity.
Qed.

Lemma outside_sum_on_literals f parts :
  outside_sum true (on_literals f parts) = outside_sum true parts.
Proof.
  induction parts as [|a|a b l IH] using list_pair_ind; try reflexivity.
  destruct l as [|c l]; [reflexivity|].
  rewrite on_literals_step. cbn [outside_sum negb] in *. rewrite IH. reflexivity.
Qed.

(** X3.  Escaping the literals changes no count: the template has as many
    placeholders outside its quotes as the text had before the escaping, so
    the parameters are as many as the placeholders outside the quotes of the
    query with its markers replaced. *)
Theorem escaping_keeps_the_placeholder_count :
  forall text sql_query user_id,
    placeholders_outside_literals (re_sub_literals text)
    = placeholders_outside_literals text
    /\ snd (_prepare_query_parameters sql_query user_id)
       = repeat user_id
           (placeholders_outside_literals
              (replace (py "{user_id}") (py "%s") sql_query)).
Proof.
  assert (forall t, placeholders_outside_literals (re_sub_literals t)
                    = placeholders_outside_literals t) as H.
  { intro t. rewrite <- !count_placeholders_scan, !count_placeholders_sum.
    cbn [Nat.even]. rewrite escape_split, outside_sum_on_literals. reflexivity. }
  intros t q uid. split; [apply H|].
  rewrite prepare_eq. cbn [snd]. rewrite H. reflexivity.
Qed.

(** ** The processing of result rows *)

Lemma dict_set_fresh acc k v :
  ~ In k (keys acc) -> dict_set acc k v = acc ++ [(k, v)].
Proof.
  induction acc as [|[k0 v0] acc IH]; intro N; [reflexivity|].
  cbn [dict_set keys map fst] in *.
  destruct (String.eqb k0 k) eqn:E.
  - apply String.eqb_eq in E. subst. exfalso. apply N. left. reflexivity.
  - cbn [app]. rewrite IH; [reflexivity|]. intro I. apply N. right. exact I.
Qed.

Lemma dict_set_keys acc k v :
  In k (keys acc) -> keys (dict_set acc k v) = keys acc.
Proof.
  induction acc as [|[k0 v0] acc IH]; intro I; [contradiction|].
  cbn [dict_set keys map fst] in *.
  destruct (String.eqb k0 k) eqn:E; [reflexivity|].
  cbn [map fst]. f_equal. apply IH. destruct I as [->|I]; [|exact I].
  rewrite String.eqb_refl in E. discriminate.
Qed.

Lemma dict_set_nodup acc k v :
  NoDup (keys acc) -> NoDup (keys (dict_set acc k v)).
Proof.
  intro N. destruct (in_dec String.string_dec k (keys acc)) as [I|I].
  - rewrite dict_set_keys by exact I. exact N.
  - rewrite dict_set_fresh by exact I. unfold keys in *. rewrite map_app.
    apply NoDup_app; [exact N|repeat constructor; intros []|].
    intros x Hx [<-|[]]. contradiction.
Qed.

Lemma dict_set_values (P : value -> Prop) acc k v :
  Forall (fun kv => P (snd kv)) acc -> P v ->
  Forall (fun kv => P (snd kv)) (dict_set acc k v).
Proof.
  intros F Pv. induction acc as [|[k0 v0] acc IH]; cbn [dict_set].
  - repeat constructor. exact Pv.
  - inversion F; subst. destruct (String.eqb k0 k); constructor; auto.
Qed.

Section Rows.

Variable isoformat : nat -> str.

Local Abbreviation process_value := (process_value isoformat).
Local Abbreviation process_row := (process_row isoformat).
Local Abbreviation process_rows := (process_rows isoformat).
Local Abbreviation _process_query_results := (_process_query_results isoformat).

Lemma process_value_no_datetime v : is_datetime (process_value v) = false.
Proof. destruct v; reflexivity. Qed.

Lemma process_value_fixed v : is_datetime v = false -> process_value v = v.
Proof. destruct v; try reflexivity. discriminate. Qed.

Lemma process_fold_invariant d :
  forall acc,
    NoDup (keys acc) -> Forall (fun kv => is_datetime (snd kv) = false) acc ->
    NoDup (keys (fold_left
                   (fun processed_row kv =>
                      dict_set processed_row (fst kv) (process_value (snd kv))) d acc))
    /\ Forall (fun kv => is_datetime (snd kv) = false)
              (fold_left
                 (fun processed_row kv =>
                    dict_set processed_row (fst kv) (process_value (snd kv))) d acc).
Proof.
  induction d as [|[k v] d IH]; intros acc N F; [split; assumption|].
  cbn [fold_left fst snd]. apply IH.
  - apply dict_set_nodup, N.
  - apply (dict_set_values (fun x => is_datetime x = false)); [exact F|].
    apply process_value_no_datetime.
Qed.

Lemma process_fold_map d :
  forall acc,
    NoDup (keys acc ++ keys d) ->
    fold_left (fun processed_row kv =>
                 dict_set processed_row (fst kv) (process_value (snd kv))) d acc
    = acc ++ map (fun kv => (fst kv, process_value (snd kv))) d.
Proof.
  induction d as [|[k v] d IH]; intros acc N; [rewrite app_nil_r; reflexivity|].
  cbn [fold_left fst snd map keys] in *.
  assert (~ In k (keys acc)) as Fresh.
  { apply NoDup_remove_2 in N. intro I. apply N, in_or_app. left. exact I. }
  rewrite dict_set_fresh by exact Fresh. rewrite IH.
  - rewrite <- app_assoc. reflexivity.
  - unfold keys in *. rewrite map_app, <- app_assoc. exact N.
Qed.

Lemma process_row_proper d :
  NoDup (keys d) ->
  process_row d = map (fun kv => (fst kv, process_value (snd kv))) d.
Proof. intro N. unfold Agent.process_row. rewrite process_fold_map; [reflexivity|exact N]. Qed.

Lemma process_row_clean d :
  NoDup (keys (process_row d))
  /\ Forall (fun kv => is_datetime (snd kv) = false) (process_row d).
Proof. apply process_fold_invariant; constructor. Qed.

Lemma process_row_idempotent d : process_row (process_row d) = process_row d.
Proof.
  destruct (process_row_clean d) as [N F].
  rewrite (process_row_proper _ N). clear N.
  induction F as [|[k v] l H F IH]; [reflexivity|].
  cbn [map fst snd] in *. rewrite (process_value_fixed _ H). f_equal. exact IH.
Qed.

Lemma process_rows_proper rows :
  Forall proper_row rows ->
  process_rows rows = inr (map (converted_row isoformat) rows).
Proof.
  induction 1 as [|row rows (d & -> & N) F IH]; [reflexivity|].
  cbn [Agent.process_rows items map converted_row]. rewrite IH.
  rewrite (process_row_proper _ N). reflexivity.
Qed.

Lemma process_rows_clean rows :
  forall out,
    process_rows rows = inr out ->
    Forall (fun row => exists d,
                row = VDict d /\ NoDup (keys d)
                /\ Forall (fun kv => is_datetime (snd kv) = false) d) out.
Proof.
  induction rows as [|row rows IH]; intros out H; cbn [Agent.process_rows] in H.
  - inversion H. constructor.
  - destruct (items row) as [e|d]; [discriminate|].
    destruct (process_rows rows) as [e|out']; [discriminate|].
    inversion H; subst. constructor; [|apply IH; reflexivity].
    exists (process_row d). split; [reflexivity|]. apply process_row_clean.
Qed.

Lemma process_rows_idempotent rows :
  forall out, process_rows rows = inr out -> process_rows out = inr out.
Proof.
  induction rows as [|row rows IH]; intros out H; cbn [Agent.process_rows] in H.
  - inversion H. reflexivity.
  - destruct (items row) as [e|d]; [discriminate|].
    destruct (process_rows rows) as [e|out']; [discriminate|].
    inversion H; subst. cbn [Agent.process_rows items].
    rewrite (IH out' eq_refl), process_row_idempotent. reflexivity.
Qed.

Lemma process_rows_first_bad pre bad post :
  Forall (fun row => is_dict row = true) pre -> is_dict bad = false ->
  process_rows (pre ++ bad :: post) = inl (AttributeError bad).
Proof.
  intros F B. induction F as [|row pre D F IH]; cbn [app Agent.process_rows].
  - destruct bad; try reflexivity. discriminate.
  - destruct row; try discriminate. cbn [items]. rewrite IH. reflexivity.
Qed.

Lemma process_results_proper rows :
  Forall proper_row rows ->
  _process_query_results (VList rows)
  = inr (VList (map (converted_row isoformat) rows)).
Proof.
  intros F. unfold Agent._process_query_results.
  destruct rows as [|row rows]; [reflexivity|].
  cbn [truthy length Nat.eqb negb iterate]. rewrite (process_rows_proper _ F).
  reflexivity.
Qed.

(** X4.  A list of rows, each a dictionary, is processed row by row and
    column by column: the result has the rows in their order, each with its
    columns in their order, the date and time values as their ISO text and
    every other value as it was. *)
Theorem process_results_converts_each_row :
  forall rows,
    Forall proper_row rows ->
    _process_query_results (VList rows)
    = inr (VList (map (converted_row isoformat) rows)).
Proof. exact process_results_proper. Qed.

(** X5.  Whatever [_process_query_results] returns is a list of dictionaries
    in which no column holds a date or time object any more. *)
Theorem process_results_leaves_no_datetime :
  forall results out,
    _process_query_results results = inr out ->
    exists rows,
      out = VList rows
      /\ Forall (fun row => exists d,
                     row = VDict d /\ NoDup (keys d)
                     /\ Forall (fun kv => is_datetime (snd kv) = false) d) rows.
Proof.
  intros results out H. unfold Agent._process_query_results in H.
  destruct (negb (truthy results)).
  - inversion H. exists []. split; [reflexivity|constructor].
  - destruct (iterate results) as [e|rows]; [discriminate|].
    destruct (process_rows rows) as [e|out'] eqn:P; [discriminate|].
    inversion H. exists out'. split; [reflexivity|].
    eapply process_rows_clean, P.
Qed.

(** X6.  Processing is idempotent: processing a processed result gives it
    back. *)
Theorem process_results_idempotent :
  forall results out,
    _process_query_results results = inr out ->
    _process_query_results out = inr out.
Proof.
  intros results out H. unfold Agent._process_query_results in H.
  destruct (negb (truthy results)).
  - inversion H. reflexivity.
  - destruct (iterate results) as [e|rows]; [discriminate|].
    destruct (process_rows rows) as [e|out'] eqn:P; [discriminate|].
    inversion H. unfold Agent._process_query_results.
    destruct out' as [|row out']; [reflexivity|].
    cbn [truthy length Nat.eqb negb iterate].
    rewrite (process_rows_idempotent _ _ P). reflexivity.
Qed.

(** X7.  A row that is no dictionary makes [_process_query_results] raise the
    [AttributeError] of its call of [items], for the first such row. *)
Theorem process_results_raises_on_a_row_that_is_no_dictionary :
  forall pre bad post,
    Forall (fun row => is_dict row = true) pre ->
    is_dict bad = false ->
    _process_query_results (VList (pre ++ bad :: post)) = inl (AttributeError bad).
Proof.
  intros pre bad post F B. unfold Agent._process_query_results.
  assert (truthy (VList (pre ++ bad :: post)) = true) as ->.
  { unfold truthy. destruct pre; reflexivity. }
  cbn [negb iterate]. rewrite (process_rows_first_bad _ _ _ F B). reflexivity.
Qed.

End Rows.

(** ** More on the coordinator *)

Lemma dict_get_set_same d k v : dict_get (dict_set d k v) k = Some v.
Proof.
  induction d as [|[k0 v0] d IH]; cbn [dict_set dict_get].
  - rewrite String.eqb_refl. reflexivity.
  - destruct (String.eqb k0 k) eqn:E; cbn [dict_get]; rewrite E; [reflexivity|exact IH].
Qed.

(** Inverts the equations between pairs that the steps leave. *)
Ltac pairs :=
  repeat match goal with
         | X : (_, _) = (_, _) |- _ => inversion X; subst; clear X
         end.

Section Dispatch.

Variable isoformat : nat -> str.
Variable str_of_exception : exn -> str.
Variable self : QueryExecutionAgent.

Local Abbreviation execute_query := (execute_query isoformat str_of_exception self).
Local Abbreviation execute_multiple_queries :=
  (execute_multiple_queries isoformat str_of_exception self).
Local Abbreviation execute_loop := (execute_loop isoformat str_of_exception self).
Local Abbreviation get_query_statistics :=
  (get_query_statistics isoformat str_of_exception self).

Lemma execute_query_driver_calls sql_query user_id w :
  driver_calls (snd (execute_query sql_query user_id w))
  = driver_calls w ++ dispatched self sql_query user_id.
Proof.
  unfold dispatched.
  destruct (execute_query sql_query user_id w) as [r w1] eqn:H. run.
  destruct (validate_query (query_guard self) sql_query user_id) as [e|[[|] reason]];
    cbn in H.
  - pairs. cbn. rewrite app_nil_r. reflexivity.
  - destruct (_prepare_query_parameters sql_query user_id) as [safe_query params].
    cbn in H. repeat step; pairs; reflexivity.
  - pairs. cbn. rewrite app_nil_r. reflexivity.
Qed.




(** X11.  A driver answer that is a dictionary without the key [success]
    does not make [execute_query] raise: the [KeyError] of the lookup becomes
    the error of a failure. *)
Theorem execute_query_answer_without_success :
  forall sql_query user_id w reason d,
    validate_query (query_guard self) sql_query user_id = inr (true, reason) ->
    execute_query_with_validation (db_manager self) w
      (fst (_prepare_query_parameters sql_query user_id))
      (snd (_prepare_query_parameters sql_query user_id)) = inr (VDict d) ->
    dict_get d "success" = None ->
    fst (execute_query sql_query user_id w)
    = inr (failure (VStr (str_of_exception (KeyError (VStr (py "success")))))
                   sql_query user_id (isoformat (clock w))).
Proof.
  intros q uid w reason d G D N. run.
  rewrite G. cbn.
  destruct (_prepare_query_parameters q uid) as [safe_query params]. cbn in *.
  rewrite D. cbn. unfold getitem. rewrite N. reflexivity.
Qed.

(** X12.  [get_query_statistics] never raises and calls the driver exactly
    once, whatever the driver answers: it returns a dictionary with a success
    flag, the query and a timestamp, which has no key for rows. *)
Theorem get_query_statistics_returns_after_one_call :
  forall sql_query user_id w,
    exists d b timestamp,
      get_query_statistics sql_query user_id w
      = (inr (VDict d),
         tick (record_call
                 (fst (_prepare_query_parameters (stats_query sql_query) user_id))
                 (snd (_prepare_query_parameters (stats_query sql_query) user_id)) w))
      /\ dict_get d "success" = Some (VBool b)
      /\ dict_get d "query" = Some (VStr sql_query)
      /\ dict_get d "timestamp" = Some (VStr timestamp)
      /\ dict_get d "results" = None
      /\ dict_get d "raw_results" = None.
Proof.
  intros q uid w.
  destruct (get_query_statistics q uid w) as [r w1] eqn:H.
  run. destruct (_prepare_query_parameters (stats_query q) uid) as [safe_query params].
  cbn in H.
  repeat step; pairs; eexists _, _, _; (split; [reflexivity|]); cbn;
    repeat split.
Qed.

(** X13.  When the driver reports success with no rows, the statistics give
    the count 0 and the bucket [No data]. *)
Theorem get_query_statistics_of_no_rows :
  forall sql_query user_id w answer flag columns,
    execute_query_with_validation (db_manager self) w
      (fst (_prepare_query_parameters (stats_query sql_query) user_id))
      (snd (_prepare_query_parameters (stats_query sql_query) user_id)) = inr answer ->
    getitem answer "success" = inr flag ->
    truthy flag = true ->
    getitem answer "results" = inr (VList []) ->
    getitem answer "columns" = inr columns ->
    fst (get_query_statistics sql_query user_id w)
    = inr (VDict [("success", VBool true);
                  ("total_rows", VInt 0);
                  ("estimated_size", VStr (py "No data"));
                  ("columns", columns);
                  ("query", VStr sql_query);
                  ("timestamp", VStr (isoformat (clock w)))]).
Proof.
  intros q uid w answer flag columns D Sf T R C. run.
  destruct (_prepare_query_parameters (stats_query q) uid) as [safe_query params].
  cbn in *. rewrite D. cbn. rewrite Sf. cbn. rewrite T, R. cbn.
  rewrite C. reflexivity.
Qed.

Lemma tagged_items r i query user_id :
  annotated_result query user_id r ->
  getitem (tagged r i) "query_index" = inr (VInt (Z.of_nat i))
  /\ getitem (tagged r i) "query" = inr (VStr query).
Proof.
  intros (d & b & ts & -> & _ & Q & _). unfold tagged, getitem. split.
  - rewrite dict_get_set_same. reflexivity.
  - rewrite dict_get_set_other by discriminate. rewrite Q. reflexivity.
Qed.

(** What the loop of [execute_multiple_queries] returns and does. *)
Lemma execute_loop_outcomes queries :
  forall i user_id results w,
  exists rs w1,
    execute_loop i queries user_id results w = (inr (results ++ rs), w1)
    /\ length rs <= length queries
    /\ (queries <> [] -> rs <> [])
    /\ forallb succeeded (removelast rs) = true
    /\ (succeeded (last rs VNone) = true -> length rs = length queries)
    /\ (forall j r,
          nth_error rs j = Some r ->
          getitem r "query_index" = inr (VInt (Z.of_nat (i + j)))
          /\ getitem r "query" = inr (VStr (nth j queries [])))
    /\ driver_calls w1
       = driver_calls w
         ++ concat (map (fun query => dispatched self query user_id)
                        (firstn (length rs) queries)).
Proof.
  induction queries as [|q qs IH]; intros i uid acc w.
  - exists [], w. cbn. rewrite !app_nil_r.
    split; [reflexivity|]. split; [lia|]. split; [easy|]. split; [reflexivity|].
    split; [reflexivity|]. split; [|reflexivity].
    intros [|j] r H; discriminate.
  - destruct (execute_query_annotated isoformat str_of_exception self q uid w)
      as (r & w0 & E & A).
    pose proof (execute_query_driver_calls q uid w) as C. rewrite E in C. cbn [snd] in C.
    destruct (tagged_items r i q uid A) as [Ti Tq].
    rewrite (execute_loop_cons isoformat str_of_exception self i q qs uid acc w r w0 E).
    destruct (succeeded r) eqn:Sr.
    + destruct (IH (S i) uid (acc ++ [tagged r i]) w0)
        as (rs & w1 & L & Len & Ne & All & Last & Idx & Calls).
      exists (tagged r i :: rs), w1. rewrite L, <- app_assoc. cbn [app].
      split; [reflexivity|]. split; [cbn [length]; lia|]. split; [discriminate|].
      split; [|split; [|split]].
      * destruct rs as [|r' rs]; [reflexivity|].
        cbn [removelast forallb] in *. rewrite succeeded_tagged, Sr. exact All.
      * destruct rs as [|r' rs].
        -- intros _. destruct qs as [|q' qs]; [reflexivity|].
           exfalso. apply Ne; [discriminate|reflexivity].
        -- cbn [last length] in *. intro H. rewrite (Last H). reflexivity.
      * intros [|j] r' H; cbn [nth_error nth] in *.
        -- inversion H; subst. rewrite Nat.add_0_r. split; assumption.
        -- rewrite Nat.add_succ_r. apply (Idx j r' H).
      * rewrite Calls, C. cbn [length firstn map concat]. rewrite <- app_assoc.
        reflexivity.
    + exists [tagged r i], w0. split; [reflexivity|]. split; [cbn; lia|].
      split; [discriminate|]. split; [reflexivity|]. split; [|split].
      * cbn [last]. rewrite succeeded_tagged, Sr. discriminate.
      * intros [|[|j]] r' H; cbn [nth_error nth] in *; try discriminate.
        inversion H; subst. rewrite Nat.add_0_r. split; assumption.
      * rewrite C. cbn [length firstn map concat]. rewrite app_nil_r. reflexivity.
Qed.

(** With a user id that can be written out, the log line changes nothing. *)
Lemma logged_loop_agrees queries :
  forall i user_id results w text,
    Batch.format_int user_id = inr text ->
    Batch.execute_loop isoformat str_of_exception self i queries user_id results w
    = execute_loop i queries user_id results w.
Proof.
  induction queries as [|q qs IH]; intros i uid acc w text F; [reflexivity|].
  cbn [Batch.execute_loop Agent.execute_loop]. unfold bind, lift. rewrite F.
  destruct (Agent.execute_query isoformat str_of_exception self q uid w) as [[e|r] w0];
    [reflexivity|].
  destruct (setitem r "query_index" (VInt (Z.of_nat i))) as [e|r']; [reflexivity|].
  destruct (getitem r' "success") as [e|s]; [reflexivity|].
  destruct (negb (truthy s)); [reflexivity|].
  exact (IH (S i) uid (acc ++ [r']) w0 text F).
Qed.

Lemma format_int_within n :
  (Z.abs n < 10 ^ 4300)%Z -> Batch.format_int n = inr (str_of_int n).
Proof.
  intro H. unfold Batch.format_int, Batch.int_max_str_digits.
  apply Z.ltb_lt in H. rewrite H. reflexivity.
Qed.

Lemma format_int_beyond n :
  (10 ^ 4300 <= Z.abs n)%Z -> exists e, Batch.format_int n = inl e.
Proof.
  intro H. unfold Batch.format_int, Batch.int_max_str_digits.
  apply Z.ltb_ge in H. rewrite H. eexists. reflexivity.
Qed.

(** X14.  For a user id that Python writes out, one of at most 4300 digits,
    [execute_multiple_queries] does not raise.  It returns at most one
    outcome per query and at least one for a batch that is not empty; every
    outcome but the last is a success, and if the last is a success too, every
    query was run.  The outcome at position [j] carries [j] as [query_index]
    and the query at position [j] of the batch as [query]. *)
Theorem execute_multiple_queries_outcomes :
  forall queries user_id w,
    (Z.abs user_id < 10 ^ 4300)%Z ->
    exists rs w1,
      Batch.execute_multiple_queries isoformat str_of_exception self queries user_id w
      = (inr rs, w1)
      /\ length rs <= length queries
      /\ (queries <> [] -> rs <> [])
      /\ forallb succeeded (removelast rs) = true
      /\ (succeeded (last rs VNone) = true -> length rs = length queries)
      /\ (forall j r,
            nth_error rs j = Some r ->
            getitem r "query_index" = inr (VInt (Z.of_nat j))
            /\ getitem r "query" = inr (VStr (nth j queries []))).
Proof.
  intros queries uid w U.
  destruct (execute_loop_outcomes queries 0 uid [] w)
    as (rs & w1 & L & Len & Ne & All & Last & Idx & _).
  exists rs, w1. unfold Batch.execute_multiple_queries.
  rewrite (logged_loop_agrees queries 0 uid [] w _ (format_int_within uid U)).
  repeat split; try assumption; apply (Idx j r H).
Qed.

(** X27.  For a user id of more than 4300 digits and a batch that is not
    empty, [execute_multiple_queries] raises the [ValueError] of its log
    line: no outcome is returned, and neither the guard nor the driver has
    been asked. *)
Theorem execute_multiple_queries_raises_beyond_the_digit_limit :
  forall query queries user_id w,
    (10 ^ 4300 <= Z.abs user_id)%Z ->
    exists e,
      Batch.execute_multiple_queries isoformat str_of_exception self
        (query :: queries) user_id w
      = (inl e, w)
      /\ Batch.format_int user_id = inl e.
Proof.
  intros q qs uid w U. destruct (format_int_beyond uid U) as [e F].
  exists e. split; [|exact F].
  unfold Batch.execute_multiple_queries. cbn [Batch.execute_loop].
  unfold bind, lift. rewrite F. reflexivity.
Qed.


End Dispatch.

(** ** The other functions of the generation agent *)

Example fix_user_id_7 :
  _fix_user_id_placeholder (py "SELECT * FROM t WHERE USER_ID   =7 AND user_id = 71") 7
  = py "SELECT * FROM t WHERE user_id = %s AND user_id = %s1".
Proof. vm_compute. reflexivity. Qed.

Example clean_fenced :
  _clean_sql_response (py "  ```sql select 1 ```  ") = Some (py "select 1").
Proof. vm_compute. reflexivity. Qed.

Lemma re_sub_user_id_unfold user_id s :
  re_sub_user_id user_id s =
  match s with
  | [] => []
  | c :: r =>
      match match_user_id user_id s with
      | Some rest => py "user_id = %s" ++ re_sub_user_id user_id rest
      | None => c :: re_sub_user_id user_id r
      end
  end.
Proof.
  funelim (re_sub_user_id user_id s); try reflexivity;
    match goal with H : match_user_id _ _ = _ |- _ => rewrite H end; reflexivity.
Qed.

Lemma fix_is_sub sql_query user_id :
  _fix_user_id_placeholder sql_query user_id = re_sub_user_id user_id sql_query.
Proof. destruct sql_query; [rewrite re_sub_user_id_unfold|]; reflexivity. Qed.

Lemma match_ignorecase_length p :
  forall s t, match_ignorecase p s = Some t -> length t + length p = length s.
Proof.
  induction p as [|a p IH]; intros s t H; cbn [match_ignorecase] in H.
  - inversion H. cbn [length]. lia.
  - destruct s as [|b s]; [discriminate|].
    destruct (eqb_ignorecase a b); [|discriminate].
    apply IH in H. cbn [length]. lia.
Qed.

Lemma lstrip_length s : length (lstrip s) <= length s.
Proof.
  induction s as [|b s IH]; cbn [lstrip length]; [lia|].
  destruct (is_space b); cbn [length]; lia.
Qed.

Lemma match_user_id_shorter user_id s rest :
  match_user_id user_id s = Some rest -> length rest < length s.
Proof.
  unfold match_user_id. intro E.
  destruct (match_ignorecase (py "user_id") s) as [s1|] eqn:M1; [|discriminate].
  apply match_ignorecase_length in M1. pose proof (lstrip_length s1).
  destruct (lstrip s1) as [|d s2]; [discriminate|].
  destruct (eqb_ignorecase "=" d); [|discriminate].
  apply match_ignorecase_length in E. pose proof (lstrip_length s2).
  change (length (py "user_id")) with 7 in M1. cbn [length] in *. lia.
Qed.

Lemma match_user_id_head user_id c s :
  eqb_ignorecase "u" c = false -> match_user_id user_id (c :: s) = None.
Proof.
  intro H. unfold match_user_id.
  cbn [py String.list_ascii_of_string match_ignorecase]. rewrite H. reflexivity.
Qed.

Lemma space_is_no_u d : is_space d = true -> eqb_ignorecase "u" d = false.
Proof.
  destruct d as [[|] [|] [|] [|] [|] [|] [|] [|]]; intro H;
    first [reflexivity | discriminate H].
Qed.

Lemma numeral_facts c :
  numeral c = true ->
  eqb_ignorecase c "u" = false /\ is_space c = false /\ eqb_ignorecase c "%" = false.
Proof.
  unfold numeral. cbn [py String.list_ascii_of_string existsb]. intro H.
  repeat (apply orb_prop in H as [H|H];
          [apply Ascii.eqb_eq in H; subst c; repeat split; reflexivity|]).
  discriminate.
Qed.

Lemma uint_numerals d :
  forallb numeral (py (DecimalString.NilEmpty.string_of_uint d)) = true.
Proof.
  unfold py.
  induction d;
    cbn [DecimalString.NilEmpty.string_of_uint String.list_ascii_of_string forallb];
    try rewrite IHd; reflexivity.
Qed.

Lemma str_of_int_numerals n :
  forallb numeral (str_of_int n) = true /\ str_of_int n <> [].
Proof.
  unfold str_of_int.
  destruct (Z.to_int n) as [d|d];
    (destruct d;
     [split; [reflexivity|discriminate]
     |pose proof (uint_numerals d) as U; unfold py in *;
      cbn [DecimalString.NilZero.string_of_int DecimalString.NilZero.string_of_uint
           DecimalString.NilEmpty.string_of_uint String.list_ascii_of_string forallb];
      rewrite U; split; [reflexivity|discriminate] ..]).
Qed.

Section FixUserId.

Variable user_id : Z.

Local Abbreviation sub := (re_sub_user_id user_id).

Lemma sub_match c r rest :
  match_user_id user_id (c :: r) = Some rest ->
  sub (c :: r) = py "user_id = %s" ++ sub rest.
Proof. intro H. rewrite re_sub_user_id_unfold, H. reflexivity. Qed.

Lemma sub_copy c r :
  match_user_id user_id (c :: r) = None -> sub (c :: r) = c :: sub r.
Proof. intro H. rewrite re_sub_user_id_unfold, H. reflexivity. Qed.

Lemma sub_nil : sub [] = [].
Proof. rewrite re_sub_user_id_unfold. reflexivity. Qed.

(** A piece of pattern that does not take [u] is matched on the rewritten
    text only where it is matched on the text, and the rest is the rewritten
    rest. *)
Lemma match_ignorecase_sub p :
  forallb (fun a => negb (eqb_ignorecase a "u")) p = true ->
  forall r t', match_ignorecase p (sub r) = Some t' ->
               exists t, match_ignorecase p r = Some t /\ t' = sub t.
Proof.
  induction p as [|a p IH]; intros F r t' H.
  - inversion H. exists r. split; reflexivity.
  - cbn [forallb] in F. apply andb_prop in F as [Fa F]. apply negb_true_iff in Fa.
    destruct r as [|d r]; [rewrite sub_nil in H; discriminate|].
    destruct (match_user_id user_id (d :: r)) as [rest|] eqn:M.
    + rewrite (sub_match _ _ _ M) in H.
      cbn [py String.list_ascii_of_string app match_ignorecase] in H.
      rewrite Fa in H. discriminate.
    + rewrite (sub_copy _ _ M) in H. cbn [match_ignorecase] in *.
      destruct (eqb_ignorecase a d); [|discriminate]. apply IH; assumption.
Qed.

Lemma lstrip_sub r : lstrip (sub r) = sub (lstrip r).
Proof.
  induction r as [|d r IH]; [rewrite sub_nil; reflexivity|].
  cbn [lstrip]. destruct (is_space d) eqn:Sp.
  - rewrite (sub_copy _ _ (match_user_id_head user_id d r (space_is_no_u d Sp))).
    cbn [lstrip]. rewrite Sp. exact IH.
  - destruct (match_user_id user_id (d :: r)) as [rest|] eqn:M.
    + rewrite (sub_match _ _ _ M). reflexivity.
    + rewrite (sub_copy _ _ M). cbn [lstrip]. rewrite Sp. reflexivity.
Qed.

Lemma numerals_take_no_u :
  forallb (fun a => negb (eqb_ignorecase a "u")) (str_of_int user_id) = true.
Proof.
  destruct (str_of_int_numerals user_id) as [F _].
  induction (str_of_int user_id) as [|c l IH]; [reflexivity|].
  cbn [forallb] in *. apply andb_prop in F as [Fc F].
  destruct (numeral_facts c Fc) as (-> & _ & _). exact (IH F).
Qed.

(** A match on the rewritten text behind a copied character is a match on the
    text. *)
Lemma match_user_id_sub c r x :
  match_user_id user_id (c :: sub r) = Some x ->
  exists t, match_user_id user_id (c :: r) = Some t.
Proof.
  unfold match_user_id.
  change (match_ignorecase (py "user_id") (c :: sub r))
    with (if eqb_ignorecase "u" c then match_ignorecase (py "ser_id") (sub r) else None).
  change (match_ignorecase (py "user_id") (c :: r))
    with (if eqb_ignorecase "u" c then match_ignorecase (py "ser_id") r else None).
  destruct (eqb_ignorecase "u" c); [|discriminate].
  destruct (match_ignorecase (py "ser_id") (sub r)) as [s1'|] eqn:M1; [|discriminate].
  apply match_ignorecase_sub in M1 as (s1 & -> & ->); [|reflexivity].
  rewrite lstrip_sub.
  destruct (lstrip s1) as [|e s2]; [rewrite sub_nil; discriminate|].
  destruct (match_user_id user_id (e :: s2)) as [rest|] eqn:M.
  - rewrite (sub_match _ _ _ M). cbn [py String.list_ascii_of_string app].
    change (eqb_ignorecase "=" "u") with false. discriminate.
  - rewrite (sub_copy _ _ M). destruct (eqb_ignorecase "=" e); [|discriminate].
    rewrite lstrip_sub. intro H.
    apply match_ignorecase_sub in H as (t & -> & _); [|apply numerals_take_no_u].
    exists t. reflexivity.
Qed.

Lemma has_match_cons c r :
  has_user_id_match user_id (c :: r)
  = match match_user_id user_id (c :: r) with
    | Some _ => true
    | None => has_user_id_match user_id r
    end.
Proof. reflexivity. Qed.

(** The text put in has no match in it, whatever follows. *)
Lemma has_match_replacement x :
  has_user_id_match user_id (py "user_id = %s" ++ x) = has_user_id_match user_id x.
Proof.
  destruct (str_of_int_numerals user_id) as [F N].
  cbn [py String.list_ascii_of_string app]. rewrite has_match_cons.
  assert (match_user_id user_id
            ("u" :: "s" :: "e" :: "r" :: "_" :: "i" :: "d" :: " " :: "=" :: " "
                 :: "%" :: "s" :: x)%char%list = None) as ->.
  { unfold match_user_id.
    cbn [py String.list_ascii_of_string match_ignorecase].
    change (eqb_ignorecase "u" "u") with true. change (eqb_ignorecase "s" "s") with true.
    change (eqb_ignorecase "e" "e") with true. change (eqb_ignorecase "r" "r") with true.
    change (eqb_ignorecase "_" "_") with true. change (eqb_ignorecase "i" "i") with true.
    change (eqb_ignorecase "d" "d") with true. cbn [lstrip].
    change (is_space " ") with true. change (is_space "=") with false.
    change (eqb_ignorecase "=" "=") with true. cbn [lstrip].
    change (is_space "%") with false.
    destruct (str_of_int user_id) as [|d0 ds]; [contradiction|].
    cbn [forallb] in F. apply andb_prop in F as [F0 _].
    destruct (numeral_facts d0 F0) as (_ & _ & P).
    cbn [match_ignorecase].
    change (eqb_ignorecase "=" "=") with true. change (is_space " ") with true.
    cbv beta iota. rewrite P. reflexivity. }
  repeat (rewrite has_match_cons, match_user_id_head by reflexivity).
  reflexivity.
Qed.

Lemma sub_leaves_no_match s : has_user_id_match user_id (sub s) = false.
Proof.
  remember (length s) as n eqn:Hn. revert s Hn.
  induction n as [n IH] using (well_founded_induction lt_wf). intros s Hn.
  destruct s as [|c r]; [rewrite sub_nil; reflexivity|].
  destruct (match_user_id user_id (c :: r)) as [rest|] eqn:M.
  - rewrite (sub_match _ _ _ M), has_match_replacement.
    eapply IH; [|reflexivity]. subst n. apply (match_user_id_shorter _ _ _ M).
  - rewrite (sub_copy _ _ M), has_match_cons.
    destruct (match_user_id user_id (c :: sub r)) as [x|] eqn:M'.
    + apply match_user_id_sub in M' as (t & M'). rewrite M' in M. discriminate.
    + eapply IH; [|reflexivity]. subst n. cbn [length]. lia.
Qed.

Lemma sub_without_match s : has_user_id_match user_id s = false -> sub s = s.
Proof.
  induction s as [|c r IH]; intro H; [apply sub_nil|].
  rewrite has_match_cons in H.
  destruct (match_user_id user_id (c :: r)) eqn:M; [discriminate|].
  rewrite (sub_copy _ _ M), (IH H). reflexivity.
Qed.

End FixUserId.

Lemma match_ignorecase_same p :
  forall name y,
    upper name = upper p -> match_ignorecase p (name ++ y) = Some y.
Proof.
  induction p as [|a p IH]; intros [|b name] y H; try discriminate; [reflexivity|].
  cbn [upper map] in H. inversion H as [[Hb Hp]].
  cbn [app match_ignorecase]. unfold eqb_ignorecase at 1.
  rewrite Hb, Ascii.eqb_refl. apply IH. exact Hp.
Qed.

Lemma lstrip_spaces ws y : forallb is_space ws = true -> lstrip (ws ++ y) = lstrip y.
Proof.
  induction ws as [|c ws IH]; intro H; [reflexivity|].
  cbn [forallb] in H. apply andb_prop in H as [Hc H].
  cbn [app lstrip]. rewrite Hc. apply IH, H.
Qed.

Lemma lstrip_numerals user_id y :
  lstrip (str_of_int user_id ++ y) = str_of_int user_id ++ y.
Proof.
  destruct (str_of_int_numerals user_id) as [F N].
  destruct (str_of_int user_id) as [|d ds]; [contradiction|].
  cbn [forallb] in F. apply andb_prop in F as [Fd _].
  destruct (numeral_facts d Fd) as (_ & Sp & _).
  cbn [app lstrip]. rewrite Sp. reflexivity.
Qed.

(** X16.  The text that [_fix_user_id_placeholder] returns has no place left
    where [user_id], in any case, is set equal to the digits of the user id:
    each such place is rewritten, and rewriting brings in no new one. *)
Theorem fix_leaves_no_user_id_literal :
  forall sql_query user_id,
    has_user_id_match user_id (_fix_user_id_placeholder sql_query user_id) = false.
Proof. intros q uid. rewrite fix_is_sub. apply sub_leaves_no_match. Qed.

(** X17.  [_fix_user_id_placeholder] is idempotent. *)
Theorem fix_user_id_idempotent :
  forall sql_query user_id,
    _fix_user_id_placeholder (_fix_user_id_placeholder sql_query user_id) user_id
    = _fix_user_id_placeholder sql_query user_id.
Proof.
  intros q uid. rewrite !fix_is_sub. apply sub_without_match, sub_leaves_no_match.
Qed.

(** X18.  A place where [user_id], in any case and with any whitespace
    around the [=], is followed by the digits of the user id is rewritten to
    [user_id = %s] whatever follows the digits, further digits included: the
    pattern does not ask that the number ends there. *)
Theorem fix_rewrites_the_literal_whatever_follows :
  forall name ws1 ws2 rest user_id,
    upper name = upper (py "user_id") ->
    forallb is_space ws1 = true ->
    forallb is_space ws2 = true ->
    _fix_user_id_placeholder
      (name ++ ws1 ++ "="%char :: ws2 ++ str_of_int user_id ++ rest) user_id
    = py "user_id = %s" ++ _fix_user_id_placeholder rest user_id.
Proof.
  intros name ws1 ws2 rest uid Hn H1 H2. rewrite !fix_is_sub.
  destruct name as [|c name]; [discriminate|]. cbn [app].
  apply sub_match. unfold match_user_id.
  change (c :: name ++ ws1 ++ "="%char :: ws2 ++ str_of_int uid ++ rest)
    with ((c :: name) ++ ws1 ++ "="%char :: ws2 ++ str_of_int uid ++ rest).
  rewrite (match_ignorecase_same _ _ _ Hn), (lstrip_spaces _ _ H1).
  cbn [lstrip]. change (is_space "=") with false. cbv beta iota.
  change (eqb_ignorecase "=" "=") with true. cbv beta iota.
  rewrite (lstrip_spaces _ _ H2), lstrip_numerals.
  apply match_ignorecase_same. reflexivity.
Qed.

Lemma fix_rewrites_the_literal_whatever_follows_witness :
  upper (py "USER_ID") = upper (py "user_id")
  /\ forallb is_space (py "  ") = true
  /\ forallb is_space [] = true
  /\ _fix_user_id_placeholder
       (py "USER_ID" ++ py "  " ++ "="%char :: [] ++ str_of_int 7 ++ py "1 AND x = 2") 7
     = py "user_id = %s" ++ _fix_user_id_placeholder (py "1 AND x = 2") 7.
Proof.
  repeat (split; [reflexivity|]).
  apply (fix_rewrites_the_literal_whatever_follows
           (py "USER_ID") (py "  ") [] (py "1 AND x = 2") 7); reflexivity.
Defined.

(** *** Stripping whitespace *)

Lemma lstrip_snoc y c :
  lstrip (y ++ [c])
  = match lstrip y with
    | [] => if is_space c then [] else [c]
    | l => l ++ [c]
    end.
Proof.
  induction y as [|d y IH]; cbn [app lstrip].
  - destruct (is_space c); reflexivity.
  - destruct (is_space d); [exact IH|reflexivity].
Qed.

Lemma rstrip_cons c t :
  rstrip (c :: t)
  = match rstrip t with
    | [] => if is_space c then [] else [c]
    | r => c :: r
    end.
Proof.
  unfold rstrip. cbn [rev]. rewrite lstrip_snoc.
  destruct (lstrip (rev t)) as [|e l].
  - cbn [rev]. destruct (is_space c); reflexivity.
  - rewrite rev_app_distr. cbn [rev app].
    destruct (rev l ++ [e]) eqn:E; [|reflexivity].
    destruct (rev l); discriminate.
Qed.

Lemma rstrip_nil : rstrip [] = [].
Proof. reflexivity. Qed.

Lemma lstrip_head s c t : lstrip s = c :: t -> is_space c = false.
Proof.
  induction s as [|d s IH]; cbn [lstrip]; [discriminate|].
  destruct (is_space d) eqn:E; [exact IH|]. intro H. inversion H; subst. exact E.
Qed.

Lemma lstrip_suffix s : exists pre, s = pre ++ lstrip s.
Proof.
  induction s as [|d s [pre IH]]; [exists []; reflexivity|].
  cbn [lstrip]. destruct (is_space d).
  - exists (d :: pre). cbn [app]. rewrite <- IH. reflexivity.
  - exists []. reflexivity.
Qed.

Lemma rstrip_prefix s : exists post, s = rstrip s ++ post.
Proof.
  induction s as [|d s [post IH]]; [exists []; reflexivity|].
  rewrite rstrip_cons. destruct (rstrip s) as [|e r].
  - destruct (is_space d).
    + exists (d :: s). reflexivity.
    + exists post. cbn [app] in *. rewrite <- IH. reflexivity.
  - exists post. cbn [app] in *. rewrite <- IH. reflexivity.
Qed.

Lemma rstrip_all_space ws : forallb is_space ws = true -> rstrip ws = [].
Proof.
  induction ws as [|c ws IH]; intro H; [reflexivity|].
  cbn [forallb] in H. apply andb_prop in H as [Hc H].
  rewrite rstrip_cons, (IH H), Hc. reflexivity.
Qed.

Lemma rstrip_spaces y ws : forallb is_space ws = true -> rstrip (y ++ ws) = rstrip y.
Proof.
  intro H. induction y as [|c y IH]; [apply rstrip_all_space, H|].
  cbn [app]. rewrite !rstrip_cons, IH. reflexivity.
Qed.

Lemma rstrip_app_keep x y : rstrip y <> [] -> rstrip (x ++ y) = x ++ rstrip y.
Proof.
  intro N. induction x as [|c x IH]; [reflexivity|].
  cbn [app]. rewrite rstrip_cons, IH.
  destruct (x ++ rstrip y) eqn:E; [|reflexivity].
  destruct x; [contradiction|discriminate].
Qed.

Lemma rstrip_idempotent s : rstrip (rstrip s) = rstrip s.
Proof.
  induction s as [|c s IH]; [reflexivity|].
  rewrite rstrip_cons. destruct (rstrip s) as [|e r] eqn:E.
  - destruct (is_space c) eqn:Sp; [reflexivity|].
    rewrite rstrip_cons, rstrip_nil, Sp. reflexivity.
  - rewrite rstrip_cons, IH. reflexivity.
Qed.

Lemma lstrip_fixed c t : is_space c = false -> lstrip (c :: t) = c :: t.
Proof. intro H. cbn [lstrip]. rewrite H. reflexivity. Qed.

Lemma lstrip_app_keep y z : lstrip y <> [] -> lstrip (y ++ z) = lstrip y ++ z.
Proof.
  induction y as [|c y IH]; intro N; [contradiction|].
  cbn [app lstrip] in *. destruct (is_space c); [apply IH, N|reflexivity].
Qed.

Lemma lstrip_all_space ws : forallb is_space ws = true -> lstrip ws = [].
Proof.
  induction ws as [|c ws IH]; intro H; [reflexivity|].
  cbn [forallb] in H. apply andb_prop in H as [Hc H].
  cbn [lstrip]. rewrite Hc. apply IH, H.
Qed.

Lemma strip_idempotent s : strip (strip s) = strip s.
Proof.
  unfold strip. destruct (lstrip s) as [|c t] eqn:E; [reflexivity|].
  pose proof (lstrip_head _ _ _ E) as Sp.
  assert (lstrip (rstrip (c :: t)) = rstrip (c :: t)) as ->.
  { rewrite rstrip_cons. destruct (rstrip t); rewrite ?Sp; apply lstrip_fixed, Sp. }
  apply rstrip_idempotent.
Qed.

Lemma lstrip_strip s : lstrip (strip s) = strip s.
Proof.
  unfold strip. destruct (lstrip s) as [|c t] eqn:E; [reflexivity|].
  pose proof (lstrip_head _ _ _ E) as Sp.
  rewrite rstrip_cons. destruct (rstrip t); rewrite ?Sp; apply lstrip_fixed, Sp.
Qed.

Lemma rstrip_strip s : rstrip (strip s) = strip s.
Proof. apply rstrip_idempotent. Qed.

Lemma strip_padded ws1 body ws2 :
  forallb is_space ws1 = true -> forallb is_space ws2 = true ->
  strip body = body -> body <> [] ->
  strip (ws1 ++ body ++ ws2) = body.
Proof.
  intros H1 H2 Hb N. unfold strip. rewrite (lstrip_spaces _ _ H1).
  assert (lstrip body = body) as L by (rewrite <- Hb; apply lstrip_strip).
  assert (rstrip body = body) as R by (rewrite <- Hb; apply rstrip_strip).
  rewrite lstrip_app_keep by (rewrite L; exact N).
  rewrite L, (rstrip_spaces _ _ H2). exact R.
Qed.

(** *** Consecutive parts *)

Lemma part_of_trans a b c : part_of a b -> part_of b c -> part_of a c.
Proof.
  intros (p1 & q1 & ->) (p2 & q2 & ->). exists (p2 ++ p1), (q1 ++ q2).
  rewrite <- !app_assoc. reflexivity.
Qed.

Lemma part_of_refl a : part_of a a.
Proof. exists [], []. rewrite app_nil_r. reflexivity. Qed.

Lemma part_of_skipn n s : part_of (skipn n s) s.
Proof. exists (firstn n s), []. rewrite app_nil_r, firstn_skipn. reflexivity. Qed.

Lemma part_of_firstn n s : part_of (firstn n s) s.
Proof. exists [], (skipn n s). cbn [app]. rewrite firstn_skipn. reflexivity. Qed.

Lemma part_of_strip s : part_of (strip s) s.
Proof.
  destruct (lstrip_suffix s) as [pre Hpre].
  destruct (rstrip_prefix (lstrip s)) as [post Hpost].
  exists pre, post. unfold strip. rewrite <- Hpost. exact Hpre.
Qed.

(** ** Cleaning a response *)

(** X19.  What [_clean_sql_response] returns starts with [SELECT], in any
    case, has no whitespace at either end, and is a run of consecutive
    characters of the response: the function only cuts, it rewrites
    nothing. *)
Theorem clean_response_only_cuts :
  forall response sql_query,
    _clean_sql_response response = Some sql_query ->
    startswith (py "SELECT") (upper sql_query) = true
    /\ strip sql_query = sql_query
    /\ part_of sql_query response.
Proof.
  intros response q H. unfold _clean_sql_response in H.
  destruct response as [|c r]; [discriminate|]. cbv zeta in H.
  set (x0 := strip (c :: r)) in *.
  set (x1 := if startswith (py "```sql") x0 then skipn 6 x0
             else if startswith (py "```") x0 then skipn 3 x0 else x0) in *.
  set (x2 := if endswith (py "```") x1 then firstn (length x1 - 3) x1 else x1) in *.
  destruct (startswith (py "SELECT") (upper (strip x2))) eqn:S; [|discriminate].
  inversion H; subst q. split; [exact S|]. split; [apply strip_idempotent|].
  apply (part_of_trans _ x2); [apply part_of_strip|].
  apply (part_of_trans _ x1).
  { subst x2. destruct (endswith _ x1); [apply part_of_firstn|apply part_of_refl]. }
  apply (part_of_trans _ x0); [|apply part_of_strip].
  subst x1. destruct (startswith (py "```sql") x0); [apply part_of_skipn|].
  destruct (startswith (py "```") x0); [apply part_of_skipn|apply part_of_refl].
Qed.

Lemma clean_response_only_cuts_witness :
  _clean_sql_response (py "```sql select id from t where user_id = 7 ```")
  = Some (py "select id from t where user_id = 7")
  /\ startswith (py "SELECT") (upper (py "select id from t where user_id = 7")) = true
  /\ strip (py "select id from t where user_id = 7")
     = py "select id from t where user_id = 7"
  /\ part_of (py "select id from t where user_id = 7")
             (py "```sql select id from t where user_id = 7 ```").
Proof.
  split; [reflexivity|].
  apply (clean_response_only_cuts
           (py "```sql select id from t where user_id = 7 ```")
           (py "select id from t where user_id = 7")).
  reflexivity.
Defined.

(** X20.  A query between code fences comes back as it is: for a text that
    starts with [SELECT], in any case, and has no whitespace at either end,
    put between the opening fence with its [sql] tag and the closing fence,
    with any whitespace around the fences and the text,
    [_clean_sql_response] returns the text. *)
Theorem clean_response_unwraps_a_fenced_query :
  forall ws0 ws1 body ws2 ws3,
    forallb is_space ws0 = true -> forallb is_space ws1 = true ->
    forallb is_space ws2 = true -> forallb is_space ws3 = true ->
    strip body = body ->
    startswith (py "SELECT") (upper body) = true ->
    _clean_sql_response
      (ws0 ++ py "```sql" ++ ws1 ++ body ++ ws2 ++ py "```" ++ ws3)
    = Some body.
Proof.
  intros ws0 ws1 body ws2 ws3 H0 H1 H2 H3 Hb Hs.
  assert (body <> []) as N by (intro E; subst body; discriminate).
  set (inner := ws1 ++ body ++ ws2).
  set (fenced := py "```sql" ++ inner ++ py "```").
  assert (ws0 ++ py "```sql" ++ ws1 ++ body ++ ws2 ++ py "```" ++ ws3
          = ws0 ++ fenced ++ ws3) as ->.
  { unfold fenced, inner. rewrite <- !app_assoc. reflexivity. }
  assert (strip (ws0 ++ fenced ++ ws3) = fenced) as X0.
  { unfold strip. rewrite (lstrip_spaces _ _ H0).
    assert (lstrip (fenced ++ ws3) = fenced ++ ws3) as -> by reflexivity.
    rewrite (rstrip_spaces _ _ H3). unfold fenced.
    rewrite app_assoc. apply rstrip_app_keep. discriminate. }
  unfold _clean_sql_response.
  destruct (ws0 ++ fenced ++ ws3) as [|c r] eqn:E.
  { exfalso. destruct ws0; discriminate. }
  cbv zeta. rewrite X0.
  assert (startswith (py "```sql") fenced = true) as -> by apply startswith_self.
  assert (skipn 6 fenced = inner ++ py "```") as -> by reflexivity.
  assert (endswith (py "```") (inner ++ py "```") = true) as ->.
  { unfold endswith. rewrite rev_app_distr. apply startswith_self. }
  assert (firstn (length (inner ++ py "```") - 3) (inner ++ py "```") = inner) as ->.
  { rewrite length_app. change (length (py "```")) with 3.
    rewrite Nat.add_sub, firstn_app, Nat.sub_diag, firstn_all, firstn_O.
    apply app_nil_r. }
  unfold inner. rewrite (strip_padded _ _ _ H1 H2 Hb N), Hs. reflexivity.
Qed.

Lemma clean_response_unwraps_a_fenced_query_witness :
  forallb is_space (py "  ") = true /\ forallb is_space [Demo.newline] = true
  /\ forallb is_space [Demo.newline] = true /\ forallb is_space [] = true
  /\ strip (py "Select 1 FROM t") = py "Select 1 FROM t"
  /\ startswith (py "SELECT") (upper (py "Select 1 FROM t")) = true
  /\ _clean_sql_response
       (py "  " ++ py "```sql" ++ [Demo.newline] ++ py "Select 1 FROM t"
           ++ [Demo.newline] ++ py "```" ++ [])
     = Some (py "Select 1 FROM t").
Proof.
  repeat (split; [reflexivity|]).
  apply (clean_response_unwraps_a_fenced_query
           (py "  ") [Demo.newline] (py "Select 1 FROM t") [Demo.newline] []);
    reflexivity.
Defined.

(** ** Generation and orchestration *)

(** A query fit to be handed on: not empty, accepted by the structural
    check, and with no user id written out behind [user_id =]. *)
Lemma fixed_and_checked raw user_id :
  negb (Nat.eqb (length (_fix_user_id_placeholder raw user_id)) 0)
  && _validate_sql_structure (_fix_user_id_placeholder raw user_id) = true ->
  _fix_user_id_placeholder raw user_id <> []
  /\ _validate_sql_structure (_fix_user_id_placeholder raw user_id) = true
  /\ has_user_id_match user_id (_fix_user_id_placeholder raw user_id) = false.
Proof.
  intro H. apply andb_prop in H as [N V]. split; [|split; [exact V|]].
  - intro E. rewrite E in N. discriminate.
  - rewrite fix_is_sub. apply sub_leaves_no_match.
Qed.

Arguments get : simpl never.

(** Looks a key up in a dictionary that is written out. *)
Ltac lookup :=
  match goal with
  | H : context [get (VDict ?d) ?k] |- _ =>
      let r := eval cbv [get dict_get String.eqb Ascii.eqb Bool.eqb] in (get (VDict d) k) in
      change (get (VDict d) k) with r in H; cbn in H
  | H : context [getitem (VDict ?d) ?k] |- _ =>
      let r := eval cbv [getitem dict_get String.eqb Ascii.eqb Bool.eqb]
               in (getitem (VDict d) k) in
      change (getitem (VDict d) k) with r in H; cbn in H
  | H : context [truthy (VDict (?a :: ?l))] |- _ =>
      change (truthy (VDict (a :: l))) with true in H; cbn in H
  end.

Section Orchestrate.

Variable isoformat : nat -> str.
Variable strftime : nat -> str.
Variable str_of_exception : exn -> str.

Lemma generate_sql_query_result self question user_id current_date w :
  exists r w1,
    generate_sql_query strftime self question user_id current_date w = (inr r, w1)
    /\ driver_calls w1 = driver_calls w
    /\ (forall sql_query,
          r = Some sql_query ->
          sql_query <> []
          /\ _validate_sql_structure sql_query = true
          /\ has_user_id_match user_id sql_query = false).
Proof.
  destruct (generate_sql_query strftime self question user_id current_date w)
    as [r w1] eqn:H.
  unfold generate_sql_query, try_except, bind, raise, ret, now_strftime in H.
  repeat step; pairs; eexists _, _; (split; [reflexivity|]);
    (split; [reflexivity|]); intros q Hq; try discriminate;
    inversion Hq; subst; apply fixed_and_checked; assumption.
Qed.

Variable self : LLMDatabaseAgent.

Local Abbreviation _generate_sql_query := (_generate_sql_query strftime self).
Local Abbreviation process_question :=
  (process_question isoformat strftime str_of_exception self).

Lemma _generate_sql_query_result question user_id w :
  exists r w1,
    _generate_sql_query question user_id w = (inr r, w1)
    /\ driver_calls w1 = driver_calls w
    /\ (forall sql_query,
          r = Some sql_query ->
          sql_query <> []
          /\ _validate_sql_structure sql_query = true
          /\ has_user_id_match user_id sql_query = false).
Proof.
  unfold Orchestration._generate_sql_query, try_except, bind, ret, now_strftime.
  destruct (generate_sql_query_result (sql_agent self) question user_id
              (Some (strftime (clock w))) (tick w)) as (r & w1 & -> & C & F).
  destruct r as [[|c q]|]; eexists _, _; (split; [reflexivity|]);
    (split; [exact C|]); intros x Hx; try discriminate.
  inversion Hx; subst. apply F. reflexivity.
Qed.

(** X21.  Whatever the model answers, [_generate_sql_query] does not raise
    and does not touch the driver, and a query it returns is not empty, has
    passed [_validate_sql_structure] and has no user id written out behind
    [user_id =]. *)
Theorem generated_query_is_fixed_and_checked :
  forall question user_id w,
  exists r w1,
    _generate_sql_query question user_id w = (inr r, w1)
    /\ driver_calls w1 = driver_calls w
    /\ (forall sql_query,
          r = Some sql_query ->
          sql_query <> []
          /\ _validate_sql_structure sql_query = true
          /\ has_user_id_match user_id sql_query = false).
Proof. intros. apply _generate_sql_query_result. Qed.

(** The calls that [process_question] may make to the driver. *)
Lemma dispatched_checked sql_query user_id :
  _validate_sql_structure sql_query = true ->
  has_user_id_match user_id sql_query = false ->
  Forall (fun call =>
            exists q reason,
              call = _prepare_query_parameters q user_id
              /\ _validate_sql_structure q = true
              /\ has_user_id_match user_id q = false
              /\ validate_query (query_guard (query_execution_agent self)) q user_id
                 = inr (true, reason))
         (dispatched (query_execution_agent self) sql_query user_id)
  /\ length (dispatched (query_execution_agent self) sql_query user_id) <= 1.
Proof.
  intros V N. unfold dispatched.
  destruct (validate_query (query_guard (query_execution_agent self)) sql_query user_id)
    as [e|[[|] reason]] eqn:G; cbn [length]; (split; [|lia]); constructor;
    [|constructor].
  exists sql_query, reason. repeat split; assumption.
Qed.

(** X22.  [process_question] calls the driver at most once, and only with the
    bound form of a query that has passed [_validate_sql_structure], that has
    no user id written out behind [user_id =], and that the guard of the
    execution agent has let through. *)
Theorem process_question_dispatches_only_checked_queries :
  forall question user_id w,
  exists calls,
    driver_calls (snd (process_question question user_id w)) = driver_calls w ++ calls
    /\ length calls <= 1
    /\ Forall (fun call =>
                 exists q reason,
                   call = _prepare_query_parameters q user_id
                   /\ _validate_sql_structure q = true
                   /\ has_user_id_match user_id q = false
                   /\ validate_query (query_guard (query_execution_agent self)) q user_id
                      = inr (true, reason))
              calls.
Proof.
  intros question uid w.
  destruct (process_question question uid w) as [r wf] eqn:H. cbn [snd].
  unfold Orchestration.process_question, process_question_try, try_except, bind,
    lift, ret, now_isoformat in H.
  destruct (_generate_sql_query_result question uid w) as (sq & w1 & G & C1 & F).
  rewrite G in H.
  destruct sq as [[|c q]|].
  - exists []. rewrite app_nil_r. split; [|split; [cbn; lia|constructor]].
    repeat step; pairs; exact C1.
  - destruct (F (c :: q) eq_refl) as (_ & V & N).
    destruct (dispatched_checked (c :: q) uid V N) as [D L].
    pose proof (execute_query_driver_calls isoformat str_of_exception
                  (query_execution_agent self) (c :: q) uid w1) as C2.
    destruct (execute_query isoformat str_of_exception (query_execution_agent self)
                (c :: q) uid w1) as [res w2].
    cbn [snd] in C2. rewrite C1 in C2.
    exists (dispatched (query_execution_agent self) (c :: q) uid).
    split; [|split; assumption].
    repeat step; pairs; exact C2.
  - exists []. rewrite app_nil_r. split; [|split; [cbn; lia|constructor]].
    repeat step; pairs; exact C1.
Qed.

(** X23.  When the guard refuses the generated query, [process_question]
    returns the failure that carries the refusal as its error and the
    formatter's text as its response, and the driver is not called. *)
Theorem process_question_passes_on_a_refusal :
  forall question user_id w sql_query w1 reason response,
    _generate_sql_query question user_id w = (inr (Some sql_query), w1) ->
    validate_query (query_guard (query_execution_agent self)) sql_query user_id
    = inr (false, reason) ->
    format_error_response (response_formatting_agent self) question
      (VStr (py "Query blocked for security: " ++ reason)) (py "database")
    = inr response ->
    process_question question user_id w
    = (inr (VDict [("success", VBool false);
                   ("error", VStr (py "Query blocked for security: " ++ reason));
                   ("response", response)]),
       tick w1)
    /\ driver_calls (tick w1) = driver_calls w.
Proof.
  intros question uid w sql w1 reason response G R Fm.
  destruct (_generate_sql_query_result question uid w) as (sq & w1' & G' & C1 & F).
  rewrite G in G'. inversion G'; subst sq w1'. clear G'.
  destruct (F sql eq_refl) as (Ne & _ & _).
  destruct sql as [|c q]; [contradiction|].
  split; [|exact C1].
  unfold Orchestration.process_question, process_question_try, try_except, bind,
    lift, ret.
  rewrite G, (execute_query_blocked isoformat str_of_exception _ _ _ _ _ R).
  change (getitem (failure ?e ?a ?b ?t) "success") with (@inr exn value (VBool false)).
  change (getitem (failure ?e ?a ?b ?t) "error") with (@inr exn value e).
  change (truthy (VBool false)) with false. cbv beta iota. cbn [negb].
  cbv beta iota. rewrite Fm. reflexivity.
Qed.

(** What the [try] block of [process_question] gives: an exception, or a
    dictionary with a success flag and a response. *)
Lemma process_question_try_result question user_id w :
  (forall q error kind,
      exists response,
        format_error_response (response_formatting_agent self) q error kind
        = inr response) ->
  (exists e w1,
      process_question_try isoformat strftime str_of_exception self question user_id w
      = (inl e, w1))
  \/ (exists d b response w1,
         process_question_try isoformat strftime str_of_exception self question user_id w
         = (inr (VDict d), w1)
         /\ dict_get d "success" = Some (VBool b)
         /\ dict_get d "response" = Some response).
Proof.
  intros Fm.
  unfold process_question_try, bind, lift, ret, now_isoformat.
  destruct (_generate_sql_query_result question user_id w) as (sq & w1 & G & _ & _).
  rewrite G.
  destruct sq as [[|c q]|].
  - right.
    destruct (Fm question (VStr (py "SQL generation failed")) (py "sql")) as [v Hv].
    rewrite Hv.
    eexists _, false, v, w1. split; [reflexivity|]. split; reflexivity.
  - destruct (execute_query isoformat str_of_exception (query_execution_agent self)
                (c :: q) user_id w1) as [[e|qr] w2]; [left; eauto|].
    destruct (getitem qr "success") as [e|sf]; [left; eauto|].
    destruct (negb (truthy sf)).
    + destruct (getitem qr "error") as [e|err]; [left; eauto|].
      destruct (Fm question err (py "database")) as [v Hv]. rewrite Hv.
      right. eexists _, false, v, w2. split; [reflexivity|]. split; reflexivity.
    + destruct (getitem qr "row_count") as [e|rc]; [left; eauto|].
      destruct (eq_zero rc).
      * destruct (format_empty_results_response (response_formatting_agent self) question)
          as [e|fr]; [left; eauto|].
        change (truthy (VDict (?a :: ?l))) with true.
        change (negb true) with false. cbv beta iota.
        change (get (VDict (("response", ?v) :: ?l)) "response")
          with (@inr exn value v).
        cbv beta iota.
        destruct (negb (truthy fr)).
        -- right. eexists _, false, _, w2. split; [reflexivity|]. split; reflexivity.
        -- change (getitem (VDict (("response", ?v) :: ?l)) "response")
             with (@inr exn value v).
           cbv beta iota.
           change (getitem (VDict [("response", ?v); ("results", ?r);
                                   ("summary", ?s); ("metadata", ?m)]) "results")
             with (@inr exn value r).
           cbv beta iota.
           right. eexists _, true, fr, _. split; [reflexivity|]. split; reflexivity.
      * destruct (format_response (response_formatting_agent self) question qr (c :: q))
          as [e|sr]; [left; eauto|].
        destruct (negb (truthy sr)).
        -- right. eexists _, false, _, w2. split; [reflexivity|]. split; reflexivity.
        -- destruct (get sr "response") as [e|rv]; [left; eauto|].
           destruct (negb (truthy rv)).
           ++ right. eexists _, false, _, w2. split; [reflexivity|]. split; reflexivity.
           ++ destruct (getitem sr "response") as [e|rv']; [left; eauto|].
              destruct (getitem sr "results") as [e|rs]; [left; eauto|].
              right. eexists _, true, rv', _. split; [reflexivity|]. split; reflexivity.
  - right.
    destruct (Fm question (VStr (py "SQL generation failed")) (py "sql")) as [v Hv].
    rewrite Hv.
    eexists _, false, v, w1. split; [reflexivity|]. split; reflexivity.
Qed.

(** X24.  If the formatter always gives an error response, [process_question]
    never raises: it returns a dictionary with a success flag and a
    response. *)
Theorem process_question_returns_a_dictionary :
  forall question user_id w,
    (forall q error kind,
        exists response,
          format_error_response (response_formatting_agent self) q error kind
          = inr response) ->
    exists d b response w1,
      process_question question user_id w = (inr (VDict d), w1)
      /\ dict_get d "success" = Some (VBool b)
      /\ dict_get d "response" = Some response.
Proof.
  intros question uid w Fm.
  unfold Orchestration.process_question, try_except.
  destruct (process_question_try_result question uid w Fm)
    as [(e & w1 & ->)|(d & b & response & w1 & -> & S1 & S2)].
  - destruct (Fm question (VStr (str_of_exception e)) (py "general")) as [v Hv].
    unfold bind, lift, ret. rewrite Hv.
    eexists _, false, v, w1. split; [reflexivity|]. split; reflexivity.
  - exists d, b, response, w1. repeat split; assumption.
Qed.

(** X25.  When the execution reports success with a row count of 0, the
    formatter is asked for its text for empty results and for nothing else,
    and the answer carries no rows: it is the success with that text and an
    empty list of results, or, when the text is empty, the failure
    [Failed to format response]. *)
Theorem process_question_of_no_rows :
  forall question user_id w sql_query w1 query_results w2 flag row_count text,
    _generate_sql_query question user_id w = (inr (Some sql_query), w1) ->
    execute_query isoformat str_of_exception (query_execution_agent self)
      sql_query user_id w1 = (inr query_results, w2) ->
    getitem query_results "success" = inr flag ->
    truthy flag = true ->
    getitem query_results "row_count" = inr row_count ->
    eq_zero row_count = true ->
    format_empty_results_response (response_formatting_agent self) question
    = inr text ->
    process_question question user_id w
    = if truthy text
      then (inr (VDict [("success", VBool true);
                        ("response", text);
                        ("results", VList []);
                        ("sql_query", VStr sql_query);
                        ("user_id", VInt user_id);
                        ("timestamp", VStr (isoformat (clock w2)));
                        ("agents_used",
                         VList [VStr (py "SQL Generation");
                                VStr (py "Query Execution");
                                VStr (py "Response Formatting")])]),
            tick w2)
      else (inr (VDict [("success", VBool false);
                        ("error", VStr (py "Failed to format response"));
                        ("response",
                         VStr (py "I found the data but couldn't format a proper response."));
                        ("results", VList [])]),
            w2).
Proof.
  intros question uid w sql w1 qr w2 flag rc text G X Sf T Rc Z0 Fe.
  destruct (_generate_sql_query_result question uid w) as (sq & w1' & G' & _ & F).
  rewrite G in G'. inversion G'; subst sq w1'. clear G'.
  destruct (F sql eq_refl) as (Ne & _ & _).
  destruct sql as [|c q]; [contradiction|].
  unfold Orchestration.process_question, process_question_try, try_except, bind,
    lift, ret, now_isoformat.
  rewrite G, X, Sf, T, Rc, Z0, Fe.
  change (negb true) with false. cbv beta iota.
  change (truthy (VDict (?a :: ?l))) with true.
  change (negb true) with false. cbv beta iota.
  change (get (VDict (("response", ?v) :: ?l)) "response") with (@inr exn value v).
  cbv beta iota.
  destruct (truthy text); cbn [negb]; cbv beta iota; [|reflexivity].
  change (getitem (VDict (("response", ?v) :: ?l)) "response") with (@inr exn value v).
  cbv beta iota.
  change (getitem (VDict [("response", ?v); ("results", ?r);
                          ("summary", ?s); ("metadata", ?m)]) "results")
    with (@inr exn value r).
  reflexivity.
Qed.

End Orchestrate.

(** ** The syntax test against the structural check *)

Lemma is_space_upper_char c : is_space (upper_char c) = is_space c.
Proof. destruct c as [[] [] [] [] [] [] [] []]; reflexivity. Qed.

Lemma upper_lstrip s : upper (lstrip s) = lstrip (upper s).
Proof.
  induction s as [|c s IH]; [reflexivity|].
  cbn [lstrip upper map]. rewrite is_space_upper_char.
  destruct (is_space c); [exact IH|reflexivity].
Qed.

Lemma upper_strip s : upper (strip s) = strip (upper s).
Proof.
  unfold strip, rstrip, upper.
  rewrite map_rev. fold (upper (lstrip (rev (lstrip s)))).
  rewrite upper_lstrip. unfold upper. rewrite map_rev.
  fold (upper (lstrip s)). rewrite upper_lstrip. reflexivity.
Qed.

Lemma startswith_shorter p x s :
  startswith (p ++ x) s = true -> startswith p s = true.
Proof.
  revert s. induction p as [|a p IH]; intros s H; [destruct s; reflexivity|].
  destruct s as [|b s]; [discriminate H|].
  cbn [app startswith] in *. apply andb_true_iff in H. destruct H as [E H].
  rewrite E. cbn [andb]. exact (IH _ H).
Qed.

Lemma startswith_is_contained p s :
  startswith p s = true -> contains p s = true.
Proof.
  intro H. destruct s as [|b s]; cbn [contains]; rewrite H; reflexivity.
Qed.

Lemma contains_shorter p x s :
  contains (p ++ x) s = true -> contains p s = true.
Proof.
  induction s as [|b s IH]; cbn [contains]; intro H;
    apply orb_true_iff in H; apply orb_true_iff.
  - destruct H as [H|H]; [|discriminate H].
    left. exact (startswith_shorter _ _ _ H).
  - destruct H as [H|H]; [left; exact (startswith_shorter _ _ _ H)|right; exact (IH H)].
Qed.

Lemma contains_behind c r s :
  contains (c :: r) s = true -> contains r s = true.
Proof.
  induction s as [|b s IH]; cbn [contains]; intro H;
    apply orb_true_iff in H.
  - destruct H as [H|H]; discriminate H.
  - apply orb_true_iff. right. destruct H as [H|H]; [|exact (IH H)].
    cbn [startswith] in H. apply andb_true_iff in H.
    apply startswith_is_contained. apply H.
Qed.

Lemma keyword_loop_clean keywords sql_upper :
  Forall (fun keyword => contains keyword sql_upper = false) keywords ->
  keyword_loop keywords sql_upper = true.
Proof.
  induction 1 as [|keyword keywords H _ IH]; [reflexivity|].
  cbn [keyword_loop].
  destruct (contains (py " " ++ keyword ++ py " ") sql_upper) eqn:E1.
  - apply (contains_behind " "%char) in E1. apply contains_shorter in E1.
    rewrite E1 in H. discriminate H.
  - destruct (startswith (keyword ++ py " ") sql_upper) eqn:E2; [|exact IH].
    apply startswith_shorter, startswith_is_contained in E2.
    rewrite E2 in H. discriminate H.
Qed.

Lemma filter_nil_all {A} (f : A -> bool) l :
  filter f l = [] -> Forall (fun x => f x = false) l.
Proof.
  induction l as [|x l IH]; cbn [filter]; intro H; [constructor|].
  destruct (f x) eqn:E; [discriminate H|]. constructor; [exact E|exact (IH H)].
Qed.

Section SyntaxTest.

Variable isoformat : nat -> str.

(** X26.  The syntax test is the stricter of the two checks: a query for
    which [test_query_syntax] reports [syntax_valid], [has_where] and
    [has_user_id] all true is, once the whitespace at its ends is stripped,
    accepted by [_validate_sql_structure]. *)
Theorem syntax_test_is_stricter_than_the_structure_check :
  forall sql_query w report w1,
    test_query_syntax isoformat sql_query w = (inr report, w1) ->
    getitem report "syntax_valid" = inr (VBool true) ->
    getitem report "has_where" = inr (VBool true) ->
    getitem report "has_user_id" = inr (VBool true) ->
    _validate_sql_structure (strip sql_query) = true.
Proof.
  intros q w report w1 H V W U.
  unfold test_query_syntax, bind, now_isoformat, ret in H.
  apply (f_equal fst) in H. cbn [fst] in H. injection H as <-.
  change (@inr exn value
            (VBool (startswith (py "SELECT") (strip (upper q))
                    && contains (py "FROM") (strip (upper q))
                    && negb (truthy (VList (map VStr (found_dangerous (strip (upper q))))))))
          = inr (VBool true)) in V.
  change (@inr exn value (VBool (contains (py "WHERE") (strip (upper q))))
          = inr (VBool true)) in W.
  change (@inr exn value (VBool (contains (py "USER_ID") (strip (upper q))))
          = inr (VBool true)) in U.
  assert (forall a b : bool, @inr exn value (VBool a) = inr (VBool b) -> a = b) as I
    by (intros a b X; inversion X; reflexivity).
  apply I in V, W, U. rename W into W', U into U'.
  apply andb_true_iff in V. destruct V as [V D].
  apply andb_true_iff in V. destruct V as [Sel Fr].
  assert (found_dangerous (strip (upper q)) = []) as E.
  { revert D. destruct (found_dangerous (strip (upper q))); [reflexivity|].
    unfold truthy. cbn [map length Nat.eqb negb]. intro D. discriminate D. }
  apply filter_nil_all in E.
  unfold _validate_sql_structure.
  destruct (strip q) as [|c r] eqn:Q.
  - assert (upper (strip q) = []) as Z0 by (rewrite Q; reflexivity).
    rewrite upper_strip in Z0. rewrite Z0 in Sel. discriminate Sel.
  - rewrite <- Q, upper_strip, Sel, Fr, W', U'. cbn [negb orb].
    apply keyword_loop_clean. exact E.
Qed.

End SyntaxTest.

(** ** The further properties run on concrete collaborators *)

Lemma sample_rows_proper : Forall proper_row Sample.rows.
Proof.
  repeat constructor;
    (eexists; split; [reflexivity|]);
    repeat constructor; cbn; intuition discriminate.
Defined.

Lemma process_results_converts_each_row_witness :
  Forall proper_row Sample.rows
  /\ _process_query_results Demo.isoformat (VList Sample.rows)
     = inr (VList (map (converted_row Demo.isoformat) Sample.rows)).
Proof.
  split; [exact sample_rows_proper|].
  apply (process_results_converts_each_row Demo.isoformat Sample.rows).
  exact sample_rows_proper.
Defined.

Lemma process_results_leaves_no_datetime_witness :
  _process_query_results Demo.isoformat (VList Sample.rows)
  = inr (VList Sample.processed_rows)
  /\ exists rows,
      VList Sample.processed_rows = VList rows
      /\ Forall (fun row => exists d,
                     row = VDict d /\ NoDup (keys d)
                     /\ Forall (fun kv => is_datetime (snd kv) = false) d) rows.
Proof.
  split; [reflexivity|].
  apply (process_results_leaves_no_datetime Demo.isoformat (VList Sample.rows)
           (VList Sample.processed_rows)).
  reflexivity.
Defined.

Lemma process_results_idempotent_witness :
  _process_query_results Demo.isoformat (VList Sample.rows)
  = inr (VList Sample.processed_rows)
  /\ _process_query_results Demo.isoformat (VList Sample.processed_rows)
     = inr (VList Sample.processed_rows).
Proof.
  split; [reflexivity|].
  apply (process_results_idempotent Demo.isoformat (VList Sample.rows)
           (VList Sample.processed_rows)).
  reflexivity.
Defined.

Lemma process_results_raises_on_a_row_that_is_no_dictionary_witness :
  Forall (fun row => is_dict row = true) Sample.rows
  /\ is_dict (VInt 3) = false
  /\ _process_query_results Demo.isoformat
       (VList (Sample.rows ++ VInt 3 :: Sample.rows))
     = inl (AttributeError (VInt 3)).
Proof.
  assert (Forall (fun row => is_dict row = true) Sample.rows) as H
    by (repeat constructor).
  split; [exact H|]. split; [reflexivity|].
  apply (process_results_raises_on_a_row_that_is_no_dictionary Demo.isoformat
           Sample.rows (VInt 3) Sample.rows); [exact H|reflexivity].
Defined.



Lemma execute_query_answer_without_success_witness :
  validate_query (query_guard Sample.silent_agent) Demo.first_query 7
  = inr (true, py "Query is safe")
  /\ dict_get [("status", VStr (py "ok"))] "success" = None
  /\ fst (execute_query Demo.isoformat Demo.str_of_exception Sample.silent_agent
            Demo.first_query 7 Demo.start)
     = inr (failure (VStr (Demo.str_of_exception (KeyError (VStr (py "success")))))
                    Demo.first_query 7 (Demo.isoformat (clock Demo.start))).
Proof.
  split; [reflexivity|]. split; [reflexivity|].
  apply (execute_query_answer_without_success Demo.isoformat Demo.str_of_exception
           Sample.silent_agent Demo.first_query 7 Demo.start (py "Query is safe")
           [("status", VStr (py "ok"))]);
    reflexivity.
Defined.

Lemma get_query_statistics_of_no_rows_witness :
  execute_query_with_validation (db_manager Sample.empty_agent) Demo.start
    (fst (_prepare_query_parameters (stats_query Demo.first_query) 7))
    (snd (_prepare_query_parameters (stats_query Demo.first_query) 7))
  = inr (VDict [("success", VBool true);
                ("results", VList []);
                ("row_count", VInt 0);
                ("columns", VList [VStr (py "total_rows")])])
  /\ fst (get_query_statistics Demo.isoformat Demo.str_of_exception Sample.empty_agent
            Demo.first_query 7 Demo.start)
     = inr (VDict [("success", VBool true);
                   ("total_rows", VInt 0);
                   ("estimated_size", VStr (py "No data"));
                   ("columns", VList [VStr (py "total_rows")]);
                   ("query", VStr Demo.first_query);
                   ("timestamp", VStr (Demo.isoformat (clock Demo.start)))]).
Proof.
  split; [reflexivity|].
  apply (get_query_statistics_of_no_rows Demo.isoformat Demo.str_of_exception
           Sample.empty_agent Demo.first_query 7 Demo.start
           (VDict [("success", VBool true);
                   ("results", VList []);
                   ("row_count", VInt 0);
                   ("columns", VList [VStr (py "total_rows")])])
           (VBool true) (VList [VStr (py "total_rows")]));
    reflexivity.
Defined.

Lemma process_question_passes_on_a_refusal_witness :
  _generate_sql_query Sample.strftime Sample.refused_assistant Sample.question 7 Demo.start
  = (inr (Some Sample.generated_query), tick Demo.start)
  /\ validate_query (query_guard (query_execution_agent Sample.refused_assistant))
       Sample.generated_query 7
     = inr (false, py "Query structure is not allowed")
  /\ process_question Demo.isoformat Sample.strftime Demo.str_of_exception
       Sample.refused_assistant Sample.question 7 Demo.start
     = (inr (VDict [("success", VBool false);
                    ("error", VStr (py "Query blocked for security: "
                                      ++ py "Query structure is not allowed"));
                    ("response", VStr (py "Sorry, there was a problem: "
                                         ++ py "database"))]),
        tick (tick Demo.start))
  /\ driver_calls (tick (tick Demo.start)) = driver_calls Demo.start.
Proof.
  assert (_generate_sql_query Sample.strftime Sample.refused_assistant Sample.question 7
            Demo.start
          = (inr (Some Sample.generated_query), tick Demo.start)) as G
    by (vm_compute; reflexivity).
  split; [exact G|]. split; [reflexivity|].
  apply (process_question_passes_on_a_refusal Demo.isoformat Sample.strftime
           Demo.str_of_exception Sample.refused_assistant Sample.question 7 Demo.start
           Sample.generated_query (tick Demo.start)
           (py "Query structure is not allowed")
           (VStr (py "Sorry, there was a problem: " ++ py "database")));
    [exact G|reflexivity|reflexivity].
Defined.

Lemma process_question_returns_a_dictionary_witness :
  (forall q error kind,
      exists response,
        format_error_response (response_formatting_agent Sample.assistant) q error kind
        = inr response)
  /\ exists d b response w1,
      process_question Demo.isoformat Sample.strftime Demo.str_of_exception
        Sample.assistant Sample.question 7 Demo.start
      = (inr (VDict d), w1)
      /\ dict_get d "success" = Some (VBool b)
      /\ dict_get d "response" = Some response.
Proof.
  assert (forall q error kind,
             exists response,
               format_error_response (response_formatting_agent Sample.assistant)
                 q error kind
               = inr response) as F
    by (intros q error kind; eexists; reflexivity).
  split; [exact F|].
  apply (process_question_returns_a_dictionary Demo.isoformat Sample.strftime
           Demo.str_of_exception Sample.assistant Sample.question 7 Demo.start F).
Defined.

Lemma syntax_test_is_stricter_than_the_structure_check_witness :
  test_query_syntax Demo.isoformat Sample.spaced_query Demo.start
  = (inr Sample.spaced_report, tick Demo.start)
  /\ getitem Sample.spaced_report "syntax_valid" = inr (VBool true)
  /\ getitem Sample.spaced_report "has_where" = inr (VBool true)
  /\ getitem Sample.spaced_report "has_user_id" = inr (VBool true)
  /\ _validate_sql_structure (strip Sample.spaced_query) = true.
Proof.
  assert (test_query_syntax Demo.isoformat Sample.spaced_query Demo.start
          = (inr Sample.spaced_report, tick Demo.start)) as H
    by (vm_compute; reflexivity).
  split; [exact H|]. repeat (split; [reflexivity|]).
  apply (syntax_test_is_stricter_than_the_structure_check Demo.isoformat
           Sample.spaced_query Demo.start Sample.spaced_report (tick Demo.start) H);
    reflexivity.
Defined.

Lemma process_question_of_no_rows_witness :
  _generate_sql_query Sample.strftime Sample.empty_assistant Sample.question 7 Demo.start
  = (inr (Some Sample.generated_query), tick Demo.start)
  /\ execute_query Demo.isoformat Demo.str_of_exception
       (query_execution_agent Sample.empty_assistant) Sample.generated_query 7
       (tick Demo.start)
     = (inr Sample.empty_outcome, Sample.after_empty)
  /\ getitem Sample.empty_outcome "success" = inr (VBool true)
  /\ getitem Sample.empty_outcome "row_count" = inr (VInt 0)
  /\ process_question Demo.isoformat Sample.strftime Demo.str_of_exception
       Sample.empty_assistant Sample.question 7 Demo.start
     = (inr (VDict [("success", VBool true);
                    ("response", VStr (py "I found nothing."));
                    ("results", VList []);
                    ("sql_query", VStr Sample.generated_query);
                    ("user_id", VInt 7);
                    ("timestamp", VStr (Demo.isoformat (clock Sample.after_empty)));
                    ("agents_used",
                     VList [VStr (py "SQL Generation");
                            VStr (py "Query Execution");
                            VStr (py "Response Formatting")])]),
        tick Sample.after_empty).
Proof.
  assert (_generate_sql_query Sample.strftime Sample.empty_assistant Sample.question 7
            Demo.start
          = (inr (Some Sample.generated_query), tick Demo.start)) as G
    by (vm_compute; reflexivity).
  assert (execute_query Demo.isoformat Demo.str_of_exception
            (query_execution_agent Sample.empty_assistant) Sample.generated_query 7
            (tick Demo.start)
          = (inr Sample.empty_outcome, Sample.after_empty)) as X
    by (vm_compute; reflexivity).
  split; [exact G|]. split; [exact X|]. split; [reflexivity|]. split; [reflexivity|].
  apply (process_question_of_no_rows Demo.isoformat Sample.strftime
           Demo.str_of_exception Sample.empty_assistant Sample.question 7 Demo.start
           Sample.generated_query (tick Demo.start) Sample.empty_outcome
           Sample.after_empty (VBool true) (VInt 0) (VStr (py "I found nothing."))
           G X);
    reflexivity.
Defined.

Lemma execute_multiple_queries_outcomes_witness :
  (Z.abs 7 < 10 ^ 4300)%Z
  /\ exists rs w1,
      Batch.execute_multiple_queries Demo.isoformat Demo.str_of_exception Demo.agent
        [Demo.first_query; Demo.second_query; Demo.third_query] 7 Demo.start
      = (inr rs, w1)
      /\ length rs <= length [Demo.first_query; Demo.second_query; Demo.third_query]
      /\ ([Demo.first_query; Demo.second_query; Demo.third_query] <> [] -> rs <> [])
      /\ forallb succeeded (removelast rs) = true
      /\ (succeeded (last rs VNone) = true
          -> length rs = length [Demo.first_query; Demo.second_query; Demo.third_query])
      /\ (forall j r,
            nth_error rs j = Some r ->
            getitem r "query_index" = inr (VInt (Z.of_nat j))
            /\ getitem r "query"
               = inr (VStr (nth j [Demo.first_query; Demo.second_query; Demo.third_query]
                                []))).
Proof.
  assert (Z.abs 7 < 10 ^ 4300)%Z as U.
  { apply Z.lt_le_trans with (10 ^ 1)%Z; [reflexivity|].
    apply Z.pow_le_mono_r; lia. }
  split; [exact U|].
  apply (execute_multiple_queries_outcomes Demo.isoformat Demo.str_of_exception
           Demo.agent [Demo.first_query; Demo.second_query; Demo.third_query] 7
           Demo.start U).
Defined.

Lemma execute_multiple_queries_raises_beyond_the_digit_limit_witness :
  (10 ^ 4300 <= Z.abs (10 ^ 4300))%Z
  /\ exists e,
      Batch.execute_multiple_queries Demo.isoformat Demo.str_of_exception Demo.agent
        (Demo.first_query :: [Demo.third_query]) (10 ^ 4300) Demo.start
      = (inl e, Demo.start)
      /\ Batch.format_int (10 ^ 4300) = inl e.
Proof.
  assert (10 ^ 4300 <= Z.abs (10 ^ 4300))%Z as U.
  { rewrite Z.abs_eq; [apply Z.le_refl|]. apply Z.pow_nonneg. lia. }
  split; [exact U|].
  apply (execute_multiple_queries_raises_beyond_the_digit_limit Demo.isoformat
           Demo.str_of_exception Demo.agent Demo.first_query [Demo.third_query]
           (10 ^ 4300)%Z Demo.start U).
Defined.
